(** * Workshop marketplace client: filtering, rating, revenue, store writes

    A shallow embedding of the domain logic of the workshop marketplace
    client (browsing page, vendor dashboard and store actions) together with
    the properties its design document states about it.

    Conventions of the embedding.
    - A JavaScript [number] is an exact rational ([Qc]); rating values, which
      the rating buttons produce as the integers 1 to 5, are [Z].  Sums of
      such integers are exact in double precision and the quotient computed
      by the code is the double nearest to the rational quotient used here.
    - A JavaScript string is a [string] over the ASCII alphabet.
    - A JavaScript object used as a dictionary is a [gmap] keyed by strings;
      an optional field is an [option].
    - The document store, the identity provider and the object storage are
      external: their answers (write accepted or refused, upload finished or
      thrown) are explicit arguments of the operations that call them. *)

From Stdlib Require Import Ascii String QArith Qcanon.
From Stdlib Require Import Lqa.
From stdpp Require Import sorting.
From stdpp Require Import gmap strings list fin_maps numbers.


(** ** JavaScript values and built-ins *)

Module JS.

(** [Number] restricted to integer literals, as a rational. *)
Definition num (z : Z) : Qc := Qc_of_Z z.

(** [a || b] on an optional number: [undefined] and [0] are falsy. *)
Definition or_number (a : option Qc) (b : Qc) : Qc :=
  match a with
  | Some x => if decide (x = num 0) then b else x
  | None => b
  end.

(** [c.toLowerCase()] on one character of the ASCII alphabet. *)
Definition lower_ascii (c : ascii) : ascii :=
  let n := Ascii.N_of_ascii c in
  if (65 <=? n)%N && (n <=? 90)%N then Ascii.ascii_of_N (n + 32) else c.

(** [s.toLowerCase()]. *)
Fixpoint toLowerCase (s : string) : string :=
  match s with
  | EmptyString => EmptyString
  | String c s' => String (lower_ascii c) (toLowerCase s')
  end.

(** [s.startsWith(p)]. *)
Fixpoint startsWith (s p : string) : bool :=
  match p, s with
  | EmptyString, _ => true
  | String _ _, EmptyString => false
  | String a p', String b s' => bool_decide (a = b) && startsWith s' p'
  end.

(** [s.includes(sub)]: [sub] occurs in [s] at some position. *)
Fixpoint includes (s sub : string) : bool :=
  startsWith s sub ||
  match s with
  | EmptyString => false
  | String _ s' => includes s' sub
  end.

(** [Number(s)] on a string of decimal digits, [None] standing for [NaN].
    It is one admissible reading of the built-in conversion, used to run
    the filter on the values the rating selector offers; the filter itself
    is stated for an arbitrary conversion. *)
Definition digit (c : ascii) : option Z :=
  let n := Ascii.N_of_ascii c in
  if (48 <=? n)%N && (n <=? 57)%N then Some (Z.of_N (n - 48)) else None.

Fixpoint digits (acc : Z) (s : string) : option Z :=
  match s with
  | EmptyString => Some acc
  | String c s' =>
      match digit c with
      | Some d => digits (10 * acc + d) s'
      | None => None
      end
  end.

Definition NumberDec (s : string) : option Qc := num <$> digits 0 s.

(** [a || b] on an optional string: [undefined] and [""] are falsy. *)
Definition or_string (a : option string) (b : string) : string :=
  match a with
  | Some x => if bool_decide (x = "") then b else x
  | None => b
  end.

End JS.

(** ** The document store

    Documents are dictionaries of field values kept in named collections.
    The client library's write primitives are modelled by what its
    documentation promises: [updateDoc] overwrites exactly the fields named
    in its argument and fails on a missing document, [addDoc] creates a new
    document, [arrayUnion] adds an element to an array field unless it is
    already there, [arrayRemove] removes every occurrence of it. *)

Module Firestore.

Inductive Value :=
| VNull
| VString (s : string)
| VNumber (q : Qc)
| VBool (b : bool)
| VArray (l : list string)
| VMap (m : gmap string Z)
| VFile (name : string)
| VTimestamp.

(** What a write may carry for a field: a plain value or one of the
    library's transforms. *)
Inductive Field :=
| Plain (v : Value)
| ArrayUnion (x : string)
| ArrayRemove (x : string)
| ServerTimestamp.

Definition arrayUnion (x : string) (old : option Value) : list string :=
  match old with
  | Some (VArray l) => if bool_decide (x ∈ l) then l else l ++ [x]
  | _ => [x]
  end.

Definition arrayRemove (x : string) (old : option Value) : list string :=
  match old with
  | Some (VArray l) => List.filter (λ y, negb (bool_decide (y = x))) l
  | _ => []
  end.

Definition resolve (f : Field) (old : option Value) : Value :=
  match f with
  | Plain v => v
  | ArrayUnion x => VArray (arrayUnion x old)
  | ArrayRemove x => VArray (arrayRemove x old)
  | ServerTimestamp => VTimestamp
  end.

(** Field-wise merge of a write into a document. *)
Definition write (data : gmap string Field) (d : gmap string Value)
  : gmap string Value :=
  merge (λ f old, match f with
                  | Some f => Some (resolve f old)
                  | None => old
                  end) data d.

(** [updateDoc(doc(db, coll, id), data)]; [None] is a rejected promise. *)
Definition updateDoc (accepted : bool) (coll : gmap string (gmap string Value))
    (id : string) (data : gmap string Field)
  : option (gmap string (gmap string Value)) :=
  if accepted then
    match coll !! id with
    | Some d => Some (<[id := write data d]> coll)
    | None => None
    end
  else None.

(** [addDoc(collection(db, coll), data)]: the new document is appended
    under a fresh identifier, which the model leaves implicit. *)
Definition addDoc (accepted : bool) (coll : list (gmap string Value))
    (data : gmap string Field) : option (list (gmap string Value)) :=
  if accepted then Some (coll ++ [write data ∅]) else None.

(** The identifiers on which [doc(db, coll, id)] names the document [id]
    of the collection: one path segment, that is, not empty and without a
    slash.  On the empty identifier the call throws. *)
Definition documentId (id : string) : bool :=
  negb (bool_decide (id = "")) && negb (JS.includes id "/").

Record DB := {
  workshops : gmap string (gmap string Value);
  users : gmap string (gmap string Value);
  registrations : list (gmap string Value)
}.

End Firestore.

(** ** The browsing page (app/workshops/page.tsx) *)

Module Workshop.
(** [interface Workshop]. *)
Record t := {
  id : string;
  title : string;
  description : string;
  price : Qc;
  category : string;
  imageUrl : string;
  date : string;
  vendorId : string;
  location : string;
  ageGroup : string;
  rating : option Qc;
  ratingCount : option nat;
  ratings : option (gmap string Z)
}.
End Workshop.

Module Filters.
(** The seven pieces of filter state of the page. *)
Record t := {
  search : string;
  category : string;
  location : string;
  priceRange : string;
  ageGroup : string;
  ratingFilter : string;
  vendorFilter : string
}.
End Filters.

Module WorkshopsPage.
Import JS.

Section Filter.
(** The built-in [Number] applied to the rating selector's string;
    [None] is [NaN], against which every comparison is false. *)
Variable Number : string → option Qc.

Definition matchesSearch (c : Filters.t) (w : Workshop.t) : bool :=
  includes (toLowerCase (Workshop.title w)) (toLowerCase (Filters.search c)).

Definition matchesCategory (c : Filters.t) (w : Workshop.t) : bool :=
  bool_decide (Filters.category c = "All")
  || bool_decide (Workshop.category w = Filters.category c).

Definition matchesVendor (c : Filters.t) (w : Workshop.t) : bool :=
  bool_decide (Filters.vendorFilter c = "All")
  || bool_decide (Workshop.vendorId w = Filters.vendorFilter c).

Definition matchesLocation (c : Filters.t) (w : Workshop.t) : bool :=
  bool_decide (Filters.location c = "All")
  || bool_decide (Workshop.location w = Filters.location c).

Definition matchesAge (c : Filters.t) (w : Workshop.t) : bool :=
  bool_decide (Filters.ageGroup c = "All")
  || bool_decide (Workshop.ageGroup w = Filters.ageGroup c).

(** The chain of six [if] statements over [let matchesPrice = true]. *)
Definition matchesPrice (priceRange : string) (price : Qc) : bool :=
  let m := true in
  let m := if bool_decide (priceRange = "0-2500")
           then bool_decide (price ≤ num 2500)%Qc else m in
  let m := if bool_decide (priceRange = "2500-5000")
           then bool_decide (num 2500 < price)%Qc
                && bool_decide (price ≤ num 5000)%Qc else m in
  let m := if bool_decide (priceRange = "5000-10000")
           then bool_decide (num 5000 < price)%Qc
                && bool_decide (price ≤ num 10000)%Qc else m in
  let m := if bool_decide (priceRange = "10000-20000")
           then bool_decide (num 10000 < price)%Qc
                && bool_decide (price ≤ num 20000)%Qc else m in
  let m := if bool_decide (priceRange = "20000-30000")
           then bool_decide (num 20000 < price)%Qc
                && bool_decide (price ≤ num 30000)%Qc else m in
  let m := if bool_decide (priceRange = "30000+")
           then bool_decide (num 30000 < price)%Qc else m in
  m.

Definition matchesRating (c : Filters.t) (w : Workshop.t) : bool :=
  bool_decide (Filters.ratingFilter c = "All")
  || match Number (Filters.ratingFilter c) with
     | Some threshold =>
         bool_decide (threshold ≤ or_number (Workshop.rating w) (num 0))%Qc
     | None => false
     end.

(** The callback of [workshops.filter]. *)
Definition matches (c : Filters.t) (w : Workshop.t) : bool :=
  matchesSearch c w
  && matchesCategory c w
  && matchesVendor c w
  && matchesLocation c w
  && matchesAge c w
  && matchesPrice (Filters.priceRange c) (Workshop.price w)
  && matchesRating c w.

Definition filtered (workshops : list Workshop.t) (c : Filters.t)
  : list Workshop.t :=
  List.filter (matches c) workshops.

End Filter.

(** *** Page state and the three user actions *)

Record User := { uid : string }.

Record UserData := {
  favorites : option (list string);
  registeredWorkshops : option (list string)
}.

(** What the handlers read and write: the signed-in user (absent when
    unauthenticated), the user profile, the loaded workshops, the document
    store, and the traces of [alert], [console.error] and
    [window.location.reload]. *)
Record State := {
  user : option User;
  userData : option UserData;
  workshops : list Workshop.t;
  db : Firestore.DB;
  alerts : list string;
  errors : list string;
  reloads : nat
}.

Definition alert (msg : string) (st : State) : State :=
  {| user := user st; userData := userData st; workshops := workshops st;
     db := db st; alerts := alerts st ++ [msg]; errors := errors st;
     reloads := reloads st |}.

Definition console_error (msg : string) (st : State) : State :=
  {| user := user st; userData := userData st; workshops := workshops st;
     db := db st; alerts := alerts st; errors := errors st ++ [msg];
     reloads := reloads st |}.

Definition reload (st : State) : State :=
  {| user := user st; userData := userData st; workshops := workshops st;
     db := db st; alerts := alerts st; errors := errors st;
     reloads := S (reloads st) |}.

Definition setWorkshops (ws : list Workshop.t) (st : State) : State :=
  {| user := user st; userData := userData st; workshops := ws;
     db := db st; alerts := alerts st; errors := errors st;
     reloads := reloads st |}.

Definition setDbWorkshops (c : gmap string (gmap string Firestore.Value))
    (st : State) : State :=
  {| user := user st; userData := userData st; workshops := workshops st;
     db := {| Firestore.workshops := c;
              Firestore.users := Firestore.users (db st);
              Firestore.registrations := Firestore.registrations (db st) |};
     alerts := alerts st; errors := errors st; reloads := reloads st |}.

Definition setDbUsers (c : gmap string (gmap string Firestore.Value))
    (st : State) : State :=
  {| user := user st; userData := userData st; workshops := workshops st;
     db := {| Firestore.workshops := Firestore.workshops (db st);
              Firestore.users := c;
              Firestore.registrations := Firestore.registrations (db st) |};
     alerts := alerts st; errors := errors st; reloads := reloads st |}.

(** [toggleFavorite(workshopId)]; [accepted] is the store's answer to the
    write. *)
Definition toggleFavorite (accepted : bool) (workshopId : string)
    (st : State) : State :=
  match user st, userData st with
  | Some u, Some ud =>
      let isFav := match favorites ud with
                   | Some l => bool_decide (workshopId ∈ l)
                   | None => false
                   end in
      let data : gmap string Firestore.Field :=
        if isFav then {[ "favorites" := Firestore.ArrayRemove workshopId ]}
        else {[ "favorites" := Firestore.ArrayUnion workshopId ]} in
      match Firestore.updateDoc accepted (Firestore.users (db st))
              (uid u) data with
      | Some users' => reload (setDbUsers users' st)
      | None => console_error "Error toggling favorite:" st
      end
  | _, _ => alert "Please login to add to favorites." st
  end.

(** [handleRegisterClick(e, workshopId)]; the boolean is
    [e.defaultPrevented], that is, whether following the link to the
    registration page was cancelled. *)
Definition handleRegisterClick (workshopId : string) (st : State)
  : State * bool :=
  match user st with
  | None => (alert "Register or login to register for a workshop" st, true)
  | Some _ => (st, false)
  end.

(** [Object.values(o)]. *)
Definition Object_values (o : gmap string Z) : list Z := (map_to_list o).*2.

(** [values.reduce((a, b) => a + b, 0) / values.length]. *)
Definition average (values : list Z) : Qc :=
  (num (foldl Z.add 0%Z values) / num (Z.of_nat (length values)))%Qc.

(** [{ ...w, ratings, rating, ratingCount }]. *)
Definition withRating (ratings : gmap string Z) (rating : Qc)
    (ratingCount : nat) (w : Workshop.t) : Workshop.t :=
  {| Workshop.id := Workshop.id w;
     Workshop.title := Workshop.title w;
     Workshop.description := Workshop.description w;
     Workshop.price := Workshop.price w;
     Workshop.category := Workshop.category w;
     Workshop.imageUrl := Workshop.imageUrl w;
     Workshop.date := Workshop.date w;
     Workshop.vendorId := Workshop.vendorId w;
     Workshop.location := Workshop.location w;
     Workshop.ageGroup := Workshop.ageGroup w;
     Workshop.rating := Some rating;
     Workshop.ratingCount := Some ratingCount;
     Workshop.ratings := Some ratings |}.

(** The assignment [currentRatings[user.uid] = rating] writes into the
    object the found workshop holds, when it holds one: the loaded record
    sees the new entry before any field is recomputed. *)
Definition assignInPlace (userId : string) (rating : Z) (w : Workshop.t)
  : Workshop.t :=
  match Workshop.ratings w with
  | Some r =>
      {| Workshop.id := Workshop.id w;
         Workshop.title := Workshop.title w;
         Workshop.description := Workshop.description w;
         Workshop.price := Workshop.price w;
         Workshop.category := Workshop.category w;
         Workshop.imageUrl := Workshop.imageUrl w;
         Workshop.date := Workshop.date w;
         Workshop.vendorId := Workshop.vendorId w;
         Workshop.location := Workshop.location w;
         Workshop.ageGroup := Workshop.ageGroup w;
         Workshop.rating := Workshop.rating w;
         Workshop.ratingCount := Workshop.ratingCount w;
         Workshop.ratings := Some (<[userId := rating]> r) |}
  | None => w
  end.

(** Apply [f] to the record that [find] returns: the first with the id. *)
Fixpoint onFound (workshopId : string) (f : Workshop.t → Workshop.t)
    (ws : list Workshop.t) : list Workshop.t :=
  match ws with
  | [] => []
  | w :: ws' =>
      if bool_decide (Workshop.id w = workshopId) then f w :: ws'
      else w :: onFound workshopId f ws'
  end.

(** [handleRate(workshopId, rating)]; [accepted] is the store's answer to
    the write. *)
Definition handleRate (accepted : bool) (workshopId : string) (rating : Z)
    (st : State) : State :=
  match user st with
  | None => st
  | Some u =>
      match List.find (λ w, bool_decide (Workshop.id w = workshopId))
              (workshops st) with
      | None => st
      | Some workshop =>
          let currentRatings :=
            <[uid u := rating]> (default ∅ (Workshop.ratings workshop)) in
          let st := setWorkshops
                      (onFound workshopId (assignInPlace (uid u) rating)
                         (workshops st)) st in
          let values := Object_values currentRatings in
          let avg := average values in
          let data : gmap string Firestore.Field :=
            {[ "ratings" := Firestore.Plain (Firestore.VMap currentRatings);
               "rating" := Firestore.Plain (Firestore.VNumber avg);
               "ratingCount" :=
                 Firestore.Plain
                   (Firestore.VNumber (num (Z.of_nat (length values)))) ]} in
          match Firestore.updateDoc accepted (Firestore.workshops (db st))
                  workshopId data with
          | Some workshops' =>
              setWorkshops
                (List.map
                   (λ w, if bool_decide (Workshop.id w = workshopId)
                         then withRating currentRatings avg (length values) w
                         else w)
                   (workshops st))
                (setDbWorkshops workshops' st)
          | None => console_error "Error rating workshop:" st
          end
      end
  end.

(** The operation the design document calls [submitRating]: the record
    that [handleRate] puts in place of [w] for user [userId]. *)
Definition submitRating (w : Workshop.t) (userId : string) (rating : Z)
  : Workshop.t :=
  let currentRatings := <[userId := rating]> (default ∅ (Workshop.ratings w)) in
  let values := Object_values currentRatings in
  withRating currentRatings (average values) (length values) w.

(** *** What a workshop card shows *)

(** [userData?.registeredWorkshops?.includes(w.id)], falsy when absent. *)
Definition isRegistered (st : State) (w : Workshop.t) : bool :=
  match userData st with
  | Some ud =>
      match registeredWorkshops ud with
      | Some l => bool_decide (Workshop.id w ∈ l)
      | None => false
      end
  | None => false
  end.

(** [userData?.favorites?.includes(w.id)], falsy when absent. *)
Definition isFavorite (st : State) (w : Workshop.t) : bool :=
  match userData st with
  | Some ud =>
      match favorites ud with
      | Some l => bool_decide (Workshop.id w ∈ l)
      | None => false
      end
  | None => false
  end.

(** [w.ratings?.[user?.uid || ""] || 0]. *)
Definition userRating (st : State) (w : Workshop.t) : Z :=
  let key := or_string (uid <$> user st) "" in
  match Workshop.ratings w with
  | Some r =>
      match r !! key with
      | Some v => if bool_decide (v = 0%Z) then 0%Z else v
      | None => 0%Z
      end
  | None => 0%Z
  end.

(** The stars drawn lit among [[1, 2, 3, 4, 5]]: [star <= userRating]. *)
Definition litStars (st : State) (w : Workshop.t) : list Z :=
  List.filter (λ star, (star <=? userRating st w)%Z) [1; 2; 3; 4; 5]%Z.

End WorkshopsPage.

(** ** The store actions (firebase/workshopActions.ts) *)

Module WorkshopActions.
Import Firestore.

(** How an [async] action ends, with the store as it leaves it. *)
Inductive Outcome :=
| Resolved (db : DB)
| Rejected (db : DB).

Definition store (o : Outcome) : DB :=
  match o with Resolved db | Rejected db => db end.

Definition setWorkshops (c : gmap string (gmap string Value)) (db : DB) : DB :=
  {| workshops := c; users := users db; registrations := registrations db |}.

Definition setUsers (c : gmap string (gmap string Value)) (db : DB) : DB :=
  {| workshops := workshops db; users := c; registrations := registrations db |}.

Definition setRegistrations (c : list (gmap string Value)) (db : DB) : DB :=
  {| workshops := workshops db; users := users db; registrations := c |}.

(** Truthiness of a property read, [None] being [undefined]. *)
Definition truthy (v : option Value) : bool :=
  match v with
  | None | Some VNull => false
  | Some (VString s) => negb (bool_decide (s = ""))
  | Some (VNumber q) => negb (bool_decide (q = JS.num 0))
  | Some (VBool b) => b
  | Some (VArray _) | Some (VMap _) | Some (VFile _) | Some VTimestamp => true
  end.

(** [Partial<WorkshopData>]: which value each admitted key may hold. *)
Definition fieldType (k : string) (v : Value) : bool :=
  if bool_decide (k = "title") || bool_decide (k = "description")
     || bool_decide (k = "date") || bool_decide (k = "category")
     || bool_decide (k = "whatsappLink")
  then match v with VString _ => true | _ => false end
  else if bool_decide (k = "price")
  then match v with VNumber _ => true | _ => false end
  else if bool_decide (k = "image")
  then match v with VNull | VFile _ => true | _ => false end
  else false.

Definition PartialWorkshopData (data : gmap string Value) : Prop :=
  map_Forall (λ k v, fieldType k v = true) data.

(** [updateWorkshop(id, data)].  [upload] is what uploading the image and
    asking for its address yields ([None] when either throws), [accepted]
    the store's answer to the write. *)
Definition updateWorkshop (upload : option string) (accepted : bool)
    (id : string) (data : gmap string Value) (db : DB) : Outcome :=
  let uploaded := if truthy (data !! "image") then upload else Some "" in
  match uploaded with
  | None => Rejected db
  | Some imageUrl =>
      let cleanedData := delete "image" data in
      let cleanedData :=
        if negb (bool_decide (imageUrl = ""))
        then <["imageUrl" := VString imageUrl]> cleanedData
        else cleanedData in
      match updateDoc accepted (workshops db) id (Plain <$> cleanedData) with
      | Some workshops' => Resolved (setWorkshops workshops' db)
      | None => Rejected db
      end
  end.

(** [deleteWorkshop(id)]. *)
Definition deleteWorkshop (accepted : bool) (id : string) (db : DB) : Outcome :=
  if accepted then Resolved (setWorkshops (delete id (workshops db)) db)
  else Rejected db.

(** [registerForWorkshop(workshopId, userId, receiptFile)].  [upload] is
    the address of the uploaded receipt ([None] when the upload throws);
    the two booleans are the store's answers to the two writes. *)
Definition registerForWorkshop (upload : option string)
    (added updated : bool) (workshopId userId : string)
    (receiptFile : option string) (db : DB) : Outcome :=
  let uploaded := match receiptFile with
                  | Some _ => upload
                  | None => Some ""
                  end in
  match uploaded with
  | None => Rejected db
  | Some receiptUrl =>
      let data : gmap string Field :=
        {[ "workshopId" := Plain (VString workshopId);
           "userId" := Plain (VString userId);
           "receiptUrl" := Plain (VString receiptUrl);
           "status" := Plain (VString "pending");
           "createdAt" := ServerTimestamp;
           "consentAccepted" := Plain (VBool true) ]} in
      match addDoc added (registrations db) data with
      | None => Rejected db
      | Some registrations' =>
          let db := setRegistrations registrations' db in
          match updateDoc updated (users db) userId
                  {[ "registeredWorkshops" := ArrayUnion workshopId ]} with
          | None => Rejected db
          | Some users' => Resolved (setUsers users' db)
          end
      end
  end.

Module WorkshopData.
(** [interface WorkshopData]. *)
Record t := {
  title : string;
  description : string;
  price : Qc;
  date : string;
  category : string;
  image : option string;
  whatsappLink : option string
}.
End WorkshopData.

(** The "clean fields" [createWorkshop] stores. *)
Definition createdFields (vendorId imageUrl : string) (data : WorkshopData.t)
  : gmap string Field :=
  {[ "vendorId" := Plain (VString vendorId);
     "title" := Plain (VString (WorkshopData.title data));
     "description" := Plain (VString (WorkshopData.description data));
     "price" := Plain (VNumber (WorkshopData.price data));
     "category" := Plain (VString (WorkshopData.category data));
     "date" := Plain (VString (WorkshopData.date data));
     "whatsappLink" :=
       Plain (VString (JS.or_string (WorkshopData.whatsappLink data) ""));
     "imageUrl" := Plain (VString imageUrl);
     "createdAt" := ServerTimestamp ]}.

(** [createWorkshop(vendorId, data)].  [upload] is the address of the
    uploaded image ([None] when the upload throws), [accepted] the store's
    answer to the write and [newId] the identifier the store gives the new
    document. *)
Definition createWorkshop (upload : option string) (accepted : bool)
    (newId vendorId : string) (data : WorkshopData.t) (db : DB) : Outcome :=
  let uploaded := match WorkshopData.image data with
                  | Some _ => upload
                  | None => Some ""
                  end in
  match uploaded with
  | None => Rejected db
  | Some imageUrl =>
      if accepted
      then Resolved
             (setWorkshops
                (<[newId := write (createdFields vendorId imageUrl data) ∅]>
                   (workshops db)) db)
      else Rejected db
  end.

(** [where("vendorId", "==", vendorId)] on one document. *)
Definition ownedBy (vendorId : string) (d : gmap string Value) : bool :=
  match d !! "vendorId" with
  | Some (VString v) => bool_decide (v = vendorId)
  | _ => false
  end.

(** [getVendorWorkshops(vendorId)]: the documents whose [vendorId] is the
    given one, each as [{ id: doc.id, ...doc.data() }], so that a stored
    field named [id] takes the place of the document's identifier.  The
    order of the answer is the store's. *)
Definition getVendorWorkshops (vendorId : string) (db : DB)
  : list (gmap string Value) :=
  (λ kv, kv.2 ∪ {[ "id" := VString kv.1 ]})
  <$> map_to_list (filter (λ kv, ownedBy vendorId kv.2 = true) (workshops db)).

End WorkshopActions.

(** ** The vendor dashboard (app/vendor/page.tsx) *)

Module Participant.
(** [interface Participant]; [status] is whatever string the registration
    document carries. *)
Record t := {
  uid : string;
  displayName : string;
  email : string;
  phoneNumber : option string;
  receiptUrl : option string;
  status : option string;
  registrationId : option string
}.
End Participant.

Module VendorPage.
Import JS.

Module Workshop.
(** The dashboard's own [interface Workshop]. *)
Record t := {
  id : string;
  title : string;
  description : string;
  price : Qc;
  category : string;
  imageUrl : string;
  date : string;
  vendorId : string;
  whatsappLink : option string
}.
End Workshop.

(** The callback of [filter] in [totalRevenue]:
    [p.status === 'approved' || !p.status || p.status === 'pending']. *)
Definition counted (p : Participant.t) : bool :=
  bool_decide (Participant.status p = Some "approved")
  || match Participant.status p with
     | None => true
     | Some s => bool_decide (s = "")
     end
  || bool_decide (Participant.status p = Some "pending").

(** [participantsMap[ws.id]?.filter(...).length || 0]. *)
Definition count (participantsMap : gmap string (list Participant.t))
    (ws : Workshop.t) : nat :=
  match participantsMap !! Workshop.id ws with
  | Some ps => length (List.filter counted ps)
  | None => 0
  end.

(** [workshops.reduce((acc, ws) => acc + ws.price * count, 0)]. *)
Definition totalRevenue (workshops : list Workshop.t)
    (participantsMap : gmap string (list Participant.t)) : Qc :=
  foldl (λ acc ws,
           (acc + Workshop.price ws
                  * num (Z.of_nat (count participantsMap ws)))%Qc)
        (num 0) workshops.

(** The edit form and what [handleEdit] touches. *)
Record Form := {
  title : string;
  description : string;
  price : Qc;
  category : string;
  date : string;
  whatsappLink : string;
  image : option string;
  imagePreview : string
}.

Record State := {
  selectedWorkshop : option Workshop.t;
  form : Form;
  isEditOpen : bool;
  db : Firestore.DB;
  alerts : list string;
  errors : list string
}.

(** [resetForm()] leaves these values. *)
Definition emptyForm : Form :=
  {| title := ""; description := ""; price := num 0; category := "Art";
     date := ""; whatsappLink := ""; image := None; imagePreview := "" |}.

(** The object literal [handleEdit] passes to [updateWorkshop]. *)
Definition editPayload (f : Form) : gmap string Firestore.Value :=
  {[ "title" := Firestore.VString (title f);
     "description" := Firestore.VString (description f);
     "price" := Firestore.VNumber (price f);
     "category" := Firestore.VString (category f);
     "date" := Firestore.VString (date f);
     "whatsappLink" := Firestore.VString (whatsappLink f);
     "image" := match image f with
                | Some file => Firestore.VFile file
                | None => Firestore.VNull
                end ]}.

(** [handleEdit()].  After a successful update the form is reset, the
    dialog closed and the dashboard re-read from the store; the re-read
    writes nothing and is left out. *)
Definition handleEdit (upload : option string) (accepted : bool)
    (st : State) : State :=
  match selectedWorkshop st with
  | None => st
  | Some ws =>
      match WorkshopActions.updateWorkshop upload accepted (Workshop.id ws)
              (editPayload (form st)) (db st) with
      | WorkshopActions.Resolved db' =>
          {| selectedWorkshop := None; form := emptyForm;
             isEditOpen := false; db := db';
             alerts := alerts st; errors := errors st |}
      | WorkshopActions.Rejected db' =>
          {| selectedWorkshop := selectedWorkshop st; form := form st;
             isEditOpen := isEditOpen st; db := db';
             alerts := alerts st ++ ["Failed to update workshop."];
             errors := errors st
                       ++ ["VendorDashboard: Error updating workshop:"] |}
      end
  end.

End VendorPage.

(** ** The dialogs and counters of the dashboard (app/vendor/page.tsx) *)

Module VendorDashboard.
Import JS VendorPage.

(** [resetForm()]. *)
Definition resetForm (st : State) : State :=
  {| selectedWorkshop := None; form := emptyForm;
     isEditOpen := isEditOpen st; db := db st;
     alerts := alerts st; errors := errors st |}.

(** [openEditModal(ws)]. *)
Definition openEditModal (ws : Workshop.t) (st : State) : State :=
  {| selectedWorkshop := Some ws;
     form := {| title := Workshop.title ws;
                description := Workshop.description ws;
                price := Workshop.price ws;
                category := Workshop.category ws;
                date := Workshop.date ws;
                whatsappLink := or_string (Workshop.whatsappLink ws) "";
                image := None;
                imagePreview := "" |};
     isEditOpen := true; db := db st;
     alerts := alerts st; errors := errors st |}.

(** [handleImageChange(e)]: [file] is [e.target.files[0]] when a file was
    chosen, [preview] what [URL.createObjectURL] returns for it. *)
Definition handleImageChange (file : option string) (preview : string)
    (st : State) : State :=
  match file with
  | Some f =>
      {| selectedWorkshop := selectedWorkshop st;
         form := {| title := title (form st);
                    description := description (form st);
                    price := price (form st);
                    category := category (form st);
                    date := date (form st);
                    whatsappLink := whatsappLink (form st);
                    image := Some f;
                    imagePreview := preview |};
         isEditOpen := isEditOpen st; db := db st;
         alerts := alerts st; errors := errors st |}
  | None => st
  end.

(** The state [handleCreate] works on: the dashboard state, the signed-in
    vendor's uid and whether the create dialog is open. *)
Record Creating := {
  page : State;
  user : option string;
  isCreateOpen : bool
}.

(** The object literal [handleCreate] passes to [createWorkshop]. *)
Definition createPayload (f : Form) : WorkshopActions.WorkshopData.t :=
  {| WorkshopActions.WorkshopData.title := title f;
     WorkshopActions.WorkshopData.description := description f;
     WorkshopActions.WorkshopData.price := price f;
     WorkshopActions.WorkshopData.date := date f;
     WorkshopActions.WorkshopData.category := category f;
     WorkshopActions.WorkshopData.image := image f;
     WorkshopActions.WorkshopData.whatsappLink := Some (whatsappLink f) |}.

(** [!user || !title || !description || !category || !date]. *)
Definition incomplete (user : option string) (f : Form) : bool :=
  match user with None => true | Some _ => false end
  || bool_decide (title f = "")
  || bool_decide (description f = "")
  || bool_decide (category f = "")
  || bool_decide (date f = "").

(** [handleCreate()].  As in [handleEdit], the re-read of the dashboard
    that follows a successful creation writes nothing and is left out. *)
Definition handleCreate (upload : option string) (accepted : bool)
    (newId : string) (st : Creating) : Creating :=
  let p := page st in
  if incomplete (user st) (form p) then
    {| page := {| selectedWorkshop := selectedWorkshop p; form := form p;
                  isEditOpen := isEditOpen p; db := db p;
                  alerts := alerts p ++ ["Please fill all fields."];
                  errors := errors p |};
       user := user st; isCreateOpen := isCreateOpen st |}
  else
    match WorkshopActions.createWorkshop upload accepted newId
            (default "" (user st)) (createPayload (form p)) (db p) with
    | WorkshopActions.Resolved db' =>
        {| page := {| selectedWorkshop := None; form := emptyForm;
                      isEditOpen := isEditOpen p; db := db';
                      alerts := alerts p; errors := errors p |};
           user := user st; isCreateOpen := false |}
    | WorkshopActions.Rejected db' =>
        {| page := {| selectedWorkshop := selectedWorkshop p; form := form p;
                      isEditOpen := isEditOpen p; db := db';
                      alerts := alerts p ++ ["Failed to create workshop."];
                      errors := errors p
                                ++ ["VendorDashboard: Error creating workshop:"] |};
           user := user st; isCreateOpen := isCreateOpen st |}
    end.

(** [Object.values(participantsMap).reduce((acc, list) => acc + list.length, 0)]. *)
Definition totalParticipants
    (participantsMap : gmap string (list Participant.t)) : nat :=
  foldl (λ acc list, acc + length list) 0 (map_to_list participantsMap).*2.

(** *** Loading the participants (the loop of [fetchData])

    The loop reads registrations and profiles as the interfaces type them:
    [userId] a string, [status] a string when present, the profile's
    [uid], [displayName] and [email] strings.  A field that holds something
    else is outside the interface; the readers below take such a [userId]
    for one on which building the document reference throws, and read any
    other such field as if it were absent. *)

Section Fetch.

(** The identifier the store gave the registration at a position of the
    collection, and the order in which the store returns the documents a
    query selects, which is the store's own and not that of creation. *)
Variable regId : nat → string.
Variable queryOrder :
  list (string * gmap string Firestore.Value)
  → list (string * gmap string Firestore.Value).

Definition text (v : option Firestore.Value) : string :=
  match v with
  | Some (Firestore.VString s) => s
  | _ => ""
  end.

Definition optText (v : option Firestore.Value) : option string :=
  match v with
  | Some (Firestore.VString s) => Some s
  | _ => None
  end.

(** The documents of the registrations collection, each with its
    identifier. *)
Definition documents (regs : list (gmap string Firestore.Value))
  : list (string * gmap string Firestore.Value) :=
  imap (λ i regData, (regId i, regData)) regs.

(** [where("workshopId", "==", ws.id)] on one registration. *)
Definition registeredFor (workshopId : string)
    (regData : gmap string Firestore.Value) : bool :=
  match regData !! "workshopId" with
  | Some (Firestore.VString w) => bool_decide (w = workshopId)
  | _ => false
  end.

(** [snap.docs] for the query on the registrations of one workshop. *)
Definition registrationsOf (db : Firestore.DB) (workshopId : string)
  : list (string * gmap string Firestore.Value) :=
  queryOrder (filter (λ regDoc, registeredFor workshopId regDoc.2 = true)
                (documents (Firestore.registrations db))).

(** The object pushed for a registration whose user has a profile. *)
Definition participantOf (regDoc : string * gmap string Firestore.Value)
    (userData : gmap string Firestore.Value) : Participant.t :=
  {| Participant.uid := text (userData !! "uid");
     Participant.displayName := text (userData !! "displayName");
     Participant.email := text (userData !! "email");
     Participant.phoneNumber := optText (userData !! "phoneNumber");
     Participant.receiptUrl := optText (regDoc.2 !! "receiptUrl");
     Participant.status :=
       Some (or_string (optText (regDoc.2 !! "status")) "pending");
     Participant.registrationId := Some regDoc.1 |}.

(** What one round of the inner loop pushes: one participant when the user
    of the registration has a profile, nothing when there is none; [None]
    when building the reference to the profile throws, as it does on the
    empty identifier.  An identifier with a slash, which names no profile,
    is put with the empty one. *)
Definition pushed (db : Firestore.DB)
    (regDoc : string * gmap string Firestore.Value)
  : option (list Participant.t) :=
  match regDoc.2 !! "userId" with
  | Some (Firestore.VString userId) =>
      if Firestore.documentId userId then
        match Firestore.users db !! userId with
        | Some userData => Some [participantOf regDoc userData]
        | None => Some []
        end
      else None
  | _ => None
  end.

(** The inner loop over the documents of the snapshot. *)
Fixpoint collect (db : Firestore.DB)
    (docs : list (string * gmap string Firestore.Value))
  : option (list Participant.t) :=
  match docs with
  | [] => Some []
  | regDoc :: rest =>
      match pushed db regDoc, collect db rest with
      | Some p, Some ps => Some (p ++ ps)
      | _, _ => None
      end
  end.

(** The participants of one workshop; [None] when the [try] block threw. *)
Definition participantsFor (db : Firestore.DB) (workshopId : string)
  : option (list Participant.t) :=
  collect db (registrationsOf db workshopId).

(** The map [fetchData] builds over the fetched workshops: a workshop whose
    block threw gets no entry. *)
Definition fetchParticipants (data : list Workshop.t) (db : Firestore.DB)
  : gmap string (list Participant.t) :=
  foldl (λ pMap ws,
           match participantsFor db (Workshop.id ws) with
           | Some participants => <[Workshop.id ws := participants]> pMap
           | None => pMap
           end)
        ∅ data.

End Fetch.

End VendorDashboard.

(** ** The filter in the words of the design document *)

Section FilterSpec.
Import JS WorkshopsPage.

(** The conversion of the rating selector's string, as in [filtered]. *)
Variable Number : string → option Qc.

(** Case-insensitive substring match of the search text on the title; the
    empty search text matches every title. *)
Definition searchMatches (search title : string) : Prop :=
  search = ""
  ∨ ∃ pre t post,
      title = pre +:+ t +:+ post ∧ toLowerCase t = toLowerCase search.

(** Exact match, or the sentinel. *)
Definition selects (selector field : string) : Prop :=
  selector = "All" ∨ field = selector.

(** The six bucket names the price selector offers. *)
Definition bucketNames : list string :=
  ["0-2500"; "2500-5000"; "5000-10000"; "10000-20000"; "20000-30000";
   "30000+"].

(** Membership in the bucket a recognized selector names; any other
    selector, the sentinel included, constrains nothing. *)
Definition inBucket (selector : string) (price : Qc) : Prop :=
  (selector = "0-2500" → (price ≤ num 2500)%Qc)
  ∧ (selector = "2500-5000" → (num 2500 < price)%Qc ∧ (price ≤ num 5000)%Qc)
  ∧ (selector = "5000-10000" → (num 5000 < price)%Qc ∧ (price ≤ num 10000)%Qc)
  ∧ (selector = "10000-20000" → (num 10000 < price)%Qc ∧ (price ≤ num 20000)%Qc)
  ∧ (selector = "20000-30000" → (num 20000 < price)%Qc ∧ (price ≤ num 30000)%Qc)
  ∧ (selector = "30000+" → (num 30000 < price)%Qc).

(** Rating at least the numeric threshold, an absent rating counting as
    zero; the sentinel matches everything. *)
Definition reaches (selector : string) (rating : option Qc) : Prop :=
  selector = "All"
  ∨ ∃ threshold, Number selector = Some threshold
                 ∧ (threshold ≤ default (num 0) rating)%Qc.

Definition matchesSpec (c : Filters.t) (w : Workshop.t) : Prop :=
  searchMatches (Filters.search c) (Workshop.title w)
  ∧ selects (Filters.category c) (Workshop.category w)
  ∧ selects (Filters.vendorFilter c) (Workshop.vendorId w)
  ∧ selects (Filters.location c) (Workshop.location w)
  ∧ selects (Filters.ageGroup c) (Workshop.ageGroup w)
  ∧ inBucket (Filters.priceRange c) (Workshop.price w)
  ∧ reaches (Filters.ratingFilter c) (Workshop.rating w).

(** [l] keeps exactly the elements of [ws] that satisfy [P], in the order
    of [ws]. *)
Inductive keeps {A : Type} (P : A → Prop) : list A → list A → Prop :=
| keeps_nil : keeps P [] []
| keeps_take x ws l : P x → keeps P ws l → keeps P (x :: ws) (x :: l)
| keeps_drop x ws l : ¬ P x → keeps P ws l → keeps P (x :: ws) l.

End FilterSpec.

(** ** Ratings in the words of the design document *)

Section RatingSpec.
Import JS.

(** The ratings mapping of a record, empty when the field is absent. *)
Definition ratingsOf (w : Workshop.t) : gmap string Z :=
  default ∅ (Workshop.ratings w).

(** The sum of all values of a ratings mapping. *)
Definition total (m : gmap string Z) : Z :=
  map_fold (λ _ v acc, (v + acc)%Z) 0%Z m.

(** The arithmetic mean of all values of a ratings mapping. *)
Definition mean (m : gmap string Z) : Qc :=
  (num (total m) / num (Z.of_nat (size m)))%Qc.

(** The invariant of a rated record: both derived fields agree with the
    mapping. *)
Definition consistent (w : Workshop.t) : Prop :=
  Workshop.rating w = Some (mean (ratingsOf w))
  ∧ Workshop.ratingCount w = Some (size (ratingsOf w)).

(** The three fields a rating sends to the store. *)
Definition ratingData (cur : gmap string Z) : gmap string Firestore.Field :=
  {[ "ratings" := Firestore.Plain (Firestore.VMap cur);
     "rating" := Firestore.Plain (Firestore.VNumber (mean cur));
     "ratingCount" :=
       Firestore.Plain (Firestore.VNumber (num (Z.of_nat (size cur)))) ]}.

End RatingSpec.

(** ** Revenue in the words of the design document *)

Section RevenueSpec.
Import JS.

(** A participant counts when the status is "approved", "pending" or
    absent. *)
Definition countsAsRevenue (p : Participant.t) : Prop :=
  Participant.status p = Some "approved"
  ∨ Participant.status p = Some "pending"
  ∨ Participant.status p = None.

#[global] Instance countsAsRevenue_dec p : Decision (countsAsRevenue p).
Proof. unfold countsAsRevenue. apply _. Defined.

(** The participants of a record, none when the mapping has no entry. *)
Definition participantsOf (participantsMap : gmap string (list Participant.t))
    (ws : VendorPage.Workshop.t) : list Participant.t :=
  default [] (participantsMap !! VendorPage.Workshop.id ws).

(** The price times the number of participants that count. *)
Definition revenueOf (participantsMap : gmap string (list Participant.t))
    (ws : VendorPage.Workshop.t) : Qc :=
  (VendorPage.Workshop.price ws
   * num (Z.of_nat (length (filter countsAsRevenue
                              (participantsOf participantsMap ws)))))%Qc.

(** The sum over all records. *)
Fixpoint aggregateRevenue (workshops : list VendorPage.Workshop.t)
    (participantsMap : gmap string (list Participant.t)) : Qc :=
  match workshops with
  | [] => num 0
  | ws :: rest =>
      (revenueOf participantsMap ws + aggregateRevenue rest participantsMap)%Qc
  end.

(** Statuses as the dashboard loads them: a status that is present is not
    the empty string. *)
Definition statusesLoaded (participantsMap : gmap string (list Participant.t))
  : Prop :=
  ∀ id ps p, participantsMap !! id = Some ps → p ∈ ps →
             Participant.status p ≠ Some "".

End RevenueSpec.

(** ** Unauthenticated actions in the words of the design document *)

Section GateSpec.
Import WorkshopsPage.

(** The current user is absent. *)
Definition unauthenticated (st : State) : Prop := user st = None.

(** No state written: the store, the loaded workshops and the session are
    as before, and the page was not reloaded. *)
Definition nothingWritten (st st' : State) : Prop :=
  db st' = db st
  ∧ workshops st' = workshops st
  ∧ user st' = user st
  ∧ userData st' = userData st
  ∧ reloads st' = reloads st.

(** The abort is surfaced as a blocking notice: one more [alert]. *)
Definition noticeShown (st st' : State) : Prop :=
  ∃ msg, alerts st' = alerts st ++ [msg].

(** An action ends in [st'] aborted as the document describes. *)
Definition abortedWithNotice (st st' : State) : Prop :=
  nothingWritten st st' ∧ noticeShown st st'.

End GateSpec.

(** ** Store actions in the words of the design document *)

Section ActionSpec.
Import Firestore.

(** The ratings mapping and the two fields derived from it are the same
    in both documents. *)
Definition sameRatings (d d' : gmap string Value) : Prop :=
  d' !! "ratings" = d !! "ratings"
  ∧ d' !! "rating" = d !! "rating"
  ∧ d' !! "ratingCount" = d !! "ratingCount".

(** No raw file object was written: a field of [d'] holding one held it
    in [d] already. *)
Definition noFileWritten (d d' : gmap string Value) : Prop :=
  ∀ k file, d' !! k = Some (VFile file) → d !! k = Some (VFile file).

(** What an edit sends to the store: the payload without its image, and the
    address of the uploaded image under [imageUrl] when there is one. *)
Definition cleaned (imageUrl : string) (data : gmap string Value)
  : gmap string Value :=
  if negb (bool_decide (imageUrl = ""))
  then <["imageUrl" := VString imageUrl]> (delete "image" data)
  else delete "image" data.

(** Occurrences of [x] in an array field, none when the field is absent
    or holds no array. *)
Definition occurrences (x : string) (v : option Value) : nat :=
  match v with
  | Some (VArray l) => length (filter (λ y, y = x) l)
  | _ => 0
  end.

(** How often [workshopId] occurs in the registered workshops of a user. *)
Definition registeredCount (db : DB) (userId workshopId : string) : nat :=
  match users db !! userId with
  | Some profile => occurrences workshopId (profile !! "registeredWorkshops")
  | None => 0
  end.

(** The workshops a user's profile lists as registered, none when the
    user has no profile or the field holds no array. *)
Definition registeredOf (db : DB) (userId : string) : list string :=
  match users db !! userId with
  | Some profile =>
      match profile !! "registeredWorkshops" with
      | Some (VArray l) => l
      | _ => []
      end
  | None => []
  end.

(** [new] is the set union of [old] with [x]: [old] itself when it holds
    [x] already, and [old] followed by [x] otherwise. *)
Definition unionWith (x : string) (old new : list string) : Prop :=
  (x ∈ old ∧ new = old) ∨ ((x ∉ old) ∧ new = old ++ [x]).

(** The answers under which a call can go through: the receipt, when there
    is one, was uploaded, and the store accepted both writes. *)
Definition goesThrough (upload : option string) (added updated : bool)
    (receiptFile : option string) : Prop :=
  (receiptFile = None ∨ is_Some upload) ∧ added = true ∧ updated = true.

(** The registration document the action creates. *)
Definition registration (workshopId userId receiptUrl : string)
  : gmap string Value :=
  write {[ "workshopId" := Plain (VString workshopId);
           "userId" := Plain (VString userId);
           "receiptUrl" := Plain (VString receiptUrl);
           "status" := Plain (VString "pending");
           "createdAt" := ServerTimestamp;
           "consentAccepted" := Plain (VBool true) ]} ∅.

(** A registration document as it must start out. *)
Definition startsPending (workshopId userId : string)
    (r : gmap string Value) : Prop :=
  r !! "status" = Some (VString "pending")
  ∧ r !! "consentAccepted" = Some (VBool true)
  ∧ r !! "workshopId" = Some (VString workshopId)
  ∧ r !! "userId" = Some (VString userId).

End ActionSpec.

(** ** Notions used for the further properties *)

Section FurtherNotions.
Import JS WorkshopsPage.

(** [c'] asks for no more than [c]: each of its criteria is the one of [c]
    or is vacuous. *)
Definition relaxes (c' c : Filters.t) : Prop :=
  (Filters.search c' = "" ∨ Filters.search c' = Filters.search c)
  ∧ (Filters.category c' = "All" ∨ Filters.category c' = Filters.category c)
  ∧ (Filters.vendorFilter c' = "All"
     ∨ Filters.vendorFilter c' = Filters.vendorFilter c)
  ∧ (Filters.location c' = "All" ∨ Filters.location c' = Filters.location c)
  ∧ (Filters.ageGroup c' = "All" ∨ Filters.ageGroup c' = Filters.ageGroup c)
  ∧ (Filters.priceRange c' = "All"
     ∨ Filters.priceRange c' = Filters.priceRange c)
  ∧ (Filters.ratingFilter c' = "All"
     ∨ Filters.ratingFilter c' = Filters.ratingFilter c).

(** The favorites array a profile document holds, empty when the field is
    absent or holds no array. *)
Definition favoritesOf (profile : gmap string Firestore.Value) : list string :=
  match profile !! "favorites" with
  | Some (Firestore.VArray l) => l
  | _ => []
  end.

(** Whether the page takes [workshopId] for a favorite: the test
    [userData.favorites?.includes(workshopId)] of [toggleFavorite]. *)
Definition knownFavorite (st : State) (workshopId : string) : bool :=
  match userData st with
  | Some ud =>
      match favorites ud with
      | Some l => bool_decide (workshopId ∈ l)
      | None => false
      end
  | None => false
  end.

(** The stored document [d] agrees with the loaded record [ws] on the
    fields the edit dialog shows. *)
Definition mirrors (ws : VendorPage.Workshop.t)
    (d : gmap string Firestore.Value) : Prop :=
  d !! "title" = Some (Firestore.VString (VendorPage.Workshop.title ws))
  ∧ d !! "description"
    = Some (Firestore.VString (VendorPage.Workshop.description ws))
  ∧ d !! "price" = Some (Firestore.VNumber (VendorPage.Workshop.price ws))
  ∧ d !! "category"
    = Some (Firestore.VString (VendorPage.Workshop.category ws))
  ∧ d !! "date" = Some (Firestore.VString (VendorPage.Workshop.date ws)).

(** Registrations as [registerForWorkshop] writes them, as far as the
    dashboard reads them: the status is absent or a string, and the user
    is named by the empty string or by a document identifier. *)
Definition typedRegistrations (db : Firestore.DB) : Prop :=
  ∀ r, r ∈ Firestore.registrations db →
       (r !! "status" = None ∨ ∃ s, r !! "status" = Some (Firestore.VString s))
       ∧ (∀ userId, r !! "userId" = Some (Firestore.VString userId) →
                    userId = "" ∨ Firestore.documentId userId = true).


(** The profiles of [db'] are those of [db] as far as the dashboard reads
    them: the same users have one, with the same [uid], [displayName],
    [email] and [phoneNumber]. *)
Definition sameIdentities (db db' : Firestore.DB) : Prop :=
  ∀ userId,
    match Firestore.users db !! userId, Firestore.users db' !! userId with
    | Some p, Some p' =>
        p' !! "uid" = p !! "uid" ∧ p' !! "displayName" = p !! "displayName"
        ∧ p' !! "email" = p !! "email" ∧ p' !! "phoneNumber" = p !! "phoneNumber"
    | None, None => True
    | _, _ => False
    end.

End FurtherNotions.

(** ** Sample data *)

Module Sample.
Import JS Firestore WorkshopsPage.

(** A workshop rated 4 by [u1] and 5 by [u2]. *)
Definition yoga : Workshop.t :=
  {| Workshop.id := "w1"; Workshop.title := "Morning Yoga";
     Workshop.description := "Stretch and breathe";
     Workshop.price := num 2500; Workshop.category := "Sports";
     Workshop.imageUrl := "https://img/yoga.png";
     Workshop.date := "2025-03-01"; Workshop.vendorId := "v1";
     Workshop.location := "Colombo"; Workshop.ageGroup := "Adults";
     Workshop.rating := Some (Q2Qc 4.5); Workshop.ratingCount := Some 2;
     Workshop.ratings := Some {[ "u1" := 4%Z; "u2" := 5%Z ]} |}.

(** A workshop nobody has rated. *)
Definition pottery : Workshop.t :=
  {| Workshop.id := "w2"; Workshop.title := "Pottery for Kids";
     Workshop.description := "Clay and wheel";
     Workshop.price := num 2501; Workshop.category := "Art";
     Workshop.imageUrl := "https://img/pottery.png";
     Workshop.date := "2025-04-12"; Workshop.vendorId := "v2";
     Workshop.location := "Kandy"; Workshop.ageGroup := "Kids";
     Workshop.rating := None; Workshop.ratingCount := None;
     Workshop.ratings := None |}.

Definition yogaDoc : gmap string Value :=
  {[ "title" := VString "Morning Yoga"; "price" := VNumber (num 2500);
     "imageUrl" := VString "https://img/yoga.png";
     "ratings" := VMap {[ "u1" := 4%Z; "u2" := 5%Z ]};
     "rating" := VNumber (Q2Qc 4.5); "ratingCount" := VNumber (num 2) ]}.

Definition potteryDoc : gmap string Value :=
  {[ "title" := VString "Pottery for Kids"; "price" := VNumber (num 2501);
     "imageUrl" := VString "https://img/pottery.png" ]}.

Definition store : DB :=
  {| Firestore.workshops := {[ "w1" := yogaDoc; "w2" := potteryDoc ]};
     users := {[ "u1" := {[ "role" := VString "user" ]};
                 "u2" := {[ "role" := VString "user";
                            "registeredWorkshops" := VArray ["w1"] ]} ]};
     registrations := [] |}.

Definition u1 : User := {| uid := "u1" |}.

(** The page as [u1] sees it, and as a visitor who is not signed in. *)
Definition page : State :=
  {| user := Some u1;
     userData := Some {| favorites := Some ["w2"];
                         registeredWorkshops := Some ["w1"] |};
     WorkshopsPage.workshops := [yoga; pottery]; db := store;
     alerts := []; errors := []; reloads := 0 |}.

Definition visitor : State :=
  {| user := None; userData := None;
     WorkshopsPage.workshops := [yoga; pottery]; db := store;
     alerts := []; errors := []; reloads := 0 |}.

(** All selectors at their sentinel, empty search text. *)
Definition noFilter : Filters.t :=
  {| Filters.search := ""; Filters.category := "All";
     Filters.location := "All"; Filters.priceRange := "All";
     Filters.ageGroup := "All"; Filters.ratingFilter := "All";
     Filters.vendorFilter := "All" |}.

(** One workshop priced 1000 with a pending, an approved and a rejected
    participant. *)
Definition participant (name : string) (status : option string)
  : Participant.t :=
  {| Participant.uid := name; Participant.displayName := name;
     Participant.email := name +:+ "@example.org";
     Participant.phoneNumber := None; Participant.receiptUrl := None;
     Participant.status := status; Participant.registrationId := None |}.

Definition drumming : VendorPage.Workshop.t :=
  {| VendorPage.Workshop.id := "w3";
     VendorPage.Workshop.title := "Drumming";
     VendorPage.Workshop.description := "Rhythm basics";
     VendorPage.Workshop.price := num 1000;
     VendorPage.Workshop.category := "Music";
     VendorPage.Workshop.imageUrl := "";
     VendorPage.Workshop.date := "2025-05-20";
     VendorPage.Workshop.vendorId := "v1";
     VendorPage.Workshop.whatsappLink := None |}.

Definition drummers : gmap string (list Participant.t) :=
  {[ "w3" := [ participant "ann" (Some "pending");
               participant "bob" (Some "approved");
               participant "cy" (Some "rejected") ] ]}.

(** The edit form with a new title and a newly chosen image. *)
Definition editForm : VendorPage.Form :=
  {| VendorPage.title := "Sunrise Yoga";
     VendorPage.description := "Stretch and breathe";
     VendorPage.price := num 3000; VendorPage.category := "Sports";
     VendorPage.date := "2025-03-08"; VendorPage.whatsappLink := "";
     VendorPage.image := Some "sunrise.png";
     VendorPage.imagePreview := "blob:sunrise" |}.

(** Criteria with a search text, a price bucket and a minimum rating. *)
Definition yogaSearch : Filters.t :=
  {| Filters.search := "YOGA"; Filters.category := "All";
     Filters.location := "All"; Filters.priceRange := "0-2500";
     Filters.ageGroup := "All"; Filters.ratingFilter := "4";
     Filters.vendorFilter := "All" |}.

(** Criteria that only ask for a minimum rating. *)
Definition minRating (selector : string) : Filters.t :=
  {| Filters.search := ""; Filters.category := "All";
     Filters.location := "All"; Filters.priceRange := "All";
     Filters.ageGroup := "All"; Filters.ratingFilter := selector;
     Filters.vendorFilter := "All" |}.

(** [u1] with one stored favorite, and the page after [u1] has marked
    [w1] as a favorite and the page has reloaded. *)
Definition fanStore : DB :=
  {| Firestore.workshops := {[ "w1" := yogaDoc; "w2" := potteryDoc ]};
     users := {[ "u1" := {[ "role" := VString "user";
                            "favorites" := VArray ["w2"] ]} ]};
     registrations := [] |}.

Definition fanPage : State :=
  {| user := Some u1;
     userData := Some {| favorites := Some ["w2"];
                         registeredWorkshops := Some ["w1"] |};
     WorkshopsPage.workshops := [yoga; pottery]; db := fanStore;
     alerts := []; errors := []; reloads := 0 |}.

Definition fanPageReloaded : State :=
  {| user := Some u1;
     userData := Some {| favorites := Some ["w2"; "w1"];
                         registeredWorkshops := Some ["w1"] |};
     WorkshopsPage.workshops := [yoga; pottery];
     db := db (toggleFavorite true "w1" fanPage);
     alerts := []; errors := []; reloads := 0 |}.

(** A new workshop as the create dialog submits it. *)
Definition chessData : WorkshopActions.WorkshopData.t :=
  {| WorkshopActions.WorkshopData.title := "Chess Club";
     WorkshopActions.WorkshopData.description := "Openings and endgames";
     WorkshopActions.WorkshopData.price := num 1500;
     WorkshopActions.WorkshopData.date := "2025-06-01";
     WorkshopActions.WorkshopData.category := "Other";
     WorkshopActions.WorkshopData.image := Some "chess.png";
     WorkshopActions.WorkshopData.whatsappLink := None |}.

(** The dashboard of vendor [v1] over a store that holds the drumming
    workshop as the dashboard has loaded it. *)
Definition drummingDoc : gmap string Value :=
  {[ "vendorId" := VString "v1"; "title" := VString "Drumming";
     "description" := VString "Rhythm basics"; "price" := VNumber (num 1000);
     "category" := VString "Music"; "date" := VString "2025-05-20";
     "imageUrl" := VString ""; "ratings" := VMap {[ "u2" := 5%Z ]} ]}.

Definition vendorStore : DB :=
  {| Firestore.workshops := {[ "w3" := drummingDoc ]};
     users := {[ "u1" := {[ "role" := VString "user" ]} ]};
     registrations := [] |}.

Definition dashboard : VendorPage.State :=
  {| VendorPage.selectedWorkshop := None;
     VendorPage.form := VendorPage.emptyForm;
     VendorPage.isEditOpen := false; VendorPage.db := vendorStore;
     VendorPage.alerts := []; VendorPage.errors := [] |}.

(** The create dialog filled in, and with the title left empty. *)
Definition chessForm (title : string) : VendorPage.Form :=
  {| VendorPage.title := title;
     VendorPage.description := "Openings and endgames";
     VendorPage.price := num 0; VendorPage.category := "Other";
     VendorPage.date := "2025-06-01"; VendorPage.whatsappLink := "";
     VendorPage.image := None; VendorPage.imagePreview := "" |}.

Definition creating (title : string) : VendorDashboard.Creating :=
  {| VendorDashboard.page :=
       {| VendorPage.selectedWorkshop := None;
          VendorPage.form := chessForm title;
          VendorPage.isEditOpen := false; VendorPage.db := vendorStore;
          VendorPage.alerts := []; VendorPage.errors := [] |};
     VendorDashboard.user := Some "v1";
     VendorDashboard.isCreateOpen := true |}.

(** The store with two registrations for the drumming workshop, the first
    written without a status; and names for the registrations. *)
Definition bookedStore : DB :=
  {| Firestore.workshops := {[ "w3" := drummingDoc ]};
     users := {[ "u1" := {[ "uid" := VString "u1";
                            "displayName" := VString "Uma";
                            "email" := VString "uma@example.org" ]} ]};
     registrations :=
       [ {[ "workshopId" := VString "w3"; "userId" := VString "u1" ]};
         {[ "workshopId" := VString "w3"; "userId" := VString "u1";
            "status" := VString "approved" ]} ] |}.

(** Identifiers that fall with the time of creation, and the documents of
    a query in the order of their identifiers. *)
Definition regName (n : nat) : string :=
  String (Ascii.ascii_of_nat (57 - n)) "".

Definition byId (docs : list (string * gmap string Value))
  : list (string * gmap string Value) :=
  @merge_sort _ (λ a b, String.leb a.1 b.1 = true)
    (λ a b, decide (String.leb a.1 b.1 = true)) docs.

End Sample.

(** ** Facts about the string built-ins *)

Section StringFacts.
Import JS.

Lemma append_cons c (s t : string) : String c s +:+ t = String c (s +:+ t).
Proof. reflexivity. Qed.

Lemma append_empty (t : string) : "" +:+ t = t.
Proof. reflexivity. Qed.

Lemma toLowerCase_app s t :
  toLowerCase (s +:+ t) = toLowerCase s +:+ toLowerCase t.
Proof.
  induction s as [|c s IH]; [reflexivity |].
  rewrite append_cons. simpl. by rewrite IH.
Qed.

Lemma startsWith_spec s p :
  startsWith s p = true ↔ ∃ post, s = p +:+ post.
Proof.
  revert s. induction p as [|a p IH]; intros s.
  - split; [intros _; by exists s | by destruct s].
  - destruct s as [|b s]; simpl.
    + split; [done | intros [post Hpost]; discriminate].
    + rewrite andb_true_iff, bool_decide_eq_true, IH. split.
      * intros [-> [post ->]]. by exists post.
      * intros [post Hpost]. rewrite append_cons in Hpost.
        injection Hpost as -> ->. eauto.
Qed.

(** [includes] is the substring relation. *)
Lemma includes_spec s sub :
  includes s sub = true ↔ ∃ pre post, s = pre +:+ sub +:+ post.
Proof.
  induction s as [|c s IH]; cbn [includes].
  - rewrite orb_false_r, startsWith_spec. split.
    + intros [post Hpost]. by exists "", post.
    + intros [pre [post Hs]]. destruct pre; [by exists post | discriminate].
  - rewrite orb_true_iff, startsWith_spec, IH. split.
    + intros [[post Hpost] | [pre [post Hs]]].
      * by exists "", post.
      * exists (String c pre), post. by rewrite append_cons, Hs.
    + intros [pre [post Hs]]. destruct pre as [|c' pre].
      * left. by exists post.
      * right. rewrite append_cons in Hs. injection Hs as -> ->.
        by exists pre, post.
Qed.

Lemma includes_empty s : includes s "" = true.
Proof. destruct s; reflexivity. Qed.

(** Splitting a lowered string splits the original at the same places. *)
Lemma toLowerCase_split s u v :
  toLowerCase s = u +:+ v →
  ∃ s1 s2, s = s1 +:+ s2 ∧ toLowerCase s1 = u ∧ toLowerCase s2 = v.
Proof.
  revert s. induction u as [|a u IH]; intros s Hs.
  - by exists "", s.
  - rewrite append_cons in Hs.
    destruct s as [|c s]; simpl in Hs; [discriminate |].
    injection Hs as Hc Hs. destruct (IH _ Hs) as (s1 & s2 & -> & <- & <-).
    exists (String c s1), s2. simpl. by rewrite Hc.
Qed.

End StringFacts.

(** ** The filter of the browsing page *)

Section FilterFacts.
Import JS WorkshopsPage.

(** The conversion of the rating selector's string, as in [filtered]. *)
Variable Number : string → option Qc.

Lemma or_number_default (a : option Qc) :
  or_number a (num 0) = default (num 0) a.
Proof.
  destruct a as [x|]; simpl; [| done]. by case_decide.
Qed.

Lemma matchesSearch_iff c w :
  matchesSearch c w = true
  ↔ searchMatches (Filters.search c) (Workshop.title w).
Proof.
  unfold matchesSearch, searchMatches. rewrite includes_spec. split.
  - intros (pre & post & Hsplit). right.
    apply toLowerCase_split in Hsplit as (s1 & s2 & Ht & H1 & H2).
    apply toLowerCase_split in H2 as (t & s3 & -> & H2 & H3).
    by exists s1, t, s3.
  - intros [-> | (pre & t & post & -> & Ht)].
    + exists "", (toLowerCase (Workshop.title w)). reflexivity.
    + rewrite !toLowerCase_app, Ht. eauto.
Qed.

Lemma selector_iff (selector field : string) :
  bool_decide (selector = "All") || bool_decide (field = selector) = true
  ↔ selects selector field.
Proof.
  unfold selects. by rewrite orb_true_iff, !bool_decide_eq_true.
Qed.

(** The chain of [if]s with the selector known. *)
Ltac price_chain :=
  unfold matchesPrice; cbv zeta;
  repeat match goal with
         | |- context [bool_decide (?a = ?b)] =>
             first [ rewrite (bool_decide_eq_true_2 (a = b)) by done
                   | rewrite (bool_decide_eq_false_2 (a = b)) by done ]
         end.

Ltac bucket_case :=
  split;
  [ intros ?; split_and!; intros ?; (done || discriminate)
  | intros (? & ? & ? & ? & ? & ?); auto ].

Lemma matchesPrice_inBucket selector price :
  matchesPrice selector price = true ↔ inBucket selector price.
Proof.
  unfold inBucket.
  destruct (decide (selector = "0-2500")) as [-> | H1].
  { price_chain. rewrite bool_decide_eq_true. bucket_case. }
  destruct (decide (selector = "2500-5000")) as [-> | H2].
  { price_chain. rewrite andb_true_iff, !bool_decide_eq_true. bucket_case. }
  destruct (decide (selector = "5000-10000")) as [-> | H3].
  { price_chain. rewrite andb_true_iff, !bool_decide_eq_true. bucket_case. }
  destruct (decide (selector = "10000-20000")) as [-> | H4].
  { price_chain. rewrite andb_true_iff, !bool_decide_eq_true. bucket_case. }
  destruct (decide (selector = "20000-30000")) as [-> | H5].
  { price_chain. rewrite andb_true_iff, !bool_decide_eq_true. bucket_case. }
  destruct (decide (selector = "30000+")) as [-> | H6].
  { price_chain. rewrite bool_decide_eq_true. bucket_case. }
  price_chain. split; [| done]. intros _. by split_and!.
Qed.

Lemma matchesRating_iff c w :
  matchesRating Number c w = true
  ↔ reaches Number (Filters.ratingFilter c) (Workshop.rating w).
Proof.
  unfold matchesRating, reaches.
  rewrite orb_true_iff, bool_decide_eq_true, or_number_default.
  destruct (Number (Filters.ratingFilter c)) as [t|].
  - rewrite bool_decide_eq_true. split.
    + intros [? | ?]; [by left | right; by exists t].
    + intros [? | (t' & [= <-] & ?)]; [by left | by right].
  - split.
    + intros [? | ?]; [by left | done].
    + intros [? | (t' & ? & ?)]; [by left | done].
Qed.

(** The callback of the filter decides the documented conjunction. *)
Lemma matches_iff c w :
  matches Number c w = true ↔ matchesSpec Number c w.
Proof.
  unfold matches, matchesSpec.
  rewrite !andb_true_iff, matchesSearch_iff, matchesPrice_inBucket,
    matchesRating_iff.
  unfold matchesCategory, matchesVendor, matchesLocation, matchesAge.
  rewrite !selector_iff. tauto.
Qed.

Lemma filtered_keeps ws c :
  keeps (matchesSpec Number c) ws (filtered Number ws c).
Proof.
  unfold filtered. induction ws as [|w ws IH]; simpl; [constructor |].
  destruct (matches Number c w) eqn:Hm.
  - apply keeps_take; [by apply matches_iff | done].
  - apply keeps_drop; [| done].
    rewrite <- matches_iff. by rewrite Hm.
Qed.

Lemma filtered_sublist ws c : sublist (filtered Number ws c) ws.
Proof.
  unfold filtered. induction ws as [|w ws IH]; simpl; [constructor |].
  destruct (matches Number c w); by constructor.
Qed.

Lemma filtered_elem_of ws c w :
  w ∈ filtered Number ws c ↔ w ∈ ws ∧ matchesSpec Number c w.
Proof.
  unfold filtered.
  rewrite !list_elem_of_In, filter_In, matches_iff. tauto.
Qed.

(** C2. [filtered] returns exactly the records that satisfy the
    conjunction of the documented predicates (case-insensitive substring
    match of the search text on the title, exact match or "All" for
    category, vendor, location and age group, bucket membership of the
    price, rating at least the numeric threshold with an absent rating
    read as 0), and it returns them in the order of the input: the result
    is a subsequence of the input. *)
Theorem filtered_spec (ws : list Workshop.t) (c : Filters.t) :
  keeps (matchesSpec Number c) ws (filtered Number ws c)
  ∧ sublist (filtered Number ws c) ws
  ∧ ∀ w, w ∈ filtered Number ws c ↔ w ∈ ws ∧ matchesSpec Number c w.
Proof.
  split_and!.
  - apply filtered_keeps.
  - apply filtered_sublist.
  - apply filtered_elem_of.
Qed.

(** C3. When every selector is "All" and the search text is empty, the
    filter returns its input unchanged. *)
Theorem filtered_vacuous (ws : list Workshop.t) (c : Filters.t) :
  Filters.search c = "" →
  Filters.category c = "All" →
  Filters.vendorFilter c = "All" →
  Filters.location c = "All" →
  Filters.ageGroup c = "All" →
  Filters.priceRange c = "All" →
  Filters.ratingFilter c = "All" →
  filtered Number ws c = ws.
Proof.
  intros Hs Hc Hv Hl Ha Hp Hr. unfold filtered.
  induction ws as [|w ws IH]; simpl; [done |].
  assert (matches Number c w = true) as ->; [| by rewrite IH].
  unfold matches, matchesSearch, matchesCategory, matchesVendor,
    matchesLocation, matchesAge, matchesRating.
  rewrite Hs, Hc, Hv, Hl, Ha, Hp, Hr. simpl toLowerCase.
  by rewrite includes_empty.
Qed.

(** C4. The price predicate has six buckets bounded by 2500, 5000, 10000,
    20000 and 30000: the first is price ≤ 2500, the last price > 30000,
    and each one between excludes its lower and includes its upper bound;
    so "0-2500" matches the price 2500 and does not match 2501. *)
Theorem matchesPrice_buckets (w : Workshop.t) :
  let price := Workshop.price w in
  (matchesPrice "0-2500" price = true ↔ (price ≤ num 2500)%Qc)
  ∧ (matchesPrice "2500-5000" price = true
     ↔ (num 2500 < price)%Qc ∧ (price ≤ num 5000)%Qc)
  ∧ (matchesPrice "5000-10000" price = true
     ↔ (num 5000 < price)%Qc ∧ (price ≤ num 10000)%Qc)
  ∧ (matchesPrice "10000-20000" price = true
     ↔ (num 10000 < price)%Qc ∧ (price ≤ num 20000)%Qc)
  ∧ (matchesPrice "20000-30000" price = true
     ↔ (num 20000 < price)%Qc ∧ (price ≤ num 30000)%Qc)
  ∧ (matchesPrice "30000+" price = true ↔ (num 30000 < price)%Qc)
  ∧ matchesPrice "0-2500" (num 2500) = true
  ∧ matchesPrice "0-2500" (num 2501) = false.
Proof.
  intros price. split_and!; try (vm_compute; reflexivity).
  all: price_chain;
    rewrite ?andb_true_iff, ?bool_decide_eq_true; reflexivity.
Qed.

(** C5. A price selector that is none of the six bucket names matches
    every record, whatever its price. *)
Theorem matchesPrice_unrecognized (selector : string) (w : Workshop.t) :
  selector ∉ bucketNames →
  matchesPrice selector (Workshop.price w) = true.
Proof.
  unfold bucketNames. rewrite !not_elem_of_cons.
  intros (H1 & H2 & H3 & H4 & H5 & H6 & _). by price_chain.
Qed.

End FilterFacts.

(** The vacuous criteria on two sample records: both come back, in order. *)
Lemma filtered_vacuous_witness :
  WorkshopsPage.filtered JS.NumberDec [Sample.yoga; Sample.pottery]
    Sample.noFilter
  = [Sample.yoga; Sample.pottery].
Proof. apply filtered_vacuous; reflexivity. Defined.

(** A selector outside the six names lets the sample record through. *)
Lemma matchesPrice_unrecognized_witness :
  WorkshopsPage.matchesPrice "cheap" (Workshop.price Sample.yoga) = true.
Proof.
  apply matchesPrice_unrecognized. unfold bucketNames.
  rewrite !not_elem_of_cons. split_and!; (discriminate || apply not_elem_of_nil).
Defined.

(** The filter at work: a price bucket and a rating threshold. *)
Example filtered_bucket_example :
  WorkshopsPage.filtered JS.NumberDec [Sample.yoga; Sample.pottery]
    {| Filters.search := "YOGA"; Filters.category := "All";
       Filters.location := "All"; Filters.priceRange := "0-2500";
       Filters.ageGroup := "All"; Filters.ratingFilter := "4";
       Filters.vendorFilter := "All" |}
  = [Sample.yoga].
Proof. vm_compute. reflexivity. Qed.

(** ** Writes to the document store *)

Section StoreFacts.
Import Firestore.

Lemma write_lookup (data : gmap string Field) (d : gmap string Value) k :
  write data d !! k
  = match data !! k with
    | Some f => Some (resolve f (d !! k))
    | None => d !! k
    end.
Proof. unfold write. rewrite lookup_merge. by destruct (data !! k), (d !! k). Qed.

(** A field the write does not name keeps its value. *)
Lemma write_frame (data : gmap string Field) (d : gmap string Value) k :
  data !! k = None → write data d !! k = d !! k.
Proof. intros Hk. by rewrite write_lookup, Hk. Qed.

(** Writing the same fields twice leaves what the second write says. *)
Lemma write_write_plain (data1 data2 : gmap string Field)
    (d : gmap string Value) :
  dom data1 = dom data2 →
  (∀ k f, data2 !! k = Some f → ∃ v, f = Plain v) →
  write data2 (write data1 d) = write data2 d.
Proof.
  intros Hdom Hplain. apply map_eq. intros k. rewrite !write_lookup.
  destruct (data2 !! k) as [f|] eqn:H2.
  - destruct (Hplain _ _ H2) as [v ->]. done.
  - assert (data1 !! k = None) as ->; [| done].
    apply not_elem_of_dom. rewrite Hdom. by apply not_elem_of_dom.
Qed.

Lemma updateDoc_Some accepted coll id data coll' :
  updateDoc accepted coll id data = Some coll' ↔
  accepted = true ∧ ∃ d, coll !! id = Some d ∧ coll' = <[id := write data d]> coll.
Proof.
  unfold updateDoc. destruct accepted.
  - destruct (coll !! id) as [d|].
    + split; [intros [= <-]; eauto | by intros (_ & d' & [= <-] & ->)].
    + split; [done | by intros (_ & d' & ? & _)].
  - split; [done | by intros [? _]].
Qed.

(** A refused or failed update leaves no trace; an accepted one touches
    one document. *)
Lemma updateDoc_other accepted coll id data coll' id' :
  updateDoc accepted coll id data = Some coll' →
  id' ≠ id → coll' !! id' = coll !! id'.
Proof.
  intros (_ & d & _ & ->)%updateDoc_Some Hne. by rewrite lookup_insert_ne.
Qed.

End StoreFacts.

(** ** Rating a workshop *)

Section RatingFacts.
Import JS WorkshopsPage.

Lemma Object_values_length (m : gmap string Z) :
  length (Object_values m) = size m.
Proof. unfold Object_values. by rewrite length_fmap, length_map_to_list. Qed.

Lemma foldl_add_shift (l : list Z) (a : Z) :
  foldl Z.add a l = (a + foldr Z.add 0 l)%Z.
Proof.
  revert a. induction l as [|x l IH]; intros a; simpl; [lia |].
  rewrite IH. lia.
Qed.

Lemma Object_values_sum (m : gmap string Z) :
  foldl Z.add 0%Z (Object_values m) = total m.
Proof.
  unfold Object_values, total. rewrite map_fold_foldr, foldl_add_shift.
  rewrite Z.add_0_l.
  induction (map_to_list m) as [|[k v] l IH]; [done |].
  rewrite fmap_cons. simpl. by rewrite IH.
Qed.

Lemma average_mean (m : gmap string Z) : average (Object_values m) = mean m.
Proof.
  unfold average, mean. by rewrite Object_values_sum, Object_values_length.
Qed.

(** Writing one entry changes the sum by the difference of the values. *)
Lemma total_insert (m : gmap string Z) (u : string) (v : Z) :
  total (<[u := v]> m) = (total m - default 0 (m !! u) + v)%Z.
Proof.
  unfold total.
  assert (∀ (m' : gmap string Z) (y : Z), m' !! u = None →
            map_fold (λ _ v acc, (v + acc)%Z) 0%Z (<[u := y]> m')
            = (y + map_fold (λ _ v acc, (v + acc)%Z) 0%Z m')%Z) as Hins.
  { intros m' y Hm'. apply (map_fold_insert_L (λ _ v acc, (v + acc)%Z));
      [intros; lia | done]. }
  destruct (m !! u) as [x|] eqn:Hu; simpl.
  - assert (delete u m !! u = None) as Hdel by apply lookup_delete_eq.
    rewrite <- (insert_delete_id m u x) by done.
    rewrite insert_insert_eq, !Hins by done. lia.
  - rewrite Hins by done. lia.
Qed.

(** The mean times the count is the sum: the quotient is the mean. *)
Lemma mean_times_size (m : gmap string Z) :
  m ≠ ∅ → (mean m * num (Z.of_nat (size m)) = num (total m))%Qc.
Proof.
  intros Hm. unfold mean, Qcdiv.
  rewrite <- Qcmult_assoc, Qcmult_inv_l, Qcmult_1_r; [done |].
  unfold num. rewrite <- Z2Qc_inj_0. intros Heq%Z2Qc_inj.
  apply map_size_non_empty_iff in Hm. lia.
Qed.

Lemma submitRating_ratings w u v :
  ratingsOf (submitRating w u v) = <[u := v]> (ratingsOf w).
Proof. reflexivity. Qed.

Lemma submitRating_withRating w u v :
  let cur := <[u := v]> (ratingsOf w) in
  submitRating w u v = withRating cur (mean cur) (size cur) w.
Proof.
  unfold submitRating, ratingsOf. simpl.
  by rewrite average_mean, Object_values_length.
Qed.

Lemma withRating_consistent cur w :
  consistent (withRating cur (mean cur) (size cur) w).
Proof. by split. Qed.

Lemma withRating_withRating c1 a1 n1 c2 a2 n2 w :
  withRating c2 a2 n2 (withRating c1 a1 n1 w) = withRating c2 a2 n2 w.
Proof. reflexivity. Qed.

Lemma withRating_assignInPlace c a n u v w :
  withRating c a n (assignInPlace u v w) = withRating c a n w.
Proof. unfold assignInPlace. by destruct (Workshop.ratings w). Qed.

Lemma assignInPlace_id u v w :
  Workshop.id (assignInPlace u v w) = Workshop.id w.
Proof. unfold assignInPlace. by destruct (Workshop.ratings w). Qed.

(** The record [find] returns carries the id it was asked for. *)
Lemma find_id workshopId ws w :
  List.find (λ w, bool_decide (Workshop.id w = workshopId)) ws = Some w →
  w ∈ ws ∧ Workshop.id w = workshopId.
Proof.
  intros [Hin Hid]%find_some. split; [by apply list_elem_of_In |].
  by apply bool_decide_eq_true in Hid.
Qed.

(** Replacing every record with the id makes the earlier write into the
    found record's mapping invisible. *)
Lemma map_onFound workshopId (f g : Workshop.t → Workshop.t) ws :
  (∀ w, Workshop.id (f w) = Workshop.id w) →
  (∀ w, g (f w) = g w) →
  List.map (λ w, if bool_decide (Workshop.id w = workshopId) then g w else w)
    (onFound workshopId f ws)
  = List.map (λ w, if bool_decide (Workshop.id w = workshopId) then g w else w)
      ws.
Proof.
  intros Hid Hg. induction ws as [|w ws IH]; simpl; [done |].
  case_bool_decide as Hw; simpl.
  - by rewrite Hid, bool_decide_eq_true_2, Hg.
  - by rewrite bool_decide_eq_false_2, IH.
Qed.

(** An accepted rating, as one step on the page state. *)
Lemma handleRate_accepted st u workshopId workshop v d :
  user st = Some u →
  List.find (λ w, bool_decide (Workshop.id w = workshopId)) (workshops st)
    = Some workshop →
  Firestore.workshops (db st) !! workshopId = Some d →
  let cur := <[uid u := v]> (ratingsOf workshop) in
  handleRate true workshopId v st
  = setWorkshops
      (List.map (λ w, if bool_decide (Workshop.id w = workshopId)
                      then withRating cur (mean cur) (size cur) w else w)
         (workshops st))
      (setDbWorkshops
         (<[workshopId := Firestore.write (ratingData cur) d]>
            (Firestore.workshops (db st))) st).
Proof.
  intros Hu Hfind Hd cur. unfold handleRate. rewrite Hu, Hfind. simpl.
  rewrite Hd. fold (ratingsOf workshop). fold cur.
  rewrite average_mean, Object_values_length. fold (ratingData cur).
  rewrite (map_onFound workshopId (assignInPlace (uid u) v)
             (withRating cur (mean cur) (size cur)));
    [done | apply assignInPlace_id | apply withRating_assignInPlace].
Qed.

(** [find] on the list an accepted rating leaves. *)
Lemma find_rated workshopId (g : Workshop.t → Workshop.t) ws :
  (∀ w, Workshop.id (g w) = Workshop.id w) →
  List.find (λ w, bool_decide (Workshop.id w = workshopId))
    (List.map (λ w, if bool_decide (Workshop.id w = workshopId) then g w else w)
       ws)
  = g <$> List.find (λ w, bool_decide (Workshop.id w = workshopId)) ws.
Proof.
  intros Hid. induction ws as [|w ws IH]; [done |].
  rewrite map_cons. cbn [List.find].
  destruct (decide (Workshop.id w = workshopId)) as [Hw | Hw].
  - rewrite !(bool_decide_eq_true_2 (Workshop.id w = workshopId)) by done.
    by rewrite bool_decide_eq_true_2 by (by rewrite Hid).
  - by rewrite !(bool_decide_eq_false_2 (Workshop.id w = workshopId)) by done.
Qed.

Lemma ratingData_dom cur1 cur2 : dom (ratingData cur1) = dom (ratingData cur2).
Proof. unfold ratingData. by rewrite !dom_insert_L, !dom_singleton_L. Qed.

Lemma ratingData_plain cur k f :
  ratingData cur !! k = Some f → ∃ v, f = Firestore.Plain v.
Proof.
  unfold ratingData. intros Hk.
  apply lookup_insert_Some in Hk as [[_ <-] | [_ Hk]]; [eauto |].
  apply lookup_insert_Some in Hk as [[_ <-] | [_ Hk]]; [eauto |].
  apply lookup_singleton_Some in Hk as [_ <-]. eauto.
Qed.

(** Two accepted ratings by the same user, on the whole page state: the
    loaded workshops and the store end as after the second rating alone. *)
Lemma handleRate_twice st u workshopId workshop v1 v2 d :
  user st = Some u →
  List.find (λ w, bool_decide (Workshop.id w = workshopId)) (workshops st)
    = Some workshop →
  Firestore.workshops (db st) !! workshopId = Some d →
  handleRate true workshopId v2 (handleRate true workshopId v1 st)
  = handleRate true workshopId v2 st.
Proof.
  intros Hu Hfind Hd.
  rewrite (handleRate_accepted st u workshopId workshop v1 d Hu Hfind Hd).
  rewrite (handleRate_accepted st u workshopId workshop v2 d Hu Hfind Hd).
  set (cur1 := <[uid u := v1]> (ratingsOf workshop)).
  set (cur2 := <[uid u := v2]> (ratingsOf workshop)).
  erewrite (handleRate_accepted _ u workshopId
              (withRating cur1 (mean cur1) (size cur1) workshop) v2
              (Firestore.write (ratingData cur1) d)).
  - simpl.
    change (ratingsOf (withRating cur1 (mean cur1) (size cur1) workshop))
      with cur1.
    assert (<[uid u := v2]> cur1 = cur2) as ->
      by (subst cur1 cur2; apply insert_insert_eq).
    unfold setWorkshops, setDbWorkshops. simpl.
    rewrite insert_insert_eq.
    rewrite (write_write_plain _ _ d (ratingData_dom _ cur2)
               (ratingData_plain cur2)).
    f_equal. rewrite map_map. apply map_ext. intros w.
    destruct (decide (Workshop.id w = workshopId)) as [Hw | Hw].
    + rewrite !(bool_decide_eq_true_2 (Workshop.id w = workshopId)) by done.
      apply withRating_withRating.
    + by rewrite !(bool_decide_eq_false_2 (Workshop.id w = workshopId)) by done.
  - done.
  - simpl. rewrite find_rated by done. by rewrite Hfind.
  - simpl. apply lookup_insert_eq.
Qed.

(** A refused write: the store and the derived fields stay as they were
    and the failure is logged; the assignment into the ratings object that
    the found record holds has already happened. *)
Lemma handleRate_refused st u workshopId workshop v :
  user st = Some u →
  List.find (λ w, bool_decide (Workshop.id w = workshopId)) (workshops st)
    = Some workshop →
  let st' := handleRate false workshopId v st in
  db st' = db st
  ∧ workshops st'
    = onFound workshopId (assignInPlace (uid u) v) (workshops st)
  ∧ errors st' = errors st ++ ["Error rating workshop:"]
  ∧ alerts st' = alerts st.
Proof.
  intros Hu Hfind. unfold handleRate. rewrite Hu, Hfind. by simpl.
Qed.

(** C1. After a rating by a signed-in user is accepted, every loaded
    record of the rated workshop holds the user's value in its ratings
    mapping, has as rating the arithmetic mean of all values of the
    updated mapping and as ratingCount the number of its entries; the
    record [submitRating] computes is among them, the mapping is not
    empty, and the stored document carries the same three fields. *)
Theorem handleRate_recomputes st u workshopId workshop v d :
  user st = Some u →
  List.find (λ w, bool_decide (Workshop.id w = workshopId)) (workshops st)
    = Some workshop →
  Firestore.workshops (db st) !! workshopId = Some d →
  (1 ≤ v ≤ 5)%Z →
  let st' := handleRate true workshopId v st in
  let cur := <[uid u := v]> (ratingsOf workshop) in
  submitRating workshop (uid u) v ∈ workshops st'
  ∧ (∀ w, w ∈ workshops st' → Workshop.id w = workshopId →
       ratingsOf w = cur ∧ ratingsOf w !! uid u = Some v ∧ consistent w)
  ∧ 0 < size cur
  ∧ (mean cur * num (Z.of_nat (size cur)) = num (total cur))%Qc
  ∧ ∃ d', Firestore.workshops (db st') !! workshopId = Some d'
          ∧ d' !! "ratings" = Some (Firestore.VMap cur)
          ∧ d' !! "rating" = Some (Firestore.VNumber (mean cur))
          ∧ d' !! "ratingCount"
            = Some (Firestore.VNumber (num (Z.of_nat (size cur)))).
Proof.
  intros Hu Hfind Hd _ st' cur. subst st'.
  rewrite (handleRate_accepted st u workshopId workshop v d Hu Hfind Hd).
  fold cur. simpl.
  destruct (find_id _ _ _ Hfind) as [Hin Hid].
  assert (cur ≠ ∅) as Hne by apply insert_non_empty.
  split_and!.
  - rewrite submitRating_withRating. fold cur.
    apply list_elem_of_fmap. exists workshop.
    by rewrite bool_decide_eq_true_2.
  - intros w (w0 & -> & Hw0)%list_elem_of_fmap Hw.
    case_bool_decide as Hw0id.
    + split_and!; [done | apply lookup_insert_eq | apply withRating_consistent].
    + done.
  - apply map_size_non_empty_iff in Hne. lia.
  - by apply mean_times_size.
  - exists (Firestore.write (ratingData cur) d).
    rewrite lookup_insert_eq, !write_lookup. unfold ratingData.
    split_and!; [done | by simplify_map_eq..].
Qed.

(** C6. Rating is an upsert, the last write wins: rating twice as the
    same user gives the record that the second rating alone gives (so the
    same ratings mapping, rating and ratingCount), the second rating
    leaves ratingCount where the first put it, and a user who already has
    an entry leaves the number of entries as it was. *)
Theorem submitRating_upsert w u v1 v2 :
  (1 ≤ v1 ≤ 5)%Z →
  (1 ≤ v2 ≤ 5)%Z →
  submitRating (submitRating w u v1) u v2 = submitRating w u v2
  ∧ ratingsOf (submitRating (submitRating w u v1) u v2) !! u = Some v2
  ∧ Workshop.ratingCount (submitRating (submitRating w u v1) u v2)
    = Workshop.ratingCount (submitRating w u v1)
  ∧ (is_Some (ratingsOf w !! u) →
     Workshop.ratingCount (submitRating w u v2) = Some (size (ratingsOf w))
     ∧ (consistent w →
        Workshop.ratingCount (submitRating w u v2) = Workshop.ratingCount w)).
Proof.
  intros _ _.
  assert (submitRating (submitRating w u v1) u v2 = submitRating w u v2) as Heq.
  { rewrite (submitRating_withRating (submitRating w u v1)).
    rewrite submitRating_ratings, insert_insert_eq.
    rewrite (submitRating_withRating w u v1), withRating_withRating.
    by rewrite <- submitRating_withRating. }
  split_and!.
  - done.
  - rewrite submitRating_ratings. apply lookup_insert_eq.
  - rewrite Heq, !submitRating_withRating. simpl.
    by rewrite !map_size_insert.
  - intros Hsome.
    assert (Workshop.ratingCount (submitRating w u v2)
            = Some (size (ratingsOf w))) as Hcount.
    { rewrite submitRating_withRating. simpl.
      by rewrite map_size_insert_Some. }
    split; [done |]. intros [_ Hc]. by rewrite Hcount, Hc.
Qed.

End RatingFacts.

(** The example of the design document: ratings [{u1:4, u2:5}], and [u1]
    rates again with 2. *)
Lemma handleRate_recomputes_witness :
  let st' := WorkshopsPage.handleRate true "w1" 2 Sample.page in
  let cur : gmap string Z := <["u1" := 2%Z]> (ratingsOf Sample.yoga) in
  WorkshopsPage.submitRating Sample.yoga "u1" 2 ∈ WorkshopsPage.workshops st'
  ∧ (∀ w, w ∈ WorkshopsPage.workshops st' → Workshop.id w = "w1" →
       ratingsOf w = cur ∧ ratingsOf w !! "u1" = Some 2%Z ∧ consistent w)
  ∧ 0 < size cur
  ∧ (mean cur * JS.num (Z.of_nat (size cur)) = JS.num (total cur))%Qc
  ∧ ∃ d', Firestore.workshops (WorkshopsPage.db st') !! "w1" = Some d'
          ∧ d' !! "ratings" = Some (Firestore.VMap cur)
          ∧ d' !! "rating" = Some (Firestore.VNumber (mean cur))
          ∧ d' !! "ratingCount"
            = Some (Firestore.VNumber (JS.num (Z.of_nat (size cur)))).
Proof.
  apply (handleRate_recomputes Sample.page Sample.u1 "w1" Sample.yoga 2
           Sample.yogaDoc);
    [reflexivity | reflexivity | vm_compute; reflexivity | lia].
Defined.

Example submitRating_example :
  let w' := WorkshopsPage.submitRating Sample.yoga "u1" 2 in
  Workshop.ratings w' = Some {[ "u1" := 2%Z; "u2" := 5%Z ]}
  ∧ Workshop.rating w' = Some (Q2Qc 3.5)
  ∧ Workshop.ratingCount w' = Some 2.
Proof.
  split_and!; [vm_compute; reflexivity | | reflexivity].
  simpl. f_equal. apply Qc_is_canon. vm_compute. reflexivity.
Qed.

Example handleRate_example :
  WorkshopsPage.workshops (WorkshopsPage.handleRate true "w1" 2 Sample.page)
  = [WorkshopsPage.submitRating Sample.yoga "u1" 2; Sample.pottery].
Proof. vm_compute. reflexivity. Qed.

(** [u1] rates 3 and then 2: as if only 2 had been given. *)
Lemma submitRating_upsert_witness :
  WorkshopsPage.submitRating (WorkshopsPage.submitRating Sample.yoga "u1" 3)
    "u1" 2
  = WorkshopsPage.submitRating Sample.yoga "u1" 2
  ∧ ratingsOf (WorkshopsPage.submitRating
                 (WorkshopsPage.submitRating Sample.yoga "u1" 3) "u1" 2)
    !! "u1" = Some 2%Z
  ∧ Workshop.ratingCount
      (WorkshopsPage.submitRating
         (WorkshopsPage.submitRating Sample.yoga "u1" 3) "u1" 2)
    = Workshop.ratingCount (WorkshopsPage.submitRating Sample.yoga "u1" 3)
  ∧ (is_Some (ratingsOf Sample.yoga !! "u1") →
     Workshop.ratingCount (WorkshopsPage.submitRating Sample.yoga "u1" 2)
     = Some (size (ratingsOf Sample.yoga))
     ∧ (consistent Sample.yoga →
        Workshop.ratingCount (WorkshopsPage.submitRating Sample.yoga "u1" 2)
        = Workshop.ratingCount Sample.yoga)).
Proof. apply (submitRating_upsert Sample.yoga "u1" 3 2); lia. Defined.

(** ** The revenue estimate of the dashboard *)

Section RevenueFacts.
Import JS VendorPage.

Lemma counted_iff p :
  Participant.status p ≠ Some "" →
  counted p = true ↔ countsAsRevenue p.
Proof.
  intros Hne. unfold counted, countsAsRevenue.
  rewrite !orb_true_iff, !bool_decide_eq_true.
  destruct (Participant.status p) as [s|].
  - rewrite bool_decide_eq_true. split.
    + intros [[? | ->] | ?]; [by left | done | right; by left].
    + intros [? | [? | ?]]; [left; by left | by right | done].
  - split; [intros _; right; by right | intros _; left; by right].
Qed.

Lemma count_filter participantsMap ws :
  statusesLoaded participantsMap →
  count participantsMap ws
  = length (filter countsAsRevenue (participantsOf participantsMap ws)).
Proof.
  intros Hloaded. unfold count, participantsOf.
  destruct (participantsMap !! Workshop.id ws) as [ps|] eqn:Hps; [| done].
  simpl. assert (∀ p, p ∈ ps → Participant.status p ≠ Some "") as Hall
    by (intros p Hp; by eapply Hloaded).
  clear Hps. induction ps as [|p ps IH]; [done |].
  assert (Participant.status p ≠ Some "") as Hp by (apply Hall; left).
  assert (∀ q, q ∈ ps → Participant.status q ≠ Some "") as Hrest
    by (intros q Hq; apply Hall; by right).
  simpl. rewrite filter_cons. destruct (counted p) eqn:Hc.
  - rewrite decide_True by (by apply counted_iff). simpl. by rewrite IH.
  - rewrite decide_False; [by apply IH |].
    intros Hyes%counted_iff; [congruence | done].
Qed.

Lemma foldl_revenue (f : Workshop.t → Qc) (a : Qc) (l : list Workshop.t) :
  foldl (λ acc ws, (acc + f ws)%Qc) a l
  = (a + foldr (λ ws acc, (f ws + acc)%Qc) (num 0) l)%Qc.
Proof.
  revert a. induction l as [|x l IH]; intros a; simpl.
  - unfold num. rewrite Z2Qc_inj_0. ring.
  - rewrite IH. ring.
Qed.

(** C7. The revenue estimate is the sum, over all records, of the price
    times the number of participants whose status is "approved",
    "pending" or absent. *)
Theorem totalRevenue_sum workshops participantsMap :
  statusesLoaded participantsMap →
  totalRevenue workshops participantsMap
  = aggregateRevenue workshops participantsMap.
Proof.
  intros Hloaded. unfold totalRevenue. rewrite foldl_revenue.
  assert (num 0 = 0%Qc) as H0 by (unfold num; apply Z2Qc_inj_0).
  rewrite H0 at 1. rewrite Qcplus_0_l.
  induction workshops as [|ws rest IH]; simpl; [done |].
  rewrite IH. unfold revenueOf. by rewrite count_filter.
Qed.

End RevenueFacts.

(** The example of the design document: a pending, an approved and a
    rejected participant of a workshop priced 1000. *)
Lemma totalRevenue_sum_witness :
  VendorPage.totalRevenue [Sample.drumming] Sample.drummers
  = aggregateRevenue [Sample.drumming] Sample.drummers.
Proof.
  apply totalRevenue_sum. intros id ps p Hps Hp.
  unfold Sample.drummers in Hps.
  apply lookup_singleton_Some in Hps as [_ <-].
  rewrite !elem_of_cons in Hp.
  destruct Hp as [-> | [-> | [-> | Hp]]]; [done | done | done |].
  by apply elem_of_nil in Hp.
Defined.

Example totalRevenue_example :
  VendorPage.totalRevenue [Sample.drumming] Sample.drummers = JS.num 2000.
Proof. apply Qc_is_canon. vm_compute. reflexivity. Qed.

(** ** Actions of a visitor who is not signed in *)

Section GateFacts.
Import WorkshopsPage.

Lemma alert_nothingWritten msg st : nothingWritten st (alert msg st).
Proof. by split_and!. Qed.

Lemma alert_noticeShown msg st : noticeShown st (alert msg st).
Proof. by exists msg. Qed.

(** Rating without a user returns at once: the state is untouched. *)
Lemma handleRate_unauthenticated accepted workshopId rating st :
  unauthenticated st → handleRate accepted workshopId rating st = st.
Proof. intros Hu. unfold handleRate. by rewrite Hu. Qed.

Lemma toggleFavorite_unauthenticated accepted workshopId st :
  unauthenticated st →
  toggleFavorite accepted workshopId st
  = alert "Please login to add to favorites." st.
Proof. intros Hu. unfold toggleFavorite. by rewrite Hu. Qed.

Lemma handleRegisterClick_unauthenticated workshopId st :
  unauthenticated st →
  handleRegisterClick workshopId st
  = (alert "Register or login to register for a workshop" st, true).
Proof. intros Hu. unfold handleRegisterClick. by rewrite Hu. Qed.

(** C8, as amended.  Without a signed-in user each of the three actions
    is aborted and writes nothing.  Favoriting and registering show a
    notice (and registering cancels the navigation); rating returns
    silently, with no notice. *)
Theorem unauthenticated_actions_abort accepted workshopId rating st :
  unauthenticated st →
  handleRate accepted workshopId rating st = st
  ∧ abortedWithNotice st (toggleFavorite accepted workshopId st)
  ∧ abortedWithNotice st (handleRegisterClick workshopId st).1
  ∧ (handleRegisterClick workshopId st).2 = true.
Proof.
  intros Hu.
  rewrite handleRate_unauthenticated, toggleFavorite_unauthenticated,
    handleRegisterClick_unauthenticated by done.
  split_and!; [done | | | done];
    (split; [apply alert_nothingWritten | apply alert_noticeShown]).
Qed.

End GateFacts.

Lemma unauthenticated_actions_abort_witness :
  WorkshopsPage.handleRate true "w1" 5 Sample.visitor = Sample.visitor
  ∧ abortedWithNotice Sample.visitor
      (WorkshopsPage.toggleFavorite true "w1" Sample.visitor)
  ∧ abortedWithNotice Sample.visitor
      (WorkshopsPage.handleRegisterClick "w1" Sample.visitor).1
  ∧ (WorkshopsPage.handleRegisterClick "w1" Sample.visitor).2 = true.
Proof. apply unauthenticated_actions_abort. reflexivity. Defined.

(** C8 as stated fails for rating: a visitor who is not signed in rates,
    the action is aborted, and no notice is shown. *)
Lemma unauthenticated_rating_no_notice :
  unauthenticated Sample.visitor
  ∧ ¬ abortedWithNotice Sample.visitor
        (WorkshopsPage.handleRate true "w1" 5 Sample.visitor).
Proof.
  split; [reflexivity |]. intros [_ [msg Hmsg]].
  simpl in Hmsg. discriminate.
Qed.

(** ** Editing a workshop *)

Section EditFacts.
Import Firestore WorkshopActions.

(** A typed payload has no key outside [WorkshopData]. *)
Lemma payload_no_key data k :
  PartialWorkshopData data →
  k ∉ ["title"; "description"; "date"; "category"; "whatsappLink"; "price";
       "image"] →
  data !! k = None.
Proof.
  intros Htyped Hk. destruct (data !! k) as [v|] eqn:Hv; [| done].
  specialize (Htyped k v Hv). simpl in Htyped. unfold fieldType in Htyped.
  rewrite !not_elem_of_cons in Hk.
  destruct Hk as (H1 & H2 & H3 & H4 & H5 & H6 & H7 & _).
  rewrite !bool_decide_eq_false_2 in Htyped by done. done.
Qed.

(** In a typed payload only the key [image] can hold a file. *)
Lemma payload_file data k file :
  PartialWorkshopData data → data !! k = Some (VFile file) → k = "image".
Proof.
  intros Htyped Hv. specialize (Htyped k _ Hv). simpl in Htyped.
  unfold fieldType in Htyped.
  destruct (bool_decide (k = "title") || bool_decide (k = "description")
            || bool_decide (k = "date") || bool_decide (k = "category")
            || bool_decide (k = "whatsappLink")); [done |].
  destruct (bool_decide (k = "price")); [done |].
  by case_bool_decide.
Qed.

Lemma cleaned_ratings imageUrl data k :
  PartialWorkshopData data →
  k ∈ ["ratings"; "rating"; "ratingCount"] →
  cleaned imageUrl data !! k = None.
Proof.
  intros Htyped Hk.
  assert (data !! k = None) as Hnone.
  { apply payload_no_key; [done |]. rewrite !elem_of_cons in Hk.
    rewrite !not_elem_of_cons.
    destruct Hk as [-> | [-> | [-> | Hk]]];
      [| | | by apply elem_of_nil in Hk];
      split_and!; (discriminate || apply not_elem_of_nil). }
  assert (k ≠ "imageUrl") as Hne.
  { rewrite !elem_of_cons in Hk.
    destruct Hk as [-> | [-> | [-> | Hk]]];
      [done | done | done | by apply elem_of_nil in Hk]. }
  unfold cleaned. destruct (negb _).
  - rewrite lookup_insert_ne by done.
    rewrite lookup_delete. by case_decide.
  - rewrite lookup_delete. by case_decide.
Qed.

Lemma cleaned_file imageUrl data k file :
  PartialWorkshopData data →
  cleaned imageUrl data !! k ≠ Some (VFile file).
Proof.
  intros Htyped Hk. unfold cleaned in Hk.
  assert (delete "image" data !! k ≠ Some (VFile file)) as Hdel.
  { rewrite lookup_delete. destruct (decide ("image" = k)) as [|Hi]; [done |].
    intros Hv. apply payload_file in Hv; [congruence | done]. }
  destruct (negb _); [| done].
  destruct (decide (k = "imageUrl")) as [-> | Hne].
  - by rewrite lookup_insert_eq in Hk.
  - by rewrite lookup_insert_ne in Hk.
Qed.

Lemma cleaned_imageUrl imageUrl data :
  PartialWorkshopData data →
  cleaned imageUrl data !! "imageUrl"
  = if bool_decide (imageUrl = "") then None else Some (VString imageUrl).
Proof.
  intros Htyped. unfold cleaned. case_bool_decide; simpl.
  - rewrite lookup_delete_ne by done. apply payload_no_key; [done |].
    rewrite !not_elem_of_cons. split_and!; (discriminate || apply not_elem_of_nil).
  - apply lookup_insert_eq.
Qed.

(** The update, case by case: nothing changes, or one document receives
    the cleaned payload. *)
Lemma updateWorkshop_cases upload accepted id data db :
  let db' := store (updateWorkshop upload accepted id data db) in
  db' = db
  ∨ ∃ imageUrl d,
      (if truthy (data !! "image") then upload else Some "") = Some imageUrl
      ∧ workshops db !! id = Some d
      ∧ db' = setWorkshops
                (<[id := write (Plain <$> cleaned imageUrl data) d]>
                   (workshops db)) db.
Proof.
  unfold updateWorkshop. fold (cleaned).
  destruct (if truthy (data !! "image") then upload else Some "")
    as [imageUrl|] eqn:Hup; [| by left].
  fold (cleaned imageUrl data).
  destruct (updateDoc accepted (workshops db) id
              (Plain <$> cleaned imageUrl data)) as [c|] eqn:Hupd; [| by left].
  apply updateDoc_Some in Hupd as (_ & d & Hd & ->).
  right. by exists imageUrl, d.
Qed.

Lemma write_plain_lookup (c d : gmap string Value) k :
  write (Plain <$> c) d !! k
  = match c !! k with Some v => Some v | None => d !! k end.
Proof. rewrite write_lookup, lookup_fmap. by destruct (c !! k). Qed.

(** The document an accepted edit leaves. *)
Lemma edited_doc imageUrl data d :
  PartialWorkshopData data →
  let d' := write (Plain <$> cleaned imageUrl data) d in
  sameRatings d d'
  ∧ noFileWritten d d'
  ∧ d' !! "image" = d !! "image"
  ∧ d' !! "imageUrl"
    = if bool_decide (imageUrl = "") then d !! "imageUrl"
      else Some (VString imageUrl).
Proof.
  intros Htyped d'. subst d'. split_and!.
  - unfold sameRatings. rewrite !write_plain_lookup.
    rewrite !cleaned_ratings; [done | done | | done | | done |];
      rewrite !elem_of_cons; auto.
  - intros k file. rewrite write_plain_lookup.
    destruct (cleaned imageUrl data !! k) as [v|] eqn:Hk; [| done].
    intros [= ->]. by apply cleaned_file in Hk.
  - rewrite write_plain_lookup.
    assert (cleaned imageUrl data !! "image" = None) as ->; [| done].
    unfold cleaned. destruct (negb _).
    + rewrite lookup_insert_ne by done. apply lookup_delete_eq.
    + apply lookup_delete_eq.
  - rewrite write_plain_lookup, cleaned_imageUrl by done.
    by case_bool_decide.
Qed.

(** The frame of an edit, for any outcome of the upload and the write. *)
Lemma updateWorkshop_frame upload accepted id data db id' d :
  PartialWorkshopData data →
  workshops db !! id' = Some d →
  ∃ d', workshops (store (updateWorkshop upload accepted id data db)) !! id'
        = Some d'
        ∧ sameRatings d d'
        ∧ noFileWritten d d'
        ∧ d' !! "image" = d !! "image"
        ∧ (d' !! "imageUrl" = d !! "imageUrl"
           ∨ ∃ url, truthy (data !! "image") = true ∧ upload = Some url
                    ∧ d' !! "imageUrl" = Some (VString url)).
Proof.
  intros Htyped Hd.
  assert (∃ d', workshops db !! id' = Some d' ∧ sameRatings d d'
                ∧ noFileWritten d d' ∧ d' !! "image" = d !! "image"
                ∧ (d' !! "imageUrl" = d !! "imageUrl"
                   ∨ ∃ url, truthy (data !! "image") = true
                            ∧ upload = Some url
                            ∧ d' !! "imageUrl" = Some (VString url)))
    as Hsame.
  { exists d. split_and!; [done | by split_and! | by intros ? ? | done | by left]. }
  destruct (updateWorkshop_cases upload accepted id data db)
    as [-> | (imageUrl & d0 & Hup & Hd0 & ->)]; [done |].
  simpl. destruct (decide (id' = id)) as [-> | Hne].
  - rewrite lookup_insert_eq. rewrite Hd in Hd0. injection Hd0 as <-.
    destruct (edited_doc imageUrl data d Htyped) as (Hr & Hf & Hi & Hu).
    eexists. split_and!; [done | done | done | done |].
    rewrite Hu. case_bool_decide as He; [by left |]. right.
    exists imageUrl. destruct (truthy (data !! "image")); [done |].
    injection Hup as <-. done.
  - by rewrite lookup_insert_ne.
Qed.

(** An edit creates and removes no record and touches no other
    collection. *)
Lemma updateWorkshop_dom upload accepted id data db :
  let db' := store (updateWorkshop upload accepted id data db) in
  dom (workshops db') = dom (workshops db)
  ∧ users db' = users db
  ∧ registrations db' = registrations db.
Proof.
  destruct (updateWorkshop_cases upload accepted id data db)
    as [-> | (imageUrl & d0 & Hup & Hd0 & ->)]; [done |].
  simpl. split_and!; [| done | done].
  apply dom_insert_lookup_L. eauto.
Qed.

(** C9. An edit leaves the ratings mapping, the rating and the
    ratingCount of every stored workshop as they were, whatever the typed
    payload and whatever the outcome of the upload and of the write; it
    writes no raw file object (the [image] field is not written at all),
    and it leaves [imageUrl] unchanged unless a new image was supplied,
    in which case [imageUrl] can only become the address of the uploaded
    image.  No record is created or removed. *)
Theorem updateWorkshop_keeps_ratings upload accepted id data db :
  PartialWorkshopData data →
  let db' := store (updateWorkshop upload accepted id data db) in
  (∀ id' d, workshops db !! id' = Some d →
     ∃ d', workshops db' !! id' = Some d'
           ∧ sameRatings d d'
           ∧ noFileWritten d d'
           ∧ d' !! "image" = d !! "image"
           ∧ (d' !! "imageUrl" = d !! "imageUrl"
              ∨ ∃ url, truthy (data !! "image") = true ∧ upload = Some url
                       ∧ d' !! "imageUrl" = Some (VString url)))
  ∧ dom (workshops db') = dom (workshops db).
Proof.
  intros Htyped db'. split.
  - intros id' d Hd. by apply updateWorkshop_frame.
  - apply updateWorkshop_dom.
Qed.

Lemma editPayload_typed f : PartialWorkshopData (VendorPage.editPayload f).
Proof.
  unfold PartialWorkshopData, VendorPage.editPayload.
  repeat (apply map_Forall_insert_2; [reflexivity |]).
  apply map_Forall_singleton. by destruct (VendorPage.image f).
Qed.

Lemma handleEdit_db upload accepted st :
  VendorPage.db (VendorPage.handleEdit upload accepted st)
  = match VendorPage.selectedWorkshop st with
    | Some ws =>
        store (updateWorkshop upload accepted (VendorPage.Workshop.id ws)
                 (VendorPage.editPayload (VendorPage.form st))
                 (VendorPage.db st))
    | None => VendorPage.db st
    end.
Proof.
  unfold VendorPage.handleEdit.
  destruct (VendorPage.selectedWorkshop st) as [ws|]; [| done].
  by destruct (updateWorkshop _ _ _ _ _).
Qed.

(** The edit of the dashboard, whatever the form holds, keeps the ratings
    of every stored workshop and stores no raw file. *)
Lemma handleEdit_keeps_ratings upload accepted st id' d :
  workshops (VendorPage.db st) !! id' = Some d →
  ∃ d', workshops (VendorPage.db (VendorPage.handleEdit upload accepted st))
          !! id' = Some d'
        ∧ sameRatings d d' ∧ noFileWritten d d'.
Proof.
  intros Hd. rewrite handleEdit_db.
  destruct (VendorPage.selectedWorkshop st) as [ws|].
  - destruct (updateWorkshop_frame upload accepted
                (VendorPage.Workshop.id ws)
                (VendorPage.editPayload (VendorPage.form st))
                (VendorPage.db st) id' d (editPayload_typed _) Hd)
      as (d' & Hd' & Hr & Hf & _).
    by exists d'.
  - exists d. split_and!; [done | by split_and! | by intros ? ?].
Qed.

End EditFacts.

(** The dashboard's edit of the sample workshop with a new image. *)
Lemma updateWorkshop_keeps_ratings_witness :
  let data := VendorPage.editPayload Sample.editForm in
  let upload := Some "https://img/sunrise.png" in
  let db' := WorkshopActions.store
               (WorkshopActions.updateWorkshop upload true "w1" data
                  Sample.store) in
  (∀ id' d, Firestore.workshops Sample.store !! id' = Some d →
     ∃ d', Firestore.workshops db' !! id' = Some d'
           ∧ sameRatings d d'
           ∧ noFileWritten d d'
           ∧ d' !! "image" = d !! "image"
           ∧ (d' !! "imageUrl" = d !! "imageUrl"
              ∨ ∃ url, WorkshopActions.truthy (data !! "image") = true
                       ∧ upload = Some url
                       ∧ d' !! "imageUrl" = Some (Firestore.VString url)))
  ∧ dom (Firestore.workshops db') = dom (Firestore.workshops Sample.store).
Proof.
  apply (updateWorkshop_keeps_ratings (Some "https://img/sunrise.png") true
           "w1" (VendorPage.editPayload Sample.editForm) Sample.store).
  apply editPayload_typed.
Defined.

Example updateWorkshop_example :
  let d' := Firestore.workshops
              (WorkshopActions.store
                 (WorkshopActions.updateWorkshop
                    (Some "https://img/sunrise.png") true "w1"
                    (VendorPage.editPayload Sample.editForm) Sample.store))
            !! "w1" in
  d' ≫= lookup "title" = Some (Firestore.VString "Sunrise Yoga")
  ∧ d' ≫= lookup "imageUrl" = Some (Firestore.VString "https://img/sunrise.png")
  ∧ d' ≫= lookup "image" = None
  ∧ d' ≫= lookup "ratings"
    = Some (Firestore.VMap {[ "u1" := 4%Z; "u2" := 5%Z ]}).
Proof. split_and!; vm_compute; reflexivity. Qed.

(** ** Registering for a workshop *)

Section RegisterFacts.
Import Firestore WorkshopActions.

Lemma filter_absent (x : string) (l : list string) :
  x ∉ l → filter (λ y, y = x) l = [].
Proof.
  intros Hx. induction l as [|y l IH]; [done |].
  apply not_elem_of_cons in Hx as [Hne Hx].
  rewrite filter_cons, decide_False by done. by apply IH.
Qed.

Lemma filter_present (x : string) (l : list string) :
  x ∈ l → 1 ≤ length (filter (λ y, y = x) l).
Proof.
  intros Hx. induction l as [|y l IH]; [by apply elem_of_nil in Hx |].
  rewrite filter_cons. case_decide as Hy; simpl; [lia |].
  apply elem_of_cons in Hx as [-> | Hx]; [done | by apply IH].
Qed.

(** Set union on an array: the element occurs once if it was absent and
    as often as before otherwise. *)
Lemma arrayUnion_occurrences x old :
  length (filter (λ y, y = x) (arrayUnion x old)) = 1 `max` occurrences x old.
Proof.
  assert (length (filter (λ y, y = x) [x]) = 1) as Hsingle.
  { by rewrite filter_cons, decide_True. }
  unfold arrayUnion, occurrences.
  destruct old as [[| | | | l | | |]|]; try exact Hsingle.
  case_bool_decide as Hx.
  - pose proof (filter_present x l Hx). lia.
  - rewrite list.filter_app, filter_absent by done. exact Hsingle.
Qed.

Lemma registration_startsPending workshopId userId receiptUrl :
  startsPending workshopId userId (registration workshopId userId receiptUrl).
Proof.
  unfold startsPending, registration. rewrite !write_lookup.
  split_and!; by simplify_map_eq.
Qed.

(** The three ways the action can end: nothing written; the registration
    written and the profile update refused; both written. *)
Lemma registerForWorkshop_cases upload added updated workshopId userId
    receiptFile db :
  let o := registerForWorkshop upload added updated workshopId userId
             receiptFile db in
  o = Rejected db
  ∨ (∃ url,
       o = Rejected (setRegistrations
                       (registrations db
                        ++ [registration workshopId userId url]) db))
  ∨ (∃ url profile,
       users db !! userId = Some profile
       ∧ o = Resolved
               (setUsers
                  (<[userId :=
                       write {[ "registeredWorkshops" := ArrayUnion workshopId ]}
                         profile]> (users db))
                  (setRegistrations
                     (registrations db
                      ++ [registration workshopId userId url]) db))).
Proof.
  unfold registerForWorkshop.
  destruct (match receiptFile with Some _ => upload | None => Some "" end)
    as [url|]; [| by left].
  fold (registration workshopId userId url).
  destruct added; simpl; [| by left].
  destruct (updateDoc updated (users db) userId _) as [c|] eqn:Hupd.
  - apply updateDoc_Some in Hupd as (_ & profile & Hp & ->).
    right. right. by exists url, profile.
  - right. left. by exists url.
Qed.

(** One call moves the count of the workshop in the user's registered
    workshops to at most [max 1 count], and exactly there when the call
    resolves. *)
Lemma registerForWorkshop_count upload added updated workshopId userId
    receiptFile db :
  let o := registerForWorkshop upload added updated workshopId userId
             receiptFile db in
  registeredCount (store o) userId workshopId
    ≤ 1 `max` registeredCount db userId workshopId
  ∧ (∀ db', o = Resolved db' →
       registeredCount db' userId workshopId
       = 1 `max` registeredCount db userId workshopId).
Proof.
  destruct (registerForWorkshop_cases upload added updated workshopId userId
              receiptFile db)
    as [-> | [(url & ->) | (url & profile & Hp & ->)]]; simpl.
  - split; [lia | done].
  - split; [unfold registeredCount; simpl; lia | done].
  - assert (registeredCount
              (setUsers
                 (<[userId :=
                      write {[ "registeredWorkshops" := ArrayUnion workshopId ]}
                        profile]> (users db))
                 (setRegistrations
                    (registrations db ++ [registration workshopId userId url])
                    db)) userId workshopId
            = 1 `max` registeredCount db userId workshopId) as Hcount.
    { unfold registeredCount. simpl.
      rewrite lookup_insert_eq, Hp, write_lookup, lookup_singleton_eq.
      simpl. apply arrayUnion_occurrences. }
    split; [lia |]. by intros db' [= <-].
Qed.

(** What one call does to the registrations. *)
Lemma registerForWorkshop_registrations upload added updated workshopId
    userId receiptFile db :
  let o := registerForWorkshop upload added updated workshopId userId
             receiptFile db in
  (registrations (store o) = registrations db
   ∨ ∃ r, registrations (store o) = registrations db ++ [r]
          ∧ startsPending workshopId userId r)
  ∧ (∀ db', o = Resolved db' →
       ∃ r, registrations db' = registrations db ++ [r]
            ∧ startsPending workshopId userId r).
Proof.
  destruct (registerForWorkshop_cases upload added updated workshopId userId
              receiptFile db)
    as [-> | [(url & ->) | (url & profile & Hp & ->)]]; simpl.
  - split; [by left | done].
  - split; [| done]. right. eexists.
    split; [done | apply registration_startsPending].
  - split.
    + right. eexists. split; [done | apply registration_startsPending].
    + intros db' [= <-]. eexists.
      split; [done | apply registration_startsPending].
Qed.

(** When a call resolves: the upload and both writes go through and the
    user has a profile. *)
Lemma registerForWorkshop_resolves upload added updated workshopId userId
    receiptFile db :
  (∃ db', registerForWorkshop upload added updated workshopId userId
            receiptFile db = Resolved db')
  ↔ goesThrough upload added updated receiptFile
    ∧ is_Some (users db !! userId).
Proof.
  unfold registerForWorkshop, goesThrough, addDoc, updateDoc. split.
  - intros [db' Hres].
    destruct receiptFile as [file|], upload as [url|], added, updated;
      simpl in Hres; try discriminate;
      (destruct (users db !! userId) as [profile|] eqn:Hp;
       [| discriminate]);
      (split_and!; [| done | done | by eexists]);
      first [by left | right; by eexists].
  - intros [([-> | [url ->]] & -> & ->) [profile Hp]];
      [| destruct receiptFile]; simpl; rewrite Hp; by eexists.
Qed.

(** A call leaves the user with a profile exactly when the user had one. *)
Lemma registerForWorkshop_profile upload added updated workshopId userId
    receiptFile db :
  is_Some (users (store (registerForWorkshop upload added updated workshopId
                           userId receiptFile db)) !! userId)
  ↔ is_Some (users db !! userId).
Proof.
  destruct (registerForWorkshop_cases upload added updated workshopId userId
              receiptFile db)
    as [-> | [(url & ->) | (url & profile & Hp & ->)]]; simpl; [done | done |].
  rewrite lookup_insert_eq, Hp. split; intros _; by eexists.
Qed.

(** The array a resolved call leaves is the set union of the one before
    with the workshop. *)
Lemma registerForWorkshop_union upload added updated workshopId userId
    receiptFile db db' :
  registerForWorkshop upload added updated workshopId userId receiptFile db
  = Resolved db' →
  unionWith workshopId (registeredOf db userId) (registeredOf db' userId).
Proof.
  intros Hres.
  destruct (registerForWorkshop_cases upload added updated workshopId userId
              receiptFile db)
    as [Ho | [(url & Ho) | (url & profile & Hp & Ho)]];
    rewrite Ho in Hres; try discriminate.
  injection Hres as <-. unfold registeredOf, unionWith. simpl.
  rewrite lookup_insert_eq, Hp, write_lookup, lookup_singleton_eq. simpl.
  unfold arrayUnion.
  destruct (profile !! "registeredWorkshops") as [[| | | | l | | |]|];
    try (right; split; [apply not_elem_of_nil | done]).
  case_bool_decide; [by left | by right].
Qed.

(** C10. Whatever the outcome of the upload and of the two writes, a call
    creates at most one registration, and the one it creates has status
    "pending" and consentAccepted true; a call that resolves has created
    it.  The workshop is added to the user's registered workshops by set
    union: where it occurred at most once it occurs at most once after one
    call and after a second call for the same workshop, and exactly once
    when the calls resolve.  A call resolves exactly when the upload and
    both writes go through and the user has a profile; the array it then
    leaves is the former one, followed by the workshop unless it held it
    already, so that a second resolved call leaves the array as the first
    left it, next to two registrations that both start pending. *)
Theorem registerForWorkshop_pending upload added updated upload2 added2
    updated2 workshopId userId receiptFile receiptFile2 db :
  registeredCount db userId workshopId ≤ 1 →
  let o1 := registerForWorkshop upload added updated workshopId userId
              receiptFile db in
  let o2 := registerForWorkshop upload2 added2 updated2 workshopId userId
              receiptFile2 (store o1) in
  (registrations (store o1) = registrations db
   ∨ ∃ r, registrations (store o1) = registrations db ++ [r]
          ∧ startsPending workshopId userId r)
  ∧ (∀ db1, o1 = Resolved db1 →
       (∃ r, registrations db1 = registrations db ++ [r]
             ∧ startsPending workshopId userId r)
       ∧ registeredCount db1 userId workshopId = 1)
  ∧ registeredCount (store o1) userId workshopId ≤ 1
  ∧ registeredCount (store o2) userId workshopId ≤ 1
  ∧ (∀ db1 db2, o1 = Resolved db1 → o2 = Resolved db2 →
       registeredCount db2 userId workshopId = 1)
  ∧ ((∃ db1, o1 = Resolved db1)
     ↔ goesThrough upload added updated receiptFile
       ∧ is_Some (users db !! userId))
  ∧ ((∃ db2, o2 = Resolved db2)
     ↔ goesThrough upload2 added2 updated2 receiptFile2
       ∧ is_Some (users db !! userId))
  ∧ (∀ db1, o1 = Resolved db1 →
       unionWith workshopId (registeredOf db userId) (registeredOf db1 userId))
  ∧ (∀ db1 db2, o1 = Resolved db1 → o2 = Resolved db2 →
       registeredOf db2 userId = registeredOf db1 userId
       ∧ ∃ r1 r2, registrations db2 = registrations db ++ [r1; r2]
                  ∧ startsPending workshopId userId r1
                  ∧ startsPending workshopId userId r2).
Proof.
  intros Hle o1 o2.
  destruct (registerForWorkshop_count upload added updated workshopId userId
              receiptFile db) as [Hc1 Hr1].
  destruct (registerForWorkshop_count upload2 added2 updated2 workshopId
              userId receiptFile2 (store o1)) as [Hc2 Hr2].
  destruct (registerForWorkshop_registrations upload added updated
              workshopId userId receiptFile db) as [Hg1 Hg1'].
  destruct (registerForWorkshop_registrations upload2 added2 updated2
              workshopId userId receiptFile2 (store o1)) as [_ Hg2'].
  fold o1 in Hc1, Hr1, Hg1, Hg1', Hc2, Hr2, Hg2'. fold o2 in Hc2, Hr2, Hg2'.
  split_and!.
  - done.
  - intros db1 Ho1. split; [by apply Hg1' |].
    rewrite (Hr1 db1 Ho1). lia.
  - lia.
  - lia.
  - intros db1 db2 Ho1 Ho2. rewrite (Hr2 db2 Ho2).
    rewrite Ho1. simpl. rewrite (Hr1 db1 Ho1). lia.
  - apply registerForWorkshop_resolves.
  - unfold o2. rewrite registerForWorkshop_resolves.
    unfold o1. by rewrite registerForWorkshop_profile.
  - intros db1 Ho1. by eapply registerForWorkshop_union.
  - intros db1 db2 Ho1 Ho2. split.
    + pose proof (registerForWorkshop_union _ _ _ _ _ _ _ _ Ho1) as Hu1.
      pose proof Ho2 as Ho2'. unfold o2 in Ho2'. rewrite Ho1 in Ho2'.
      simpl in Ho2'.
      pose proof (registerForWorkshop_union _ _ _ _ _ _ _ _ Ho2') as Hu2.
      assert (workshopId ∈ registeredOf db1 userId) as Hin.
      { destruct Hu1 as [[Hin ->] | [_ ->]]; [done |].
        apply elem_of_app. right. by left. }
      destruct Hu2 as [[_ ->] | [Hout _]]; [done | by destruct Hout].
    + destruct (Hg1' db1 Ho1) as (r1 & Hreg1 & Hp1).
      destruct (Hg2' db2 Ho2) as (r2 & Hreg2 & Hp2).
      exists r1, r2. split_and!; [| done | done].
      rewrite Hreg2, Ho1. simpl. rewrite Hreg1.
      by rewrite <- app_assoc.
Qed.

End RegisterFacts.

(** [u1], registered for nothing yet, registers twice for [w2]. *)
Lemma registerForWorkshop_pending_witness :
  let o1 := WorkshopActions.registerForWorkshop (Some "https://r/1") true true
              "w2" "u1" (Some "receipt.pdf") Sample.store in
  let o2 := WorkshopActions.registerForWorkshop (Some "https://r/2") true true
              "w2" "u1" (Some "receipt.pdf") (WorkshopActions.store o1) in
  (Firestore.registrations (WorkshopActions.store o1)
   = Firestore.registrations Sample.store
   ∨ ∃ r, Firestore.registrations (WorkshopActions.store o1)
          = Firestore.registrations Sample.store ++ [r]
          ∧ startsPending "w2" "u1" r)
  ∧ (∀ db1, o1 = WorkshopActions.Resolved db1 →
       (∃ r, Firestore.registrations db1
             = Firestore.registrations Sample.store ++ [r]
             ∧ startsPending "w2" "u1" r)
       ∧ registeredCount db1 "u1" "w2" = 1)
  ∧ registeredCount (WorkshopActions.store o1) "u1" "w2" ≤ 1
  ∧ registeredCount (WorkshopActions.store o2) "u1" "w2" ≤ 1
  ∧ (∀ db1 db2, o1 = WorkshopActions.Resolved db1 →
       o2 = WorkshopActions.Resolved db2 →
       registeredCount db2 "u1" "w2" = 1)
  ∧ ((∃ db1, o1 = WorkshopActions.Resolved db1)
     ↔ goesThrough (Some "https://r/1") true true (Some "receipt.pdf")
       ∧ is_Some (Firestore.users Sample.store !! "u1"))
  ∧ ((∃ db2, o2 = WorkshopActions.Resolved db2)
     ↔ goesThrough (Some "https://r/2") true true (Some "receipt.pdf")
       ∧ is_Some (Firestore.users Sample.store !! "u1"))
  ∧ (∀ db1, o1 = WorkshopActions.Resolved db1 →
       unionWith "w2" (registeredOf Sample.store "u1") (registeredOf db1 "u1"))
  ∧ (∀ db1 db2, o1 = WorkshopActions.Resolved db1 →
       o2 = WorkshopActions.Resolved db2 →
       registeredOf db2 "u1" = registeredOf db1 "u1"
       ∧ ∃ r1 r2, Firestore.registrations db2
                  = Firestore.registrations Sample.store ++ [r1; r2]
                  ∧ startsPending "w2" "u1" r1
                  ∧ startsPending "w2" "u1" r2).
Proof.
  apply (registerForWorkshop_pending (Some "https://r/1") true true
           (Some "https://r/2") true true "w2" "u1" (Some "receipt.pdf")
           (Some "receipt.pdf") Sample.store).
  vm_compute. lia.
Defined.

Example registerForWorkshop_example :
  let o1 := WorkshopActions.registerForWorkshop (Some "https://r/1") true true
              "w2" "u1" (Some "receipt.pdf") Sample.store in
  let o2 := WorkshopActions.registerForWorkshop (Some "https://r/2") true true
              "w2" "u1" (Some "receipt.pdf") (WorkshopActions.store o1) in
  Firestore.users (WorkshopActions.store o2) !! "u1"
    ≫= lookup "registeredWorkshops"
  = Some (Firestore.VArray ["w2"])
  ∧ length (Firestore.registrations (WorkshopActions.store o2)) = 2.
Proof. split; vm_compute; reflexivity. Qed.

(** A user who had registered for another workshop keeps it when one is
    added, and a call for a user without a profile is rejected after the
    registration was written. *)
Example registerForWorkshop_resolved_example :
  (∃ db1, WorkshopActions.registerForWorkshop (Some "https://r/1") true true
            "w2" "u2" (Some "receipt.pdf") Sample.store
          = WorkshopActions.Resolved db1
          ∧ registeredOf db1 "u2" = ["w1"; "w2"])
  ∧ ∃ db1, WorkshopActions.registerForWorkshop (Some "https://r/1") true true
             "w2" "u9" (Some "receipt.pdf") Sample.store
           = WorkshopActions.Rejected db1
           ∧ length (Firestore.registrations db1) = 1.
Proof.
  split; eexists; (split; [reflexivity |]); vm_compute; reflexivity.
Qed.

(** ** Further properties of the filter *)

Section FilterMore.
Import JS WorkshopsPage.

Variable Number : string → option Qc.

(** Order facts about prices and the bucket bounds. *)
Ltac price_order :=
  unfold Qcle, Qclt, num, Qc_of_Z in *; simpl in *; unfold inject_Z in *; lra.

(** Every price lies in exactly one of the six buckets. *)
Theorem matchesPrice_partition (price : Qc) :
  ∃ bucket, bucket ∈ bucketNames
            ∧ matchesPrice bucket price = true
            ∧ ∀ other, other ∈ bucketNames →
                       matchesPrice other price = true → other = bucket.
Proof.
  assert (∀ b, b ∈ bucketNames →
            b = "0-2500" ∨ b = "2500-5000" ∨ b = "5000-10000"
            ∨ b = "10000-20000" ∨ b = "20000-30000" ∨ b = "30000+") as Hnames.
  { intros b. unfold bucketNames. rewrite !elem_of_cons, elem_of_nil. tauto. }
  assert (∀ b, b = "0-2500" ∨ b = "2500-5000" ∨ b = "5000-10000"
               ∨ b = "10000-20000" ∨ b = "20000-30000" ∨ b = "30000+" →
               b ∈ bucketNames) as Hin.
  { intros b. unfold bucketNames. rewrite !elem_of_cons, elem_of_nil. tauto. }
  destruct (decide (price ≤ num 2500)%Qc) as [H1 | H1];
    [exists "0-2500" |
     destruct (decide (price ≤ num 5000)%Qc) as [H2 | H2];
       [exists "2500-5000" |
        destruct (decide (price ≤ num 10000)%Qc) as [H3 | H3];
          [exists "5000-10000" |
           destruct (decide (price ≤ num 20000)%Qc) as [H4 | H4];
             [exists "10000-20000" |
              destruct (decide (price ≤ num 30000)%Qc) as [H5 | H5];
                [exists "20000-30000" | exists "30000+"]]]]].
  all: split; [apply Hin; tauto |].
  all: split;
    [ rewrite matchesPrice_inBucket; unfold inBucket;
      split_and!; intros ?; try discriminate; try split; price_order
    | intros other [-> | [-> | [-> | [-> | [-> | ->]]]]]%Hnames Hm;
      try reflexivity;
      apply matchesPrice_inBucket in Hm as (B1 & B2 & B3 & B4 & B5 & B6);
      exfalso;
      first [ specialize (B1 eq_refl) | specialize (B2 eq_refl)
            | specialize (B3 eq_refl) | specialize (B4 eq_refl)
            | specialize (B5 eq_refl) | specialize (B6 eq_refl) ];
      price_order ].
Qed.

Lemma inBucket_All price : inBucket "All" price.
Proof. unfold inBucket. split_and!; intros ?; discriminate. Qed.

Lemma matchesSpec_relaxes c' c w :
  relaxes c' c → matchesSpec Number c w → matchesSpec Number c' w.
Proof.
  intros (Hs & Hc & Hv & Hl & Ha & Hp & Hr) (Ms & Mc & Mv & Ml & Ma & Mp & Mr).
  unfold matchesSpec. split_and!.
  - destruct Hs as [-> | ->]; [by left | done].
  - destruct Hc as [-> | ->]; [by left | done].
  - destruct Hv as [-> | ->]; [by left | done].
  - destruct Hl as [-> | ->]; [by left | done].
  - destruct Ha as [-> | ->]; [by left | done].
  - destruct Hp as [-> | ->]; [apply inBucket_All | done].
  - destruct Hr as [-> | ->]; [by left | done].
Qed.

Lemma filter_sublist_impl {A} (f g : A → bool) (l : list A) :
  (∀ x, f x = true → g x = true) →
  sublist (List.filter f l) (List.filter g l).
Proof.
  intros Himpl. induction l as [|x l IH]; simpl; [constructor |].
  destruct (f x) eqn:Hf.
  - rewrite (Himpl x Hf). by constructor.
  - destruct (g x); [by constructor | done].
Qed.

(** Clearing criteria never hides a record: the result under criteria [c]
    is a subsequence of the result under any criteria that relax [c]. *)
Theorem filtered_relaxes (ws : list Workshop.t) (c' c : Filters.t) :
  relaxes c' c →
  sublist (filtered Number ws c) (filtered Number ws c').
Proof.
  intros Hrel. unfold filtered. apply filter_sublist_impl. intros w.
  rewrite !matches_iff. by apply matchesSpec_relaxes.
Qed.

(** A numeric minimum rating above zero hides every workshop that has no
    rating yet. *)
Theorem filtered_hides_unrated ws c w threshold :
  Filters.ratingFilter c ≠ "All" →
  Number (Filters.ratingFilter c) = Some threshold →
  (num 0 < threshold)%Qc →
  Workshop.rating w = None →
  w ∉ filtered Number ws c.
Proof.
  intros Hall Hnum Hpos Hnone [_ Hm]%filtered_elem_of.
  destruct Hm as (_ & _ & _ & _ & _ & _ & [? | (t & Ht & Hle)]); [done |].
  rewrite Hnum in Ht. injection Ht as <-. rewrite Hnone in Hle. simpl in Hle.
  price_order.
Qed.

(** A minimum rating that is neither the sentinel nor a number shows
    nothing, unlike an unrecognized price selector. *)
Theorem filtered_threshold_NaN ws c :
  Filters.ratingFilter c ≠ "All" →
  Number (Filters.ratingFilter c) = None →
  filtered Number ws c = [].
Proof.
  intros Hall Hnan. unfold filtered.
  induction ws as [|w ws IH]; simpl; [done |].
  assert (matches Number c w = false) as ->; [| done].
  apply not_true_is_false. rewrite matches_iff.
  intros (_ & _ & _ & _ & _ & _ & [? | (t & Ht & _)]); [done |].
  by rewrite Hnan in Ht.
Qed.

End FilterMore.

Lemma filtered_relaxes_witness :
  sublist
    (WorkshopsPage.filtered JS.NumberDec [Sample.yoga; Sample.pottery]
       Sample.yogaSearch)
    (WorkshopsPage.filtered JS.NumberDec [Sample.yoga; Sample.pottery]
       Sample.noFilter).
Proof.
  apply filtered_relaxes. unfold relaxes. simpl. split_and!; by left.
Defined.

Lemma filtered_hides_unrated_witness :
  Sample.pottery
  ∉ WorkshopsPage.filtered JS.NumberDec [Sample.yoga; Sample.pottery]
      (Sample.minRating "1").
Proof.
  apply (filtered_hides_unrated JS.NumberDec _ _ _ (JS.num 1));
    [discriminate | reflexivity | reflexivity | reflexivity].
Defined.

Lemma filtered_threshold_NaN_witness :
  WorkshopsPage.filtered JS.NumberDec [Sample.yoga; Sample.pottery]
    (Sample.minRating "high")
  = [].
Proof. apply filtered_threshold_NaN; [discriminate | reflexivity]. Defined.

(** ** Further properties of rating *)

Section RatingMore.
Import JS WorkshopsPage.

Lemma onFound_ids workshopId (f : Workshop.t → Workshop.t) ws :
  (∀ w, Workshop.id (f w) = Workshop.id w) →
  List.map Workshop.id (onFound workshopId f ws) = List.map Workshop.id ws.
Proof.
  intros Hid. induction ws as [|w ws IH]; simpl; [done |].
  case_bool_decide; simpl; [by rewrite Hid | by rewrite IH].
Qed.

Lemma onFound_other workshopId (f : Workshop.t → Workshop.t) ws i w :
  ws !! i = Some w → Workshop.id w ≠ workshopId →
  onFound workshopId f ws !! i = Some w.
Proof.
  revert i. induction ws as [|x ws IH]; intros i Hi Hw; [done |].
  simpl. destruct i as [|i]; simpl in Hi.
  - injection Hi as ->. by rewrite bool_decide_eq_false_2.
  - case_bool_decide; simpl; [done | by apply IH].
Qed.

Lemma rated_ids workshopId (g : Workshop.t → Workshop.t) ws :
  (∀ w, Workshop.id (g w) = Workshop.id w) →
  List.map Workshop.id
    (List.map (λ w, if bool_decide (Workshop.id w = workshopId) then g w else w)
       ws)
  = List.map Workshop.id ws.
Proof.
  intros Hid. rewrite map_map. apply map_ext. intros w.
  case_bool_decide; [apply Hid | done].
Qed.

Lemma rated_other workshopId (g : Workshop.t → Workshop.t) ws i w :
  ws !! i = Some w → Workshop.id w ≠ workshopId →
  List.map (λ w, if bool_decide (Workshop.id w = workshopId) then g w else w)
    ws !! i = Some w.
Proof.
  intros Hi Hw. change (List.map ?f ws) with (f <$> ws).
  rewrite list_lookup_fmap, Hi. simpl. by rewrite bool_decide_eq_false_2.
Qed.

(** The ways a rating can end: nothing happened; the write was refused or
    found no document; the write was accepted. *)
Lemma handleRate_cases accepted workshopId rating st :
  let st' := handleRate accepted workshopId rating st in
  st' = st
  ∨ ∃ u workshop,
      user st = Some u
      ∧ List.find (λ w, bool_decide (Workshop.id w = workshopId))
          (workshops st) = Some workshop
      ∧ (st' = console_error "Error rating workshop:"
                 (setWorkshops
                    (onFound workshopId (assignInPlace (uid u) rating)
                       (workshops st)) st)
         ∨ ∃ d, Firestore.workshops (db st) !! workshopId = Some d
                ∧ let cur := <[uid u := rating]> (ratingsOf workshop) in
                  st' = setWorkshops
                          (List.map
                             (λ w, if bool_decide (Workshop.id w = workshopId)
                                   then withRating cur (mean cur) (size cur) w
                                   else w)
                             (workshops st))
                          (setDbWorkshops
                             (<[workshopId := Firestore.write (ratingData cur) d]>
                                (Firestore.workshops (db st))) st)).
Proof.
  intros st'. subst st'.
  destruct (user st) as [u|] eqn:Hu;
    [| left; unfold handleRate; by rewrite Hu].
  destruct (List.find (λ w, bool_decide (Workshop.id w = workshopId))
              (workshops st)) as [workshop|] eqn:Hfind;
    [| left; unfold handleRate; by rewrite Hu, Hfind].
  right. exists u, workshop. split_and!; [done | done |].
  destruct accepted.
  - destruct (Firestore.workshops (db st) !! workshopId) as [d|] eqn:Hd.
    + right. exists d. split; [done |].
      by apply handleRate_accepted.
    + left. unfold handleRate. rewrite Hu, Hfind. simpl. by rewrite Hd.
  - left. unfold handleRate. by rewrite Hu, Hfind.
Qed.

(** Whatever its outcome, a rating keeps the loaded workshops in place and
    leaves those with another id as they were; in the store it touches no
    other document, creates and removes none, changes no field of the rated
    document but the three rating fields, and leaves users and
    registrations alone; it shows no notice and does not reload. *)
Theorem handleRate_frame accepted workshopId rating st :
  let st' := handleRate accepted workshopId rating st in
  List.map Workshop.id (workshops st') = List.map Workshop.id (workshops st)
  ∧ (∀ i w, workshops st !! i = Some w → Workshop.id w ≠ workshopId →
            workshops st' !! i = Some w)
  ∧ (∀ id', id' ≠ workshopId →
       Firestore.workshops (db st') !! id' = Firestore.workshops (db st) !! id')
  ∧ dom (Firestore.workshops (db st')) = dom (Firestore.workshops (db st))
  ∧ (∀ d d' k,
       Firestore.workshops (db st) !! workshopId = Some d →
       Firestore.workshops (db st') !! workshopId = Some d' →
       k ∉ ["ratings"; "rating"; "ratingCount"] →
       d' !! k = d !! k)
  ∧ Firestore.users (db st') = Firestore.users (db st)
  ∧ Firestore.registrations (db st') = Firestore.registrations (db st)
  ∧ alerts st' = alerts st
  ∧ reloads st' = reloads st.
Proof.
  destruct (handleRate_cases accepted workshopId rating st)
    as [-> | (u & workshop & Hu & Hfind & [-> | (d & Hd & ->)])]; simpl.
  - split_and!; try done. by intros d d' k -> [= ->].
  - split_and!; try done.
    + apply onFound_ids, assignInPlace_id.
    + intros i w Hi Hw. by apply onFound_other.
    + by intros d d' k -> [= ->].
  - split_and!; try done.
    + by apply rated_ids.
    + intros i w Hi Hw. by apply rated_other.
    + intros id' Hne. by rewrite lookup_insert_ne.
    + apply dom_insert_lookup_L. eauto.
    + intros d0 d' k Hd0 Hd' Hk. rewrite Hd in Hd0. injection Hd0 as <-.
      rewrite lookup_insert_eq in Hd'. injection Hd' as <-.
      apply write_frame. unfold ratingData.
      rewrite !not_elem_of_cons in Hk. destruct Hk as (? & ? & ? & _).
      rewrite !lookup_insert_ne by done. by rewrite lookup_singleton_ne.
Qed.

Lemma find_absent workshopId (ws : list Workshop.t) :
  (∀ w, w ∈ ws → Workshop.id w ≠ workshopId) →
  List.find (λ w, bool_decide (Workshop.id w = workshopId)) ws = None.
Proof.
  intros Hall. induction ws as [|w ws IH]; simpl; [done |].
  rewrite bool_decide_eq_false_2 by (apply Hall; left).
  apply IH. intros w' Hw'. apply Hall. by right.
Qed.

(** Rating a workshop that is not among the loaded ones does nothing at
    all: no write is attempted, nothing is logged.  The identifier is one
    on which [doc(db, "workshops", workshopId)], evaluated before the
    search, returns a reference; on the empty identifier that call throws
    and the handler logs, a path [handleRate] leaves out. *)
Theorem handleRate_not_loaded accepted workshopId rating st :
  Firestore.documentId workshopId = true →
  (∀ w, w ∈ workshops st → Workshop.id w ≠ workshopId) →
  handleRate accepted workshopId rating st = st.
Proof.
  intros _ Hall. unfold handleRate.
  destruct (user st); [| done]. by rewrite find_absent.
Qed.

Lemma onFound_found workshopId (f : Workshop.t → Workshop.t) ws w :
  List.find (λ w, bool_decide (Workshop.id w = workshopId)) ws = Some w →
  f w ∈ onFound workshopId f ws.
Proof.
  induction ws as [|x ws IH]; simpl; [done |].
  case_bool_decide.
  - intros [= ->]. by left.
  - intros Hw. right. by apply IH.
Qed.

(** A rating whose write is refused, or finds no document, is logged and
    leaves the store alone; but the loaded record that already held a
    ratings object now holds the new entry in it, next to the rating and
    ratingCount computed before. *)
Theorem handleRate_refused_stale accepted st u workshopId workshop r v :
  user st = Some u →
  List.find (λ w, bool_decide (Workshop.id w = workshopId)) (workshops st)
    = Some workshop →
  Workshop.ratings workshop = Some r →
  accepted = false ∨ Firestore.workshops (db st) !! workshopId = None →
  let st' := handleRate accepted workshopId v st in
  db st' = db st
  ∧ errors st' = errors st ++ ["Error rating workshop:"]
  ∧ alerts st' = alerts st
  ∧ ∃ w', w' ∈ workshops st'
          ∧ Workshop.id w' = workshopId
          ∧ Workshop.ratings w' = Some (<[uid u := v]> r)
          ∧ Workshop.rating w' = Workshop.rating workshop
          ∧ Workshop.ratingCount w' = Workshop.ratingCount workshop.
Proof.
  intros Hu Hfind Hr Hfail st'.
  assert (st' = console_error "Error rating workshop:"
                  (setWorkshops
                     (onFound workshopId (assignInPlace (uid u) v)
                        (workshops st)) st)) as ->.
  { subst st'. unfold handleRate. rewrite Hu, Hfind. simpl.
    destruct Hfail as [-> | Hnone]; [done |].
    destruct accepted; [| done]. simpl. by rewrite Hnone. }
  simpl. split_and!; try done.
  exists (assignInPlace (uid u) v workshop). split_and!.
  - by apply onFound_found.
  - rewrite assignInPlace_id. by apply find_id in Hfind as [_ ?].
  - unfold assignInPlace. by rewrite Hr.
  - unfold assignInPlace. by rewrite Hr.
  - unfold assignInPlace. by rewrite Hr.
Qed.

(** After an accepted rating with a value from 1 to 5, the card of the
    rated workshop shows that value as the user's own rating and lights
    exactly the stars up to it. *)
Theorem userRating_after_rating st u workshopId workshop v d :
  user st = Some u →
  List.find (λ w, bool_decide (Workshop.id w = workshopId)) (workshops st)
    = Some workshop →
  Firestore.workshops (db st) !! workshopId = Some d →
  (1 ≤ v ≤ 5)%Z →
  let st' := handleRate true workshopId v st in
  ∀ w, w ∈ workshops st' → Workshop.id w = workshopId →
       userRating st' w = v
       ∧ litStars st' w
         = List.filter (λ star, (star <=? v)%Z) [1; 2; 3; 4; 5]%Z.
Proof.
  intros Hu Hfind Hd Hv st' w Hw Hid.
  assert (userRating st' w = v) as Hrating.
  { subst st'.
    rewrite (handleRate_accepted st u workshopId workshop v d Hu Hfind Hd)
      in Hw |- *.
    simpl in Hw. apply list_elem_of_fmap in Hw as (w0 & -> & Hw0).
    case_bool_decide as Hw0id; [| done].
    unfold userRating. simpl. rewrite Hu. simpl.
    assert ((if bool_decide (uid u = "") then "" else uid u) = uid u) as ->
      by (by case_bool_decide).
    rewrite lookup_insert_eq. rewrite bool_decide_eq_false_2 by lia. done. }
  split; [done |]. unfold litStars. by rewrite Hrating.
Qed.

Lemma total_bounds (m : gmap string Z) :
  (∀ k x, m !! k = Some x → (1 ≤ x ≤ 5)%Z) →
  (Z.of_nat (size m) ≤ total m ≤ 5 * Z.of_nat (size m))%Z.
Proof.
  induction m as [|k x m Hk IH] using map_ind; intros Hall.
  - rewrite map_size_empty. unfold total. rewrite map_fold_empty. lia.
  - rewrite total_insert, Hk, map_size_insert_None by done. simpl.
    assert (1 ≤ x ≤ 5)%Z by (apply (Hall k); apply lookup_insert_eq).
    assert (Z.of_nat (size m) ≤ total m ≤ 5 * Z.of_nat (size m))%Z.
    { apply IH. intros k' x' Hk'. apply (Hall k').
      rewrite lookup_insert_ne; [done |]. intros <-. congruence. }
    lia.
Qed.

Lemma mean_bounds (m : gmap string Z) :
  m ≠ ∅ →
  (∀ k x, m !! k = Some x → (1 ≤ x ≤ 5)%Z) →
  (num 1 ≤ mean m)%Qc ∧ (mean m ≤ num 5)%Qc.
Proof.
  intros Hne Hall.
  pose proof (total_bounds m Hall) as [Hlo Hhi].
  pose proof (mean_times_size m Hne) as Hmean.
  assert (0 < num (Z.of_nat (size m)))%Qc as Hpos.
  { unfold num. rewrite <- Z2Qc_inj_0. apply (proj1 (Z2Qc_inj_lt _ _)).
    apply map_size_non_empty_iff in Hne. lia. }
  split.
  - apply (Qcmult_le_mono_pos_r _ _ _ Hpos). rewrite Hmean.
    unfold num. rewrite <- Z2Qc_inj_mul. apply (proj1 (Z2Qc_inj_le _ _)). lia.
  - apply (Qcmult_le_mono_pos_r _ _ _ Hpos). rewrite Hmean.
    unfold num. rewrite <- Z2Qc_inj_mul. apply (proj1 (Z2Qc_inj_le _ _)). lia.
Qed.

(** Ratings from 1 to 5 keep the rating between 1 and 5: when every stored
    value and the new one lie in that range, so does the recomputed mean. *)
Theorem submitRating_in_range w u v :
  (∀ k x, ratingsOf w !! k = Some x → (1 ≤ x ≤ 5)%Z) →
  (1 ≤ v ≤ 5)%Z →
  ∃ r, Workshop.rating (submitRating w u v) = Some r
       ∧ (num 1 ≤ r)%Qc ∧ (r ≤ num 5)%Qc.
Proof.
  intros Hall Hv. rewrite submitRating_withRating. simpl.
  eexists. split; [done |]. apply mean_bounds.
  - apply insert_non_empty.
  - intros k x. rewrite lookup_insert. case_decide as Hk.
    + intros [= <-]. done.
    + apply Hall.
Qed.

End RatingMore.

Lemma handleRate_not_loaded_witness :
  WorkshopsPage.handleRate true "w9" 3 Sample.page = Sample.page.
Proof.
  apply handleRate_not_loaded; [reflexivity |]. intros w. simpl.
  rewrite !elem_of_cons, elem_of_nil. intros [-> | [-> | []]]; discriminate.
Defined.

Lemma handleRate_refused_stale_witness :
  let st' := WorkshopsPage.handleRate false "w1" 2 Sample.page in
  WorkshopsPage.db st' = WorkshopsPage.db Sample.page
  ∧ WorkshopsPage.errors st'
    = WorkshopsPage.errors Sample.page ++ ["Error rating workshop:"]
  ∧ WorkshopsPage.alerts st' = WorkshopsPage.alerts Sample.page
  ∧ ∃ w', w' ∈ WorkshopsPage.workshops st'
          ∧ Workshop.id w' = "w1"
          ∧ Workshop.ratings w'
            = Some (<["u1" := 2%Z]> {[ "u1" := 4%Z; "u2" := 5%Z ]})
          ∧ Workshop.rating w' = Workshop.rating Sample.yoga
          ∧ Workshop.ratingCount w' = Workshop.ratingCount Sample.yoga.
Proof.
  apply (handleRate_refused_stale false Sample.page Sample.u1 "w1" Sample.yoga
           {[ "u1" := 4%Z; "u2" := 5%Z ]} 2);
    [reflexivity | reflexivity | reflexivity | by left].
Defined.

Lemma userRating_after_rating_witness :
  let st' := WorkshopsPage.handleRate true "w1" 2 Sample.page in
  let w := WorkshopsPage.submitRating Sample.yoga "u1" 2 in
  WorkshopsPage.userRating st' w = 2%Z
  ∧ WorkshopsPage.litStars st' w
    = List.filter (λ star, (star <=? 2)%Z) [1; 2; 3; 4; 5]%Z.
Proof.
  apply (userRating_after_rating Sample.page Sample.u1 "w1" Sample.yoga 2
           Sample.yogaDoc);
    [reflexivity | reflexivity | vm_compute; reflexivity | lia | | reflexivity].
  vm_compute. left.
Defined.

Lemma submitRating_in_range_witness :
  ∃ r, Workshop.rating (WorkshopsPage.submitRating Sample.yoga "u1" 2) = Some r
       ∧ (JS.num 1 ≤ r)%Qc ∧ (r ≤ JS.num 5)%Qc.
Proof.
  apply submitRating_in_range; [| lia].
  intros k x. unfold ratingsOf. simpl.
  intros [[_ <-] | [_ [_ <-]%lookup_singleton_Some]]%lookup_insert_Some; lia.
Defined.

Lemma handleRate_twice_witness :
  WorkshopsPage.handleRate true "w1" 2
    (WorkshopsPage.handleRate true "w1" 3 Sample.page)
  = WorkshopsPage.handleRate true "w1" 2 Sample.page.
Proof.
  apply (handleRate_twice Sample.page Sample.u1 "w1" Sample.yoga 3 2
           Sample.yogaDoc);
    [reflexivity | reflexivity | vm_compute; reflexivity].
Defined.

(** ** Favorites *)

Section FavoriteFacts.
Import JS Firestore WorkshopsPage.

Lemma arrayUnion_elem_of x old y :
  y ∈ arrayUnion x old
  ↔ y = x ∨ match old with Some (VArray l) => y ∈ l | _ => False end.
Proof.
  unfold arrayUnion.
  destruct old as [[| | | | l | | |]|];
    try (rewrite elem_of_cons, elem_of_nil; tauto).
  case_bool_decide as Hx.
  - split; [tauto | intros [-> | ?]; done].
  - rewrite elem_of_app, elem_of_cons, elem_of_nil. tauto.
Qed.

Lemma arrayRemove_elem_of x old y :
  y ∈ arrayRemove x old
  ↔ y ≠ x ∧ match old with Some (VArray l) => y ∈ l | _ => False end.
Proof.
  unfold arrayRemove.
  destruct old as [[| | | | l | | |]|]; try (rewrite elem_of_nil; tauto).
  rewrite list_elem_of_In, filter_In, <- list_elem_of_In.
  rewrite negb_true_iff, bool_decide_eq_false. tauto.
Qed.

Lemma favoritesOf_elem_of (profile : gmap string Value) y :
  y ∈ favoritesOf profile
  ↔ match profile !! "favorites" with
    | Some (VArray l) => y ∈ l
    | _ => False
    end.
Proof.
  unfold favoritesOf.
  destruct (profile !! "favorites") as [[| | | | l | | |]|];
    try (rewrite elem_of_nil; tauto). done.
Qed.

(** The write [toggleFavorite] sends. *)
Lemma toggleFavorite_signed_in accepted workshopId st u ud :
  user st = Some u → userData st = Some ud →
  toggleFavorite accepted workshopId st
  = match updateDoc accepted (users (db st)) (uid u)
            {[ "favorites" := if knownFavorite st workshopId
                              then ArrayRemove workshopId
                              else ArrayUnion workshopId ]} with
    | Some users' => reload (setDbUsers users' st)
    | None => console_error "Error toggling favorite:" st
    end.
Proof.
  intros Hu Hud. unfold toggleFavorite, knownFavorite. rewrite Hu, Hud.
  by destruct (match favorites ud with
               | Some l => bool_decide (workshopId ∈ l)
               | None => false
               end).
Qed.

(** An accepted toggle by a signed-in user flips the membership of the
    workshop in the stored favorites according to what the page took it for
    (removed if it was taken for a favorite, present otherwise), keeps
    every other favorite and every other field of the profile, leaves the
    other profiles and collections alone, and reloads the page once. *)
Theorem toggleFavorite_flips workshopId st u ud profile :
  user st = Some u →
  userData st = Some ud →
  users (db st) !! uid u = Some profile →
  let st' := toggleFavorite true workshopId st in
  reloads st' = S (reloads st)
  ∧ alerts st' = alerts st
  ∧ errors st' = errors st
  ∧ Firestore.workshops (db st') = Firestore.workshops (db st)
  ∧ registrations (db st') = registrations (db st)
  ∧ (∀ other, other ≠ uid u →
       users (db st') !! other = users (db st) !! other)
  ∧ ∃ profile',
      users (db st') !! uid u = Some profile'
      ∧ (∀ k, k ≠ "favorites" → profile' !! k = profile !! k)
      ∧ (workshopId ∈ favoritesOf profile'
         ↔ knownFavorite st workshopId = false)
      ∧ (∀ x, x ≠ workshopId →
           x ∈ favoritesOf profile' ↔ x ∈ favoritesOf profile).
Proof.
  intros Hu Hud Hp st'. subst st'.
  rewrite (toggleFavorite_signed_in true workshopId st u ud Hu Hud).
  unfold updateDoc. rewrite Hp. simpl.
  split_and!; try done.
  - intros other Hne. by rewrite lookup_insert_ne.
  - eexists. split; [apply lookup_insert_eq |]. split_and!.
    + intros k Hk. apply write_frame. by rewrite lookup_singleton_ne.
    + rewrite favoritesOf_elem_of, write_lookup, lookup_singleton_eq.
      destruct (knownFavorite st workshopId); simpl.
      * rewrite arrayRemove_elem_of. split; [tauto | done].
      * rewrite arrayUnion_elem_of. split; [done | tauto].
    + intros x Hx.
      rewrite !favoritesOf_elem_of, write_lookup, lookup_singleton_eq.
      destruct (knownFavorite st workshopId); simpl.
      * rewrite arrayRemove_elem_of. tauto.
      * rewrite arrayUnion_elem_of. tauto.
Qed.

(** A toggle whose write is refused, or whose profile document is missing,
    is only logged: the store is unchanged, no notice is shown and the page
    is not reloaded. *)
Theorem toggleFavorite_refused accepted workshopId st u ud :
  user st = Some u →
  userData st = Some ud →
  accepted = false ∨ users (db st) !! uid u = None →
  let st' := toggleFavorite accepted workshopId st in
  db st' = db st
  ∧ errors st' = errors st ++ ["Error toggling favorite:"]
  ∧ alerts st' = alerts st
  ∧ reloads st' = reloads st
  ∧ workshops st' = workshops st.
Proof.
  intros Hu Hud Hfail st'. subst st'.
  rewrite (toggleFavorite_signed_in accepted workshopId st u ud Hu Hud).
  assert (updateDoc accepted (users (db st)) (uid u)
            {[ "favorites" := if knownFavorite st workshopId
                              then ArrayRemove workshopId
                              else ArrayUnion workshopId ]} = None) as ->.
  { unfold updateDoc. destruct Hfail as [-> | ->]; [done |].
    by destruct accepted. }
  by split_and!.
Qed.

Lemma filter_all_but (x : string) (l : list string) :
  x ∉ l → List.filter (λ y, negb (bool_decide (y = x))) l = l.
Proof.
  intros Hx. induction l as [|y l IH]; simpl; [done |].
  apply not_elem_of_cons in Hx as [Hne Hx].
  rewrite bool_decide_eq_false_2 by done. simpl. by rewrite IH.
Qed.

Lemma arrayRemove_arrayUnion x (l : list string) :
  x ∉ l → arrayRemove x (Some (VArray (arrayUnion x (Some (VArray l))))) = l.
Proof.
  intros Hx. unfold arrayUnion, arrayRemove.
  rewrite bool_decide_eq_false_2 by done.
  rewrite List.filter_app, filter_all_but by done. simpl.
  rewrite bool_decide_eq_true_2 by done. simpl. by rewrite app_nil_r.
Qed.

(** Marking a workshop as favorite and unmarking it again, the page having
    reloaded in between, gives back the users collection as it was, when
    the stored favorites did not contain the workshop before. *)
Theorem toggleFavorite_round_trip workshopId st1 st2 u ud1 ud2 profile l :
  user st1 = Some u →
  userData st1 = Some ud1 →
  knownFavorite st1 workshopId = false →
  users (db st1) !! uid u = Some profile →
  profile !! "favorites" = Some (VArray l) →
  workshopId ∉ l →
  user st2 = Some u →
  userData st2 = Some ud2 →
  knownFavorite st2 workshopId = true →
  db st2 = db (toggleFavorite true workshopId st1) →
  users (db (toggleFavorite true workshopId st2)) = users (db st1).
Proof.
  intros Hu1 Hud1 Hk1 Hp Hfav Hl Hu2 Hud2 Hk2 Hdb.
  rewrite (toggleFavorite_signed_in true workshopId st2 u ud2 Hu2 Hud2).
  rewrite Hk2, Hdb.
  rewrite (toggleFavorite_signed_in true workshopId st1 u ud1 Hu1 Hud1).
  rewrite Hk1. unfold updateDoc. rewrite Hp. simpl.
  rewrite lookup_insert_eq. simpl. rewrite insert_insert_eq.
  apply map_eq. intros other.
  destruct (decide (other = uid u)) as [-> | Hne];
    [| by rewrite lookup_insert_ne].
  rewrite lookup_insert_eq, Hp. f_equal. apply map_eq. intros k.
  rewrite !write_lookup.
  destruct (decide (k = "favorites")) as [-> | Hk].
  - rewrite !lookup_singleton_eq, Hfav. unfold resolve.
    by rewrite arrayRemove_arrayUnion.
  - by rewrite !lookup_singleton_ne.
Qed.

End FavoriteFacts.

Lemma toggleFavorite_flips_witness :
  let st' := WorkshopsPage.toggleFavorite true "w1" Sample.fanPage in
  WorkshopsPage.reloads st' = S (WorkshopsPage.reloads Sample.fanPage)
  ∧ WorkshopsPage.alerts st' = WorkshopsPage.alerts Sample.fanPage
  ∧ WorkshopsPage.errors st' = WorkshopsPage.errors Sample.fanPage
  ∧ Firestore.workshops (WorkshopsPage.db st')
    = Firestore.workshops (WorkshopsPage.db Sample.fanPage)
  ∧ Firestore.registrations (WorkshopsPage.db st')
    = Firestore.registrations (WorkshopsPage.db Sample.fanPage)
  ∧ (∀ other, other ≠ "u1" →
       Firestore.users (WorkshopsPage.db st') !! other
       = Firestore.users (WorkshopsPage.db Sample.fanPage) !! other)
  ∧ ∃ profile',
      Firestore.users (WorkshopsPage.db st') !! "u1" = Some profile'
      ∧ (∀ k, k ≠ "favorites" →
           profile' !! k
           = ({[ "role" := Firestore.VString "user";
                 "favorites" := Firestore.VArray ["w2"] ]}
              : gmap string Firestore.Value) !! k)
      ∧ ("w1" ∈ favoritesOf profile'
         ↔ knownFavorite Sample.fanPage "w1" = false)
      ∧ (∀ x, x ≠ "w1" →
           x ∈ favoritesOf profile'
           ↔ x ∈ favoritesOf {[ "role" := Firestore.VString "user";
                                "favorites" := Firestore.VArray ["w2"] ]}).
Proof.
  apply (toggleFavorite_flips "w1" Sample.fanPage Sample.u1
           {| WorkshopsPage.favorites := Some ["w2"];
              WorkshopsPage.registeredWorkshops := Some ["w1"] |});
    [reflexivity | reflexivity | vm_compute; reflexivity].
Defined.

Lemma toggleFavorite_refused_witness :
  let st' := WorkshopsPage.toggleFavorite false "w1" Sample.fanPage in
  WorkshopsPage.db st' = WorkshopsPage.db Sample.fanPage
  ∧ WorkshopsPage.errors st'
    = WorkshopsPage.errors Sample.fanPage ++ ["Error toggling favorite:"]
  ∧ WorkshopsPage.alerts st' = WorkshopsPage.alerts Sample.fanPage
  ∧ WorkshopsPage.reloads st' = WorkshopsPage.reloads Sample.fanPage
  ∧ WorkshopsPage.workshops st' = WorkshopsPage.workshops Sample.fanPage.
Proof.
  apply (toggleFavorite_refused false "w1" Sample.fanPage Sample.u1
           {| WorkshopsPage.favorites := Some ["w2"];
              WorkshopsPage.registeredWorkshops := Some ["w1"] |});
    [reflexivity | reflexivity | by left].
Defined.

Lemma toggleFavorite_round_trip_witness :
  Firestore.users
    (WorkshopsPage.db
       (WorkshopsPage.toggleFavorite true "w1" Sample.fanPageReloaded))
  = Firestore.users (WorkshopsPage.db Sample.fanPage).
Proof.
  apply (toggleFavorite_round_trip "w1" Sample.fanPage Sample.fanPageReloaded
           Sample.u1
           {| WorkshopsPage.favorites := Some ["w2"];
              WorkshopsPage.registeredWorkshops := Some ["w1"] |}
           {| WorkshopsPage.favorites := Some ["w2"; "w1"];
              WorkshopsPage.registeredWorkshops := Some ["w1"] |}
           {[ "role" := Firestore.VString "user";
              "favorites" := Firestore.VArray ["w2"] ]}
           ["w2"]);
    try (vm_compute; reflexivity).
  rewrite elem_of_cons, elem_of_nil. intros [? | []]. discriminate.
Defined.

(** ** Creating, listing and deleting workshops *)

Section CatalogFacts.
Import JS Firestore WorkshopActions.

Lemma db_eta (db : DB) :
  {| workshops := workshops db; users := users db;
     registrations := registrations db |} = db.
Proof. by destruct db. Qed.

(** The document [createWorkshop] writes, field by field. *)
Lemma created_lookup vendorId imageUrl data k :
  write (createdFields vendorId imageUrl data) ∅ !! k
  = if bool_decide (k = "vendorId") then Some (VString vendorId)
    else if bool_decide (k = "title")
    then Some (VString (WorkshopData.title data))
    else if bool_decide (k = "description")
    then Some (VString (WorkshopData.description data))
    else if bool_decide (k = "price")
    then Some (VNumber (WorkshopData.price data))
    else if bool_decide (k = "category")
    then Some (VString (WorkshopData.category data))
    else if bool_decide (k = "date")
    then Some (VString (WorkshopData.date data))
    else if bool_decide (k = "whatsappLink")
    then Some (VString (or_string (WorkshopData.whatsappLink data) ""))
    else if bool_decide (k = "imageUrl") then Some (VString imageUrl)
    else if bool_decide (k = "createdAt") then Some VTimestamp
    else None.
Proof.
  destruct (decide (k = "vendorId")) as [-> | ?]; [vm_compute; reflexivity |].
  destruct (decide (k = "title")) as [-> | ?]; [vm_compute; reflexivity |].
  destruct (decide (k = "description")) as [-> | ?]; [vm_compute; reflexivity |].
  destruct (decide (k = "price")) as [-> | ?]; [vm_compute; reflexivity |].
  destruct (decide (k = "category")) as [-> | ?]; [vm_compute; reflexivity |].
  destruct (decide (k = "date")) as [-> | ?]; [vm_compute; reflexivity |].
  destruct (decide (k = "whatsappLink")) as [-> | ?]; [vm_compute; reflexivity |].
  destruct (decide (k = "imageUrl")) as [-> | ?]; [vm_compute; reflexivity |].
  destruct (decide (k = "createdAt")) as [-> | ?]; [vm_compute; reflexivity |].
  rewrite !bool_decide_eq_false_2 by done.
  rewrite write_lookup, lookup_empty. unfold createdFields.
  rewrite !lookup_insert_ne by done. by rewrite lookup_singleton_ne.
Qed.

(** How [createWorkshop] can end. *)
Lemma createWorkshop_cases upload accepted newId vendorId data db :
  let o := createWorkshop upload accepted newId vendorId data db in
  o = Rejected db
  ∨ ∃ imageUrl,
      match WorkshopData.image data with
      | Some _ => upload = Some imageUrl
      | None => imageUrl = ""
      end
      ∧ o = Resolved
              (setWorkshops
                 (<[newId := write (createdFields vendorId imageUrl data) ∅]>
                    (workshops db)) db).
Proof.
  unfold createWorkshop.
  destruct (WorkshopData.image data) as [file|].
  - destruct upload as [url|]; [| by left].
    destruct accepted; [| by left]. right. by exists url.
  - destruct accepted; [| by left]. right. by exists "".
Qed.

(** A creation that resolves has written one new document under the
    identifier the store chose: it holds the vendor's id, the submitted
    title, description, price, category and date, the WhatsApp link or the
    empty string, the address of the uploaded image or the empty string,
    and the creation time; it holds no file and no rating field.  A
    creation that is rejected has written nothing.  Either way every
    document that existed under another identifier, the users and the
    registrations are untouched. *)
Theorem createWorkshop_clean upload accepted newId vendorId data db :
  let o := createWorkshop upload accepted newId vendorId data db in
  (∀ db', o = Rejected db' → db' = db)
  ∧ (∀ db', o = Resolved db' →
       ∃ d imageUrl,
         workshops db' !! newId = Some d
         ∧ dom d = list_to_set ["vendorId"; "title"; "description"; "price";
                                "category"; "date"; "whatsappLink";
                                "imageUrl"; "createdAt"]
         ∧ d !! "vendorId" = Some (VString vendorId)
         ∧ d !! "title" = Some (VString (WorkshopData.title data))
         ∧ d !! "description" = Some (VString (WorkshopData.description data))
         ∧ d !! "price" = Some (VNumber (WorkshopData.price data))
         ∧ d !! "category" = Some (VString (WorkshopData.category data))
         ∧ d !! "date" = Some (VString (WorkshopData.date data))
         ∧ d !! "whatsappLink"
           = Some (VString (or_string (WorkshopData.whatsappLink data) ""))
         ∧ d !! "imageUrl" = Some (VString imageUrl)
         ∧ match WorkshopData.image data with
           | Some _ => upload = Some imageUrl
           | None => imageUrl = ""
           end
         ∧ (∀ k file, d !! k ≠ Some (VFile file))
         ∧ dom (workshops db') = {[ newId ]} ∪ dom (workshops db))
  ∧ (∀ id, id ≠ newId → workshops (store o) !! id = workshops db !! id)
  ∧ users (store o) = users db
  ∧ registrations (store o) = registrations db.
Proof.
  destruct (createWorkshop_cases upload accepted newId vendorId data db)
    as [-> | (imageUrl & Himg & ->)]; simpl.
  - split_and!; try done. by intros db' [= <-].
  - split_and!; try done.
    + intros db' [= <-]. simpl.
      exists (write (createdFields vendorId imageUrl data) ∅), imageUrl.
      rewrite lookup_insert_eq, !created_lookup. simpl.
      split_and!; try done.
      * intros k file. rewrite created_lookup.
        repeat (case_bool_decide; [done |]). done.
      * apply dom_insert_L.
    + intros id Hne. by rewrite lookup_insert_ne.
Qed.

(** Creating a workshop and deleting it again leaves the store exactly as
    it was, whether or not the creation went through, when the identifier
    was not in use. *)
Theorem create_delete_round_trip upload accepted newId vendorId data db :
  workshops db !! newId = None →
  store (deleteWorkshop true newId
           (store (createWorkshop upload accepted newId vendorId data db)))
  = db.
Proof.
  intros Hfresh.
  destruct (createWorkshop_cases upload accepted newId vendorId data db)
    as [-> | (imageUrl & _ & ->)]; simpl; unfold setWorkshops; simpl.
  - rewrite delete_id by done. apply db_eta.
  - rewrite delete_insert_id by done. apply db_eta.
Qed.

Lemma ownedBy_true vendorId (d : gmap string Value) :
  ownedBy vendorId d = true ↔ d !! "vendorId" = Some (VString vendorId).
Proof.
  unfold ownedBy. destruct (d !! "vendorId") as [[| v | | | | | |]|];
    try (split; [discriminate | intros [=]]).
  rewrite bool_decide_eq_true. split; [by intros -> | by intros [= ->]].
Qed.

Lemma getVendorWorkshops_elem_of vendorId db x :
  x ∈ getVendorWorkshops vendorId db
  ↔ ∃ id d, workshops db !! id = Some d
            ∧ d !! "vendorId" = Some (VString vendorId)
            ∧ x = d ∪ {[ "id" := VString id ]}.
Proof.
  unfold getVendorWorkshops. rewrite list_elem_of_fmap. split.
  - intros ([id d] & -> & Hin). apply elem_of_map_to_list in Hin.
    apply map_lookup_filter_Some in Hin as [Hd Hown]. simpl in Hown.
    apply ownedBy_true in Hown. by exists id, d.
  - intros (id & d & Hd & Hown & ->). exists (id, d). split; [done |].
    apply elem_of_map_to_list, map_lookup_filter_Some.
    split; [done |]. by apply ownedBy_true.
Qed.

Lemma listed_object_fields (d : gmap string Value) id :
  (d ∪ {[ "id" := VString id ]}) !! "id" = Some (default (VString id) (d !! "id"))
  ∧ ∀ k, k ≠ "id" → (d ∪ {[ "id" := VString id ]}) !! k = d !! k.
Proof.
  split.
  - rewrite lookup_union. destruct (d !! "id") as [v|]; simpl;
      by rewrite lookup_singleton_eq.
  - intros k Hk. rewrite lookup_union, lookup_singleton_ne by done.
    by destruct (d !! k).
Qed.

(** The list of a vendor's workshops holds one object for each stored
    document whose [vendorId] is the vendor's, and nothing else; the object
    carries the fields of the document, and under [id] the identifier of
    the document unless the document stores a field of that name. *)
Theorem getVendorWorkshops_spec vendorId db :
  (∀ x, x ∈ getVendorWorkshops vendorId db
        ↔ ∃ id d, workshops db !! id = Some d
                  ∧ d !! "vendorId" = Some (VString vendorId)
                  ∧ x = d ∪ {[ "id" := VString id ]})
  ∧ (∀ id d, workshops db !! id = Some d →
       d !! "vendorId" = Some (VString vendorId) →
       let x := d ∪ {[ "id" := VString id ]} in
       x ∈ getVendorWorkshops vendorId db
       ∧ x !! "id" = Some (default (VString id) (d !! "id"))
       ∧ ∀ k, k ≠ "id" → x !! k = d !! k)
  ∧ length (getVendorWorkshops vendorId db) ≤ size (workshops db).
Proof.
  split_and!.
  - intros x. apply getVendorWorkshops_elem_of.
  - intros id d Hd Hown x. subst x.
    destruct (listed_object_fields d id) as [Hid Hother].
    split_and!; [| done | done].
    apply getVendorWorkshops_elem_of. by exists id, d.
  - unfold getVendorWorkshops. rewrite length_fmap, length_map_to_list.
    apply map_subseteq_size, map_filter_subseteq.
Qed.

(** A workshop that has just been created is in the list of its vendor,
    under the identifier the store gave it and with the submitted title. *)
Theorem createWorkshop_listed upload newId vendorId data db db' :
  createWorkshop upload true newId vendorId data db = Resolved db' →
  ∃ x, x ∈ getVendorWorkshops vendorId db'
       ∧ x !! "id" = Some (VString newId)
       ∧ x !! "title" = Some (VString (WorkshopData.title data)).
Proof.
  intros Hres.
  destruct (createWorkshop_cases upload true newId vendorId data db)
    as [Hrej | (imageUrl & _ & Hok)]; [congruence |].
  rewrite Hok in Hres. injection Hres as <-.
  set (d := write (createdFields vendorId imageUrl data) ∅).
  destruct (listed_object_fields d newId) as [Hid Hother].
  exists (d ∪ {[ "id" := VString newId ]}). split_and!.
  - apply getVendorWorkshops_elem_of. exists newId, d. simpl.
    rewrite lookup_insert_eq. subst d. by rewrite created_lookup.
  - rewrite Hid. subst d. by rewrite created_lookup.
  - rewrite Hother by done. subst d. by rewrite created_lookup.
Qed.

(** An accepted deletion removes the document and takes the workshop off
    the list of every vendor, leaving all other entries of the lists as
    they were; it removes no registration of the workshop and changes no
    user's registered workshops.  A refused one changes nothing. *)
Theorem deleteWorkshop_spec accepted id db :
  let db' := store (deleteWorkshop accepted id db) in
  (accepted = true →
     workshops db' !! id = None
     ∧ ∀ vendorId x,
         x ∈ getVendorWorkshops vendorId db'
         ↔ ∃ id' d, id' ≠ id ∧ workshops db !! id' = Some d
                    ∧ d !! "vendorId" = Some (VString vendorId)
                    ∧ x = d ∪ {[ "id" := VString id' ]})
  ∧ (accepted = false → db' = db)
  ∧ (∀ id', id' ≠ id → workshops db' !! id' = workshops db !! id')
  ∧ registrations db' = registrations db
  ∧ users db' = users db
  ∧ (∀ userId, registeredCount db' userId id = registeredCount db userId id).
Proof.
  unfold deleteWorkshop. destruct accepted; simpl.
  - split_and!; try done.
    + intros _. split; [apply lookup_delete_eq |].
      intros vendorId x. rewrite getVendorWorkshops_elem_of.
      simpl. split.
      * intros (id' & d & Hd & Hown & ->).
        apply lookup_delete_Some in Hd as [Hne Hd]. exists id', d. eauto.
      * intros (id' & d & Hne & Hd & Hown & ->). exists id', d.
        split_and!; [| done | done]. by apply lookup_delete_Some.
    + intros id' Hne. by rewrite lookup_delete_ne.
  - by split_and!.
Qed.


(** An edit fails and writes nothing when the image upload throws, when
    the store refuses the write, or when the workshop no longer exists: it
    never creates a document. *)
Theorem updateWorkshop_fails upload accepted id data db :
  (truthy (data !! "image") = true ∧ upload = None)
  ∨ accepted = false
  ∨ workshops db !! id = None →
  updateWorkshop upload accepted id data db = Rejected db.
Proof.
  intros Hfail. unfold updateWorkshop.
  destruct (if truthy (data !! "image") then upload else Some "")
    as [imageUrl|] eqn:Hup; [| done].
  unfold updateDoc.
  destruct Hfail as [[Ht ->] | [-> | Hnone]].
  - by rewrite Ht in Hup.
  - done.
  - rewrite Hnone. by destruct accepted.
Qed.

(** Registration is not atomic: when the registration document has been
    written and the update of the user's profile is refused, or the profile
    does not exist, the call is rejected, yet the pending registration
    stays in the store while the user's registered workshops are as
    before. *)
Theorem registerForWorkshop_partial upload added updated workshopId userId
    receiptFile db receiptUrl :
  match receiptFile with Some _ => upload | None => Some "" end
    = Some receiptUrl →
  added = true →
  updated = false ∨ users db !! userId = None →
  ∃ db', registerForWorkshop upload added updated workshopId userId
           receiptFile db = Rejected db'
         ∧ registrations db'
           = registrations db ++ [registration workshopId userId receiptUrl]
         ∧ startsPending workshopId userId
             (registration workshopId userId receiptUrl)
         ∧ users db' = users db
         ∧ workshops db' = workshops db
         ∧ registeredCount db' userId workshopId
           = registeredCount db userId workshopId.
Proof.
  intros Hup -> Hfail. unfold registerForWorkshop. rewrite Hup.
  fold (registration workshopId userId receiptUrl). simpl.
  assert (updateDoc updated (users db) userId
            {[ "registeredWorkshops" := ArrayUnion workshopId ]} = None) as ->.
  { unfold updateDoc. destruct Hfail as [-> | ->]; [done |].
    by destruct updated. }
  eexists. split; [done |]. simpl.
  by split_and!.
Qed.

(** When the receipt upload throws or the store refuses the registration
    document, nothing at all is written. *)
Theorem registerForWorkshop_nothing upload added updated workshopId userId
    receiptFile db :
  (is_Some receiptFile ∧ upload = None) ∨ added = false →
  registerForWorkshop upload added updated workshopId userId receiptFile db
  = Rejected db.
Proof.
  intros [[[file ->] ->] | ->]; unfold registerForWorkshop; [done |].
  by destruct (match receiptFile with Some _ => upload | None => Some "" end).
Qed.

End CatalogFacts.

Lemma create_delete_round_trip_witness :
  WorkshopActions.store
    (WorkshopActions.deleteWorkshop true "w7"
       (WorkshopActions.store
          (WorkshopActions.createWorkshop (Some "https://img/chess.png") true
             "w7" "v1" Sample.chessData Sample.store)))
  = Sample.store.
Proof. apply create_delete_round_trip. vm_compute. reflexivity. Defined.

Lemma createWorkshop_listed_witness :
  ∃ x, x ∈ WorkshopActions.getVendorWorkshops "v1"
             (WorkshopActions.store
                (WorkshopActions.createWorkshop (Some "https://img/chess.png")
                   true "w7" "v1" Sample.chessData Sample.store))
       ∧ x !! "id" = Some (Firestore.VString "w7")
       ∧ x !! "title" = Some (Firestore.VString "Chess Club").
Proof.
  apply (createWorkshop_listed (Some "https://img/chess.png") "w7" "v1"
           Sample.chessData Sample.store).
  reflexivity.
Defined.


Lemma updateWorkshop_fails_witness :
  WorkshopActions.updateWorkshop None true "w9"
    (VendorPage.editPayload Sample.editForm) Sample.store
  = WorkshopActions.Rejected Sample.store.
Proof.
  apply updateWorkshop_fails. right. right. vm_compute. reflexivity.
Defined.

Lemma registerForWorkshop_partial_witness :
  ∃ db', WorkshopActions.registerForWorkshop (Some "https://r/9") true true
           "w2" "u9" (Some "receipt.pdf") Sample.store
         = WorkshopActions.Rejected db'
         ∧ Firestore.registrations db'
           = Firestore.registrations Sample.store
             ++ [registration "w2" "u9" "https://r/9"]
         ∧ startsPending "w2" "u9" (registration "w2" "u9" "https://r/9")
         ∧ Firestore.users db' = Firestore.users Sample.store
         ∧ Firestore.workshops db' = Firestore.workshops Sample.store
         ∧ registeredCount db' "u9" "w2" = registeredCount Sample.store "u9" "w2".
Proof.
  apply (registerForWorkshop_partial (Some "https://r/9") true true "w2" "u9"
           (Some "receipt.pdf") Sample.store "https://r/9");
    [reflexivity | reflexivity | right; vm_compute; reflexivity].
Defined.

Lemma registerForWorkshop_nothing_witness :
  WorkshopActions.registerForWorkshop None true true "w2" "u1"
    (Some "receipt.pdf") Sample.store
  = WorkshopActions.Rejected Sample.store.
Proof.
  apply registerForWorkshop_nothing. left. split; [by eexists | reflexivity].
Defined.

(** ** The dashboard: revenue, creating and editing *)

Section DashboardFacts.
Import JS Firestore VendorPage VendorDashboard.

Lemma num_add (a b : nat) :
  num (Z.of_nat (a + b)) = (num (Z.of_nat a) + num (Z.of_nat b))%Qc.
Proof. unfold num. by rewrite Nat2Z.inj_add, Z2Qc_inj_add. Qed.

Lemma num_0 : num 0 = 0%Qc.
Proof. unfold num. apply Z2Qc_inj_0. Qed.

(** The estimate in the form of a sum. *)
Lemma totalRevenue_foldr workshops participantsMap :
  totalRevenue workshops participantsMap
  = foldr (λ ws acc,
             (VendorPage.Workshop.price ws
              * num (Z.of_nat (count participantsMap ws)) + acc)%Qc)
      (num 0) workshops.
Proof.
  unfold totalRevenue. rewrite foldl_revenue, num_0. ring.
Qed.

(** The estimate of two lists of workshops is the sum of their estimates,
    and without workshops it is zero. *)
Theorem totalRevenue_app ws1 ws2 participantsMap :
  totalRevenue (ws1 ++ ws2) participantsMap
  = (totalRevenue ws1 participantsMap + totalRevenue ws2 participantsMap)%Qc
  ∧ totalRevenue [] participantsMap = 0%Qc.
Proof.
  split; [| apply num_0].
  rewrite !totalRevenue_foldr, foldr_app.
  induction ws1 as [|ws ws1 IH]; simpl.
  - rewrite num_0. ring.
  - rewrite IH. ring.
Qed.

Lemma count_insert_other participantsMap id ps ws :
  VendorPage.Workshop.id ws ≠ id →
  count (<[id := ps]> participantsMap) ws = count participantsMap ws.
Proof. intros Hne. unfold count. by rewrite lookup_insert_ne. Qed.

Lemma count_insert_app participantsMap ws p :
  count (<[VendorPage.Workshop.id ws
           := participantsOf participantsMap ws ++ [p]]> participantsMap) ws
  = count participantsMap ws + (if counted p then 1 else 0).
Proof.
  unfold count, participantsOf. rewrite lookup_insert_eq.
  rewrite List.filter_app, length_app. simpl.
  destruct (participantsMap !! VendorPage.Workshop.id ws); simpl;
    by destruct (counted p).
Qed.

(** The estimate when the counted participants of one workshop grow by
    [c] and those of the workshops with another id stay. *)
Lemma totalRevenue_bump workshops pm pm' ws (c : nat) :
  NoDup (VendorPage.Workshop.id <$> workshops) →
  ws ∈ workshops →
  count pm' ws = count pm ws + c →
  (∀ w, VendorPage.Workshop.id w ≠ VendorPage.Workshop.id ws →
        count pm' w = count pm w) →
  totalRevenue workshops pm'
  = (totalRevenue workshops pm
     + VendorPage.Workshop.price ws * num (Z.of_nat c))%Qc.
Proof.
  intros Hnodup Hin Hws Hother. rewrite !totalRevenue_foldr.
  assert (∀ l, (∀ w, w ∈ l → VendorPage.Workshop.id w ≠ VendorPage.Workshop.id ws) →
            foldr (λ w acc, (VendorPage.Workshop.price w
                             * num (Z.of_nat (count pm' w)) + acc)%Qc)
              (num 0) l
            = foldr (λ w acc, (VendorPage.Workshop.price w
                               * num (Z.of_nat (count pm w)) + acc)%Qc)
                (num 0) l) as Hsame.
  { intros l Hl. induction l as [|w l IH]; simpl; [done |].
    rewrite IH by (intros w' Hw'; apply Hl; by right).
    by rewrite Hother by (apply Hl; left). }
  induction workshops as [|w l IH]; [by apply elem_of_nil in Hin |].
  rewrite fmap_cons in Hnodup. apply list.NoDup_cons in Hnodup as [Hw Hl].
  simpl. apply elem_of_cons in Hin as [<- | Hin].
  - rewrite Hsame.
    + rewrite Hws, num_add. ring.
    + intros w' Hw' Heq. apply Hw. rewrite <- Heq.
      apply list_elem_of_fmap. by exists w'.
  - rewrite IH by done.
    assert (VendorPage.Workshop.id w ≠ VendorPage.Workshop.id ws) as Hne.
    { intros Heq. apply Hw. rewrite Heq. apply list_elem_of_fmap. by exists ws. }
    rewrite Hother by done. ring.
Qed.

(** One more participant of a workshop raises the estimate by the price of
    the workshop when the participant's status is approved, pending or
    missing, and leaves it as it was otherwise (a rejected participant adds
    nothing); the workshops are listed under distinct identifiers. *)
Theorem totalRevenue_new_participant workshops participantsMap ws p :
  NoDup (VendorPage.Workshop.id <$> workshops) →
  ws ∈ workshops →
  totalRevenue workshops
    (<[VendorPage.Workshop.id ws
       := participantsOf participantsMap ws ++ [p]]> participantsMap)
  = (totalRevenue workshops participantsMap
     + (if counted p then VendorPage.Workshop.price ws else 0))%Qc.
Proof.
  intros Hnodup Hin.
  rewrite (totalRevenue_bump workshops participantsMap _ ws
             (if counted p then 1 else 0) Hnodup Hin).
  - destruct (counted p); simpl.
    + change (Z.of_nat 1) with 1%Z.
      assert (num 1 = 1%Qc) as -> by apply Z2Qc_inj_1. ring.
    + change (Z.of_nat 0) with 0%Z.
      assert (num 0 = 0%Qc) as -> by apply Z2Qc_inj_0. ring.
  - apply count_insert_app.
  - intros w Hw. by apply count_insert_other.
Qed.

Lemma foldl_length_sum (ls : list (list Participant.t)) (a : nat) :
  foldl (λ acc list, acc + length list) a ls = a + sum_list_with length ls.
Proof.
  revert a. induction ls as [|l ls IH]; intros a; simpl; [lia |].
  rewrite IH. lia.
Qed.

Lemma totalParticipants_sum participantsMap :
  totalParticipants participantsMap
  = sum_list_with length (map_to_list participantsMap).*2.
Proof. unfold totalParticipants. by rewrite foldl_length_sum. Qed.

(** The registration counter is zero without participants and grows by the
    length of the list of each workshop that is added; so the participants
    counted for the revenue of any one workshop are never more than the
    counter shows. *)
Theorem totalParticipants_spec participantsMap :
  totalParticipants (∅ : gmap string (list Participant.t)) = 0
  ∧ (∀ id ps, participantsMap !! id = None →
       totalParticipants (<[id := ps]> participantsMap)
       = totalParticipants participantsMap + length ps)
  ∧ (∀ ws, count participantsMap ws ≤ totalParticipants participantsMap).
Proof.
  split_and!.
  - rewrite totalParticipants_sum, map_to_list_empty. done.
  - intros id ps Hid. rewrite !totalParticipants_sum.
    rewrite (map_to_list_insert participantsMap id ps Hid).
    rewrite fmap_cons. simpl. lia.
  - intros ws. unfold count.
    destruct (participantsMap !! VendorPage.Workshop.id ws) as [ps|] eqn:Hps;
      [| lia].
    rewrite totalParticipants_sum.
    assert (ps ∈ (map_to_list participantsMap).*2) as Hin.
    { apply list_elem_of_fmap. exists (VendorPage.Workshop.id ws, ps).
      split; [done |]. by apply elem_of_map_to_list. }
    pose proof (sum_list_with_in ps length _ Hin).
    pose proof (List.filter_length_le counted ps). lia.
Qed.

Lemma incomplete_true user f :
  user = None ∨ title f = "" ∨ description f = "" ∨ category f = ""
  ∨ date f = "" →
  incomplete user f = true.
Proof.
  unfold incomplete. rewrite !orb_true_iff, !bool_decide_eq_true.
  intros [-> | [? | [? | [? | ?]]]]; tauto.
Qed.

Lemma incomplete_false uid f :
  title f ≠ "" → description f ≠ "" → category f ≠ "" → date f ≠ "" →
  incomplete (Some uid) f = false.
Proof.
  intros. unfold incomplete. by rewrite !bool_decide_eq_false_2.
Qed.

(** Creating with no signed-in vendor or with an empty title, description,
    category or date writes nothing: the vendor is asked to fill all
    fields and the form and the dialog stay as they are. *)
Theorem handleCreate_incomplete upload accepted newId st :
  user st = None
  ∨ title (form (page st)) = "" ∨ description (form (page st)) = ""
  ∨ category (form (page st)) = "" ∨ date (form (page st)) = "" →
  let st' := handleCreate upload accepted newId st in
  db (page st') = db (page st)
  ∧ alerts (page st') = alerts (page st) ++ ["Please fill all fields."]
  ∧ form (page st') = form (page st)
  ∧ isCreateOpen st' = isCreateOpen st.
Proof.
  intros Hinc st'. subst st'. unfold handleCreate.
  by rewrite incomplete_true.
Qed.

(** Creating with a complete form: when the upload and the write go
    through, the store holds the new workshop under the vendor's id and
    with the title and price of the form (a price of zero included), the
    form is reset and the dialog closed; when the upload throws or the
    write is refused, the store is unchanged, the form keeps what the
    vendor typed, the dialog stays open and a failure notice is shown. *)
Theorem handleCreate_complete upload accepted newId st uid :
  user st = Some uid →
  title (form (page st)) ≠ "" → description (form (page st)) ≠ "" →
  category (form (page st)) ≠ "" → date (form (page st)) ≠ "" →
  let st' := handleCreate upload accepted newId st in
  let failed := negb accepted
                || match image (form (page st)), upload with
                   | Some _, None => true
                   | _, _ => false
                   end in
  if failed then
    db (page st') = db (page st)
    ∧ form (page st') = form (page st)
    ∧ isCreateOpen st' = isCreateOpen st
    ∧ alerts (page st') = alerts (page st) ++ ["Failed to create workshop."]
  else
    (∃ d, workshops (db (page st')) !! newId = Some d
          ∧ d !! "vendorId" = Some (VString uid)
          ∧ d !! "title" = Some (VString (title (form (page st))))
          ∧ d !! "price" = Some (VNumber (price (form (page st))))
          ∧ d !! "whatsappLink"
            = Some (VString (whatsappLink (form (page st)))))
    ∧ form (page st') = emptyForm
    ∧ isCreateOpen st' = false
    ∧ alerts (page st') = alerts (page st).
Proof.
  intros Hu Ht Hd Hc Hdate st' failed. subst st' failed.
  unfold handleCreate. rewrite Hu, incomplete_false by done. simpl.
  unfold WorkshopActions.createWorkshop. simpl.
  destruct (image (form (page st))) as [file|], upload as [url|], accepted;
    simpl; try done.
  all: split_and!; try done.
  all: eexists; split; [apply lookup_insert_eq |].
  all: rewrite !created_lookup; simpl.
  all: split_and!; try done.
  all: case_bool_decide as Hlink; [by rewrite Hlink | done].
Qed.

(** Opening the editor on a workshop and saving at once, with no new
    image, leaves the stored document as it was except that its WhatsApp
    link becomes the record's link (the empty string when the record has
    none), provided the document agrees with the loaded record; the form
    is then reset and the dialog closed. *)
Theorem edit_without_change upload ws st d :
  workshops (db st) !! VendorPage.Workshop.id ws = Some d →
  mirrors ws d →
  let st' := handleEdit upload true (openEditModal ws st) in
  workshops (db st')
  = <[VendorPage.Workshop.id ws
      := <["whatsappLink"
           := VString (or_string (VendorPage.Workshop.whatsappLink ws) "")]> d]>
      (workshops (db st))
  ∧ form st' = emptyForm
  ∧ isEditOpen st' = false
  ∧ selectedWorkshop st' = None
  ∧ alerts st' = alerts st.
Proof.
  intros Hd (Mt & Mde & Mp & Mc & Mda) st'. subst st'.
  unfold handleEdit, openEditModal. simpl.
  unfold WorkshopActions.updateWorkshop.
  assert (WorkshopActions.truthy
            (editPayload
               {| title := VendorPage.Workshop.title ws;
                  description := VendorPage.Workshop.description ws;
                  price := VendorPage.Workshop.price ws;
                  category := VendorPage.Workshop.category ws;
                  date := VendorPage.Workshop.date ws;
                  whatsappLink :=
                    or_string (VendorPage.Workshop.whatsappLink ws) "";
                  image := None; imagePreview := "" |} !! "image") = false)
    as -> by (vm_compute; reflexivity).
  simpl. unfold updateDoc. rewrite Hd. simpl.
  split_and!; try done. f_equal. apply map_eq. intros k.
  rewrite write_plain_lookup. unfold editPayload. simpl.
  destruct (decide (k = "image")) as [-> | ?].
  { rewrite lookup_delete_eq, lookup_insert_ne by done. done. }
  rewrite lookup_delete_ne by done.
  destruct (decide (k = "title")) as [-> | ?];
    [by rewrite lookup_insert_eq, lookup_insert_ne |].
  rewrite (lookup_insert_ne _ "title") by done.
  destruct (decide (k = "description")) as [-> | ?];
    [by rewrite lookup_insert_eq, lookup_insert_ne |].
  rewrite (lookup_insert_ne _ "description") by done.
  destruct (decide (k = "price")) as [-> | ?];
    [by rewrite lookup_insert_eq, lookup_insert_ne |].
  rewrite (lookup_insert_ne _ "price") by done.
  destruct (decide (k = "category")) as [-> | ?];
    [by rewrite lookup_insert_eq, lookup_insert_ne |].
  rewrite (lookup_insert_ne _ "category") by done.
  destruct (decide (k = "date")) as [-> | ?];
    [by rewrite lookup_insert_eq, lookup_insert_ne |].
  rewrite (lookup_insert_ne _ "date") by done.
  destruct (decide (k = "whatsappLink")) as [-> | ?];
    [by rewrite !lookup_insert_eq |].
  rewrite !(lookup_insert_ne _ "whatsappLink") by done.
  by rewrite lookup_singleton_ne.
Qed.

End DashboardFacts.

Lemma totalRevenue_new_participant_witness :
  VendorPage.totalRevenue [Sample.drumming]
    (<["w3" := participantsOf Sample.drummers Sample.drumming
               ++ [Sample.participant "dee" (Some "pending")]]> Sample.drummers)
  = (VendorPage.totalRevenue [Sample.drumming] Sample.drummers
     + (if VendorPage.counted (Sample.participant "dee" (Some "pending"))
        then VendorPage.Workshop.price Sample.drumming else 0))%Qc.
Proof.
  apply (totalRevenue_new_participant [Sample.drumming] Sample.drummers
           Sample.drumming (Sample.participant "dee" (Some "pending"))).
  - apply NoDup_singleton.
  - by left.
Defined.

Lemma handleCreate_incomplete_witness :
  let st' := VendorDashboard.handleCreate None true "w7" (Sample.creating "") in
  VendorPage.db (VendorDashboard.page st')
  = VendorPage.db (VendorDashboard.page (Sample.creating ""))
  ∧ VendorPage.alerts (VendorDashboard.page st')
    = VendorPage.alerts (VendorDashboard.page (Sample.creating ""))
      ++ ["Please fill all fields."]
  ∧ VendorPage.form (VendorDashboard.page st')
    = VendorPage.form (VendorDashboard.page (Sample.creating ""))
  ∧ VendorDashboard.isCreateOpen st'
    = VendorDashboard.isCreateOpen (Sample.creating "").
Proof.
  apply (handleCreate_incomplete None true "w7" (Sample.creating "")).
  right. left. reflexivity.
Defined.

Lemma handleCreate_complete_witness :
  let st := Sample.creating "Chess Club" in
  let st' := VendorDashboard.handleCreate None true "w7" st in
  (∃ d, Firestore.workshops (VendorPage.db (VendorDashboard.page st')) !! "w7"
        = Some d
        ∧ d !! "vendorId" = Some (Firestore.VString "v1")
        ∧ d !! "title" = Some (Firestore.VString "Chess Club")
        ∧ d !! "price" = Some (Firestore.VNumber (JS.num 0))
        ∧ d !! "whatsappLink" = Some (Firestore.VString ""))
  ∧ VendorPage.form (VendorDashboard.page st') = VendorPage.emptyForm
  ∧ VendorDashboard.isCreateOpen st' = false
  ∧ VendorPage.alerts (VendorDashboard.page st')
    = VendorPage.alerts (VendorDashboard.page st).
Proof.
  apply (handleCreate_complete None true "w7" (Sample.creating "Chess Club")
           "v1");
    (reflexivity || discriminate).
Defined.

Lemma edit_without_change_witness :
  let st' := VendorPage.handleEdit None true
               (VendorDashboard.openEditModal Sample.drumming Sample.dashboard) in
  Firestore.workshops (VendorPage.db st')
  = <["w3" := <["whatsappLink" := Firestore.VString ""]> Sample.drummingDoc]>
      (Firestore.workshops (VendorPage.db Sample.dashboard))
  ∧ VendorPage.form st' = VendorPage.emptyForm
  ∧ VendorPage.isEditOpen st' = false
  ∧ VendorPage.selectedWorkshop st' = None
  ∧ VendorPage.alerts st' = VendorPage.alerts Sample.dashboard.
Proof.
  apply (edit_without_change None Sample.drumming Sample.dashboard
           Sample.drummingDoc).
  - vm_compute. reflexivity.
  - unfold mirrors. split_and!; vm_compute; reflexivity.
Defined.

(** ** Loading the participants of the dashboard *)

Section LoadingFacts.
Import JS Firestore VendorPage VendorDashboard.

Variable regId : nat → string.
Variable queryOrder :
  list (string * gmap string Value) → list (string * gmap string Value).

(** Whatever its order, a query returns the documents it selects, each
    once. *)
Hypothesis queryOrder_Permutation : ∀ docs, queryOrder docs ≡ₚ docs.








(** The order of the documents shows in the order of what is collected,
    and in nothing else. *)
Lemma collect_Permutation db docs docs' :
  docs ≡ₚ docs' →
  match collect db docs, collect db docs' with
  | Some ps, Some ps' => ps ≡ₚ ps'
  | None, None => True
  | _, _ => False
  end.
Proof.
  induction 1 as [| d docs docs' _ IH | d d' docs | docs1 docs2 docs3 _ IH1 _ IH2];
    simpl.
  - done.
  - destruct (pushed db d) as [a|]; [| by destruct (collect db docs),
                                          (collect db docs')].
    destruct (collect db docs) as [b|], (collect db docs') as [b'|];
      try done.
    by rewrite IH.
  - destruct (pushed db d) as [a|], (pushed db d') as [a'|],
      (collect db docs) as [b|]; try done.
    rewrite !app_assoc. f_equiv. apply Permutation_app_comm.
  - destruct (collect db docs1), (collect db docs2), (collect db docs3);
      try done.
    by etrans.
Qed.

(** An entry of the loaded map is what the loop collected for that id. *)
Lemma fetchParticipants_lookup data db id :
  fetchParticipants regId queryOrder data db !! id
  = if bool_decide (id ∈ VendorPage.Workshop.id <$> data)
    then participantsFor regId queryOrder db id else None.
Proof.
  unfold fetchParticipants.
  assert (∀ acc : gmap string (list Participant.t),
            foldl (λ pMap ws,
                     match participantsFor regId queryOrder db
                             (VendorPage.Workshop.id ws) with
                     | Some participants =>
                         <[VendorPage.Workshop.id ws := participants]> pMap
                     | None => pMap
                     end) acc data !! id
            = if bool_decide (id ∈ VendorPage.Workshop.id <$> data)
              then match participantsFor regId queryOrder db id with
                   | Some ps => Some ps
                   | None => acc !! id
                   end
              else acc !! id) as Hgen.
  { induction data as [|ws data IH] using rev_ind; intros acc.
    - done.
    - rewrite foldl_app, fmap_app. simpl.
      destruct (decide (VendorPage.Workshop.id ws = id)) as [<- | Hne].
      + rewrite (bool_decide_eq_true_2
                   (VendorPage.Workshop.id ws
                    ∈ (VendorPage.Workshop.id <$> data)
                      ++ [VendorPage.Workshop.id ws]))
          by (apply elem_of_app; right; by left).
        destruct (participantsFor regId queryOrder db
                    (VendorPage.Workshop.id ws)) as [ps|] eqn:Hps.
        * by rewrite lookup_insert_eq.
        * rewrite IH. by case_bool_decide.
      + assert (bool_decide (id ∈ (VendorPage.Workshop.id <$> data)
                                  ++ [VendorPage.Workshop.id ws])
                = bool_decide (id ∈ VendorPage.Workshop.id <$> data)) as ->.
        { apply bool_decide_ext. rewrite elem_of_app, list_elem_of_singleton.
          split; [intros [? | ?]; [done | congruence] | by left]. }
        destruct (participantsFor regId queryOrder db
                    (VendorPage.Workshop.id ws)).
        * by rewrite lookup_insert_ne, IH.
        * by rewrite IH. }
  rewrite Hgen, lookup_empty. case_bool_decide; [| done].
  by destruct (participantsFor regId queryOrder db id).
Qed.


Lemma pushed_sameIdentities db db' regDoc :
  sameIdentities db db' → pushed db' regDoc = pushed db regDoc.
Proof.
  intros Hsame. unfold pushed.
  destruct (regDoc.2 !! "userId") as [[| userId | | | | | |]|]; try done.
  destruct (documentId userId); [| done]. specialize (Hsame userId).
  destruct (users db !! userId) as [p|], (users db' !! userId) as [p'|];
    try done.
  destruct Hsame as (H1 & H2 & H3 & H4). unfold participantOf.
  by rewrite H1, H2, H3, H4.
Qed.

Lemma collect_sameIdentities db db' docs :
  sameIdentities db db' → collect db' docs = collect db docs.
Proof.
  intros Hsame. induction docs as [|d docs IH]; simpl; [done |].
  by rewrite IH, (pushed_sameIdentities db db').
Qed.

(** How many participants count does not depend on their order. *)
Lemma counted_Permutation (ps ps' : list Participant.t) :
  ps ≡ₚ ps' →
  length (List.filter counted ps) = length (List.filter counted ps').
Proof.
  induction 1 as [| p ps ps' _ IH | p p' ps | ps1 ps2 ps3 _ IH1 _ IH2];
    simpl.
  - done.
  - destruct (counted p); simpl; by rewrite IH.
  - by destruct (counted p), (counted p').
  - by etrans.
Qed.

(** The store a resolved registration leaves. *)
Lemma registerForWorkshop_resolved upload added updated workshopId userId
    receiptFile db db' :
  WorkshopActions.registerForWorkshop upload added updated workshopId userId
    receiptFile db = WorkshopActions.Resolved db' →
  ∃ url profile,
    users db !! userId = Some profile
    ∧ db' = WorkshopActions.setUsers
              (<[userId :=
                   write {[ "registeredWorkshops" := ArrayUnion workshopId ]}
                     profile]> (users db))
              (WorkshopActions.setRegistrations
                 (registrations db ++ [registration workshopId userId url]) db).
Proof.
  intros Hres.
  destruct (registerForWorkshop_cases upload added updated workshopId userId
              receiptFile db)
    as [Hrej | [(url & Hrej) | (url & profile & Hp & Hok)]].
  - rewrite Hrej in Hres. discriminate.
  - rewrite Hrej in Hres. discriminate.
  - rewrite Hok in Hres. injection Hres as <-. by exists url, profile.
Qed.

(** The participants of every workshop after a resolved registration: one
    more for the workshop registered for, somewhere in the list, and the
    same for the others. *)
Lemma participantsFor_registered upload added updated workshopId userId
    receiptFile db db' :
  documentId userId = true →
  WorkshopActions.registerForWorkshop upload added updated workshopId userId
    receiptFile db = WorkshopActions.Resolved db' →
  ∃ p, Participant.status p = Some "pending"
       ∧ Participant.registrationId p
         = Some (regId (length (registrations db)))
       ∧ (∀ ps, participantsFor regId queryOrder db workshopId = Some ps →
                ∃ ps', participantsFor regId queryOrder db' workshopId
                       = Some ps'
                       ∧ ps' ≡ₚ p :: ps)
       ∧ (∀ id, id ≠ workshopId →
                participantsFor regId queryOrder db' id
                = participantsFor regId queryOrder db id).
Proof.
  intros Hu Hres.
  destruct (registerForWorkshop_resolved _ _ _ _ _ _ _ _ Hres)
    as (url & profile & Hp & ->).
  set (profile' := write {[ "registeredWorkshops" := ArrayUnion workshopId ]}
                     profile).
  set (r := registration workshopId userId url).
  set (db' := WorkshopActions.setUsers (<[userId := profile']> (users db))
                (WorkshopActions.setRegistrations (registrations db ++ [r]) db)).
  set (d := (regId (length (registrations db)), r)).
  assert (sameIdentities db db') as Hsame.
  { intros u. subst db'. simpl.
    destruct (decide (u = userId)) as [-> | Hne].
    - rewrite lookup_insert_eq, Hp. subst profile'.
      rewrite !write_lookup. by rewrite !lookup_singleton_ne.
    - rewrite lookup_insert_ne by done.
      by destruct (users db !! u). }
  destruct (registration_startsPending workshopId userId url)
    as (Hstatus & _ & Hw & Huser).
  fold r in Hstatus, Hw, Huser.
  assert (∀ id, registrationsOf regId queryOrder db' id
                = queryOrder
                    (filter (λ regDoc, registeredFor id regDoc.2 = true)
                       (documents regId (registrations db))
                     ++ if bool_decide (id = workshopId) then [d] else []))
    as Hdocs.
  { intros id. unfold registrationsOf, documents. subst db'. simpl.
    rewrite imap_app, list.filter_app. simpl. rewrite Nat.add_0_r. fold d.
    f_equal. f_equal. rewrite filter_cons, filter_nil. simpl.
    unfold registeredFor. rewrite Hw.
    destruct (decide (id = workshopId)) as [-> | Hid].
    - rewrite (bool_decide_eq_true_2 (workshopId = workshopId)) by done.
      by rewrite decide_True.
    - rewrite (bool_decide_eq_false_2 (workshopId = id)) by congruence.
      rewrite (bool_decide_eq_false_2 (id = workshopId)) by done.
      by rewrite decide_False. }
  exists (participantOf d profile'). split_and!.
  - unfold participantOf. simpl. by rewrite Hstatus.
  - done.
  - intros ps Hps. unfold participantsFor. rewrite Hdocs.
    rewrite (bool_decide_eq_true_2 (workshopId = workshopId)) by done.
    rewrite (collect_sameIdentities db db') by done.
    set (F := filter (λ regDoc, registeredFor workshopId regDoc.2 = true)
                (documents regId (registrations db))).
    assert (queryOrder (F ++ [d]) ≡ₚ d :: queryOrder F) as Hperm.
    { rewrite !queryOrder_Permutation. by rewrite Permutation_app_comm. }
    pose proof (collect_Permutation db _ _ Hperm) as Hcollect.
    simpl in Hcollect. unfold participantsFor, registrationsOf in Hps.
    fold F in Hps. rewrite Hps in Hcollect.
    assert (pushed db d = Some [participantOf d profile]) as Hd.
    { unfold pushed. subst d. simpl. by rewrite Huser, Hu, Hp. }
    rewrite Hd in Hcollect.
    assert (participantOf d profile = participantOf d profile') as Hsamep.
    { unfold participantOf. subst profile'.
      rewrite !write_lookup. by rewrite !lookup_singleton_ne. }
    rewrite Hsamep in Hcollect.
    destruct (collect db (queryOrder (F ++ [d]))) as [ps'|]; [| done].
    by exists ps'.
  - intros id Hid. unfold participantsFor. rewrite Hdocs.
    rewrite (bool_decide_eq_false_2 (id = workshopId)) by done.
    rewrite app_nil_r. by apply collect_sameIdentities.
Qed.

(** A registration that resolves shows on the dashboard as one more
    participant of the workshop, under the identifier of the new
    registration and with status "pending", at whatever place the order of
    the query gives it among the former ones; the participants of the other
    workshops are as before, and the revenue estimate, in exact
    arithmetic, is higher by the price of the workshop.  The workshops are
    listed under distinct identifiers, the user is named by a document
    identifier, and the participants of the workshop could be loaded
    before. *)
Theorem registration_raises_revenue upload added updated workshopId userId
    receiptFile db db' data ws ps :
  typedRegistrations db →
  NoDup (VendorPage.Workshop.id <$> data) →
  ws ∈ data →
  VendorPage.Workshop.id ws = workshopId →
  documentId userId = true →
  participantsFor regId queryOrder db workshopId = Some ps →
  WorkshopActions.registerForWorkshop upload added updated workshopId userId
    receiptFile db = WorkshopActions.Resolved db' →
  (∃ p ps', participantsFor regId queryOrder db' workshopId = Some ps'
            ∧ ps' ≡ₚ p :: ps
            ∧ Participant.status p = Some "pending"
            ∧ Participant.registrationId p
              = Some (regId (length (registrations db))))
  ∧ (∀ id, id ≠ workshopId →
           participantsFor regId queryOrder db' id
           = participantsFor regId queryOrder db id)
  ∧ totalRevenue data (fetchParticipants regId queryOrder data db')
    = (totalRevenue data (fetchParticipants regId queryOrder data db)
       + VendorPage.Workshop.price ws)%Qc.
Proof.
  intros _ Hnodup Hin Hid Hu Hps Hres.
  destruct (participantsFor_registered _ _ _ _ _ _ _ _ Hu Hres)
    as (p & Hstatus & Hreg & Hsame & Hother).
  destruct (Hsame ps Hps) as (ps' & Hps' & Hperm).
  split_and!.
  { by exists p, ps'. }
  { done. }
  rewrite (totalRevenue_bump data (fetchParticipants regId queryOrder data db)
             (fetchParticipants regId queryOrder data db') ws 1 Hnodup Hin).
  - change (Z.of_nat 1) with 1%Z.
    assert (num 1 = 1%Qc) as -> by apply Z2Qc_inj_1. ring.
  - unfold count. rewrite !fetchParticipants_lookup.
    rewrite bool_decide_eq_true_2
      by (apply list_elem_of_fmap; by exists ws).
    rewrite Hid, Hps, Hps'. rewrite (counted_Permutation _ _ Hperm). simpl.
    unfold counted at 1. rewrite Hstatus. simpl. lia.
  - intros w Hw. unfold count. rewrite !fetchParticipants_lookup.
    case_bool_decide; [| done]. by rewrite Hother by congruence.
Qed.

End LoadingFacts.


(** The registration stored without a status is shown as pending; the
    later registration, whose identifier is the smaller one, comes
    first. *)
Example fetchParticipants_example :
  (λ p, (Participant.registrationId p, Participant.status p))
  <$> default []
        (VendorDashboard.fetchParticipants Sample.regName Sample.byId
           [Sample.drumming] Sample.bookedStore !! "w3")
  = [(Some "8", Some "approved"); (Some "9", Some "pending")].
Proof. vm_compute. reflexivity. Qed.

Lemma registration_raises_revenue_witness :
  let db' := WorkshopActions.store
               (WorkshopActions.registerForWorkshop None true true "w3" "u1"
                  None Sample.bookedStore) in
  let ps := default []
              (VendorDashboard.participantsFor Sample.regName Sample.byId
                 Sample.bookedStore "w3") in
  (∃ p ps', VendorDashboard.participantsFor Sample.regName Sample.byId db' "w3"
            = Some ps'
            ∧ ps' ≡ₚ p :: ps
            ∧ Participant.status p = Some "pending"
            ∧ Participant.registrationId p
              = Some (Sample.regName
                        (length (Firestore.registrations Sample.bookedStore))))
  ∧ (∀ id, id ≠ "w3" →
           VendorDashboard.participantsFor Sample.regName Sample.byId db' id
           = VendorDashboard.participantsFor Sample.regName Sample.byId
               Sample.bookedStore id)
  ∧ VendorPage.totalRevenue [Sample.drumming]
      (VendorDashboard.fetchParticipants Sample.regName Sample.byId
         [Sample.drumming] db')
    = (VendorPage.totalRevenue [Sample.drumming]
         (VendorDashboard.fetchParticipants Sample.regName Sample.byId
            [Sample.drumming] Sample.bookedStore)
       + VendorPage.Workshop.price Sample.drumming)%Qc.
Proof.
  apply (registration_raises_revenue Sample.regName Sample.byId
           (λ docs, merge_sort_Permutation _ docs)
           None true true "w3" "u1" None Sample.bookedStore _
           [Sample.drumming] Sample.drumming).
  - intros r. simpl. rewrite !elem_of_cons, elem_of_nil.
    intros [-> | [-> | []]].
    + split; [left; vm_compute; reflexivity |].
      intros userId [= <-]. right. vm_compute. reflexivity.
    + split; [right; exists "approved"; vm_compute; reflexivity |].
      intros userId [= <-]. right. vm_compute. reflexivity.
  - apply NoDup_singleton.
  - by left.
  - reflexivity.
  - vm_compute. reflexivity.
  - vm_compute. reflexivity.
  - reflexivity.
Defined.

(** The new registration is returned first, its identifier being the
    smallest. *)
Example registration_order_example :
  (λ p, (Participant.registrationId p, Participant.status p))
  <$> default []
        (VendorDashboard.participantsFor Sample.regName Sample.byId
           (WorkshopActions.store
              (WorkshopActions.registerForWorkshop None true true "w3" "u1"
                 None Sample.bookedStore)) "w3")
  = [(Some "7", Some "pending"); (Some "8", Some "approved");
     (Some "9", Some "pending")].
Proof. vm_compute. reflexivity. Qed.
